(** * Invoice totals, payments and the revenue summary of [app.py]

    A shallow embedding of the financial core of the invoicing service
    ([calculate_invoice_total], [create_invoice], [pay_invoice] and
    [reports_summary] of [src/ai_invoice_generator/app.py]) together with
    the part of Python's semantics these functions rely on: dynamically
    typed JSON/BSON values, the exceptions raised by [float()], [dict.get]
    and subscripting, IEEE-754 binary64 arithmetic, [round(x, 2)],
    insertion-ordered dictionaries and stable sorting.

    Around this core the development also embeds [update_invoice],
    [generate_invoice_number], [serialize_doc], [allowed_logo_file],
    [bulk_create_clients], [delete_invoice], [delete_client] and the
    resolution of the ids of URLs, and the import script
    [migrate_json_to_mongodb] of [migrate_to_mongodb.py].  The store is
    not modelled: a handler is a function of what the store returned to it,
    and its result is the command it issues and the answer it gives. *)

From Stdlib Require Import ZArith List String Ascii Bool Lia DecimalString.
From Stdlib Require Import Sorted Permutation OrdersEx.
From Stdlib Require Import Floats.
From Stdlib Require Uint63.
From Stdlib Require DecimalN.
Import ListNotations.

Set Warnings "-register-all,-inexact-float".

Local Open Scope string_scope.
Local Open Scope Z_scope.

(** ** Python values, exceptions and builtins *)
Module Py.

(** The exception classes that the modelled code can meet. *)
Inductive exn : Set :=
| ValueError
| TypeError
| AttributeError
| OverflowError.

(** The outcome of evaluating an expression: a value or a raised exception. *)
Inductive res (A : Type) : Type :=
| Ok (a : A)
| Raise (e : exn).
Arguments Ok {A} a.
Arguments Raise {A} e.

Definition bind {A B : Type} (m : res A) (k : A -> res B) : res B :=
  match m with
  | Ok a => k a
  | Raise e => Raise e
  end.

Notation "x <- m ;; k" := (bind m (fun x => k))
  (at level 61, m at next level, right associativity).

(** [except (ValueError, TypeError)]: the two classes every handler of the
    modelled functions names. *)
Definition value_or_type_error (e : exn) : bool :=
  match e with
  | ValueError | TypeError => true
  | _ => false
  end.

(** A Python [float] is an IEEE-754 binary64 number. *)
Definition float : Set := PrimFloat.float.

(** Decoded JSON (and BSON) data.  Strings are sequences of 8-bit
    characters; dictionaries are association lists in insertion order, read
    through [dict_lookup], which returns the first binding of a key. *)
Inductive value : Type :=
| VNone
| VBool (b : bool)
| VInt (n : Z)
| VFloat (f : float)
| VStr (s : string)
| VList (l : list value)
| VDict (d : list (string * value))
| VOid (s : string)      (* bson.ObjectId *)
| VDate (t : Z).         (* datetime.datetime *)

(** *** Exact conversions to binary64 *)

(** The double nearest to [(-1)^s * n / d] (ties to even); a quotient too
    large for the format becomes an infinity. *)
Definition float_of_ratio (s : bool) (n : Z) (d : positive) : float :=
  match n with
  | Zpos p => SF2Prim (SFdiv prec emax (S754_finite s p 0) (S754_finite false d 0))
  | _ => SF2Prim (S754_zero s)
  end.

(** [float(n)] for an [int]: the nearest double, or [OverflowError]. *)
Definition float_of_int (n : Z) : res float :=
  match binary_normalize prec emax n 0 false with
  | S754_infinity _ => Raise OverflowError
  | x => Ok (SF2Prim x)
  end.

(** *** [float(s)] for a string *)

Definition is_space (c : ascii) : bool :=
  let n := nat_of_ascii c in
  (Nat.eqb n 32 || (Nat.leb 9 n && Nat.leb n 13) || Nat.eqb n 133 || Nat.eqb n 160)%bool.

Definition is_digit (c : ascii) : bool :=
  let n := nat_of_ascii c in (Nat.leb 48 n && Nat.leb n 57)%bool.

Definition digit_val (c : ascii) : Z := Z.of_nat (nat_of_ascii c) - 48.

Definition lower (c : ascii) : ascii :=
  let n := nat_of_ascii c in
  if (Nat.leb 65 n && Nat.leb n 90)%bool then ascii_of_nat (n + 32) else c.

Fixpoint lstrip (l : list ascii) : list ascii :=
  match l with
  | c :: l' => if is_space c then lstrip l' else l
  | [] => []
  end.

Definition strip (l : list ascii) : list ascii :=
  rev (lstrip (rev (lstrip l))).

(** Underscores are accepted between two digits only, and dropped. *)
Fixpoint drop_underscores (prev : option ascii) (l : list ascii) : option (list ascii) :=
  match l with
  | [] =>
      match prev with
      | Some "_"%char => None
      | _ => Some []
      end
  | c :: l' =>
      if Ascii.eqb c "_" then
        match prev with
        | Some p => if is_digit p then drop_underscores (Some c) l' else None
        | None => None
        end
      else
        match prev with
        | Some "_"%char =>
            if is_digit c then option_map (cons c) (drop_underscores (Some c) l') else None
        | _ => option_map (cons c) (drop_underscores (Some c) l')
        end
  end.

(** Splits off a leading run of digits, accumulating their value. *)
Fixpoint take_digits (acc : Z) (count : nat) (l : list ascii) : Z * nat * list ascii :=
  match l with
  | c :: l' => if is_digit c then take_digits (10 * acc + digit_val c) (S count) l'
               else (acc, count, l)
  | [] => (acc, count, [])
  end.

Definition take_sign (l : list ascii) : bool * list ascii :=
  match l with
  | "-"%char :: l' => (true, l')
  | "+"%char :: l' => (false, l')
  | _ => (false, l)
  end.

(** The exponent part [e[+-]ddd] of a literal, which must end the string. *)
Definition parse_exponent (l : list ascii) : option Z :=
  match l with
  | [] => Some 0
  | c :: l' =>
      if Ascii.eqb (lower c) "e" then
        let '(neg, l1) := take_sign l' in
        match take_digits 0 0 l1 with
        | (_, O, _) => None
        | (v, _, []) => Some (if neg then - v else v)
        | _ => None
        end
      else None
  end.

(** The value [m * 10^e] as a double. *)
Definition float_of_decimal (s : bool) (m e : Z) : float :=
  match e with
  | Zneg p => float_of_ratio s m (10 ^ p)
  | _ => float_of_ratio s (m * 10 ^ e) 1
  end.

Definition parse_decimal (s : bool) (l : list ascii) : option float :=
  let '(ip, ni, l1) := take_digits 0 0 l in
  let '(m, nf, l2) :=
    match l1 with
    | "."%char :: l1' =>
        let '(m, n, l2) := take_digits ip 0 l1' in (m, n, l2)
    | _ => (ip, O, l1)
    end in
  match (ni + nf)%nat with
  | O => None
  | _ =>
      match parse_exponent l2 with
      | Some e => Some (float_of_decimal s m (e - Z.of_nat nf))
      | None => None
      end
  end.

Definition float_of_string (s : string) : res float :=
  match drop_underscores None (strip (list_ascii_of_string s)) with
  | None => Raise ValueError
  | Some l =>
      let '(neg, body) := take_sign l in
      let word := string_of_list_ascii (map lower body) in
      if (String.eqb word "inf" || String.eqb word "infinity")%bool then
        Ok (if neg then neg_infinity else infinity)
      else if String.eqb word "nan" then Ok nan
      else
        match parse_decimal neg body with
        | Some f => Ok f
        | None => Raise ValueError
        end
  end.

(** [float(v)]. *)
Definition py_float (v : value) : res float :=
  match v with
  | VBool b => Ok (if b then one else zero)
  | VInt n => float_of_int n
  | VFloat f => Ok f
  | VStr s => float_of_string s
  | VNone | VList _ | VDict _ | VOid _ | VDate _ => Raise TypeError
  end.

(** *** [round(x, 2)] *)

(** The integer nearest to [n / d], ties to the even one ([0 <= n]). *)
Definition round_half_even (n : Z) (d : positive) : Z :=
  let q := n / Zpos d in
  let r := n mod Zpos d in
  match 2 * r ?= Zpos d with
  | Lt => q
  | Gt => q + 1
  | Eq => if Z.even q then q else q + 1
  end.

(** [round(x, 2)] on a float: the exact value of [x] is rounded to a whole
    number of hundredths (ties to even) and the double nearest to that
    decimal is returned, with the sign of [x]; zeros, infinities and NaN are
    returned unchanged. *)
Definition round2 (x : float) : float :=
  match Prim2SF x with
  | S754_finite s m e =>
      let hundredths :=
        match e with
        | Zneg p => round_half_even (Zpos m * 100) (2 ^ p)
        | _ => Zpos m * 100 * 2 ^ e
        end in
      float_of_ratio s hundredths 100
  | _ => x
  end.

(** *** Numbers: [int] and [float] under mixed arithmetic *)

Inductive num : Set :=
| NInt (n : Z)
| NFloat (f : float).

(** The operand of a mixed operation as a float.  The [int]s that the
    modelled code mixes with floats are the literals [0] and [100] and list
    lengths, for which the conversion is exact. *)
Definition as_float (a : num) : float :=
  match a with
  | NInt n => SF2Prim (binary_normalize prec emax n 0 false)
  | NFloat f => f
  end.

Definition num_add (a b : num) : num :=
  match a, b with
  | NInt x, NInt y => NInt (x + y)
  | _, _ => NFloat (as_float a + as_float b)%float
  end.

Definition num_sub (a b : num) : num :=
  match a, b with
  | NInt x, NInt y => NInt (x - y)
  | _, _ => NFloat (as_float a - as_float b)%float
  end.

Definition num_mul (a b : num) : num :=
  match a, b with
  | NInt x, NInt y => NInt (x * y)
  | _, _ => NFloat (as_float a * as_float b)%float
  end.

(** [a / b]; every use in the modelled code has a divisor that is not zero
    (the literal [100], a guarded length, a guarded positive total). *)
Definition num_truediv (a b : num) : num :=
  NFloat (as_float a / as_float b)%float.

(** [round(a, 2)]: an [int] is returned as it is. *)
Definition num_round2 (a : num) : num :=
  match a with
  | NInt n => NInt n
  | NFloat f => NFloat (round2 f)
  end.

(** [a > 0]. *)
Definition num_pos (a : num) : bool :=
  match a with
  | NInt n => 0 <? n
  | NFloat f => PrimFloat.ltb zero f
  end.

(** Python's [==] between numbers. *)
Definition num_eqb (a b : num) : bool :=
  match a, b with
  | NInt x, NInt y => x =? y
  | _, _ => PrimFloat.eqb (as_float a) (as_float b)
  end.

Definition value_of_num (a : num) : value :=
  match a with
  | NInt n => VInt n
  | NFloat f => VFloat f
  end.

(** *** Truth value, [isinstance], dictionaries *)

Definition truthy (v : value) : bool :=
  match v with
  | VNone => false
  | VBool b => b
  | VInt n => negb (n =? 0)
  | VFloat f => negb (PrimFloat.eqb f zero)
  | VStr s => negb (String.eqb s "")
  | VList l => match l with [] => false | _ => true end
  | VDict d => match d with [] => false | _ => true end
  | VOid _ | VDate _ => true
  end.

Definition isinstance_list (v : value) : bool :=
  match v with
  | VList _ => true
  | _ => false
  end.

(** The elements a [for] loop visits when its iterable is a list. *)
Definition elements (v : value) : list value :=
  match v with
  | VList l => l
  | _ => []
  end.

Fixpoint dict_lookup (k : string) (d : list (string * value)) : option value :=
  match d with
  | [] => None
  | (k', v) :: d' => if String.eqb k k' then Some v else dict_lookup k d'
  end.

(** [d[k] = v]: the binding is replaced in place, or appended. *)
Fixpoint dict_set (k : string) (v : value) (d : list (string * value))
  : list (string * value) :=
  match d with
  | [] => [(k, v)]
  | (k', v') :: d' =>
      if String.eqb k k' then (k, v) :: d' else (k', v') :: dict_set k v d'
  end.

Definition default (o : option value) (d : value) : value :=
  match o with
  | Some v => v
  | None => d
  end.

(** [x.get(k, dflt)]: only a [dict] has the method. *)
Definition get (x : value) (k : string) (dflt : value) : res value :=
  match x with
  | VDict d => Ok (default (dict_lookup k d) dflt)
  | _ => Raise AttributeError
  end.

(** *** Hashing and key equality *)

(** The equivalence class of a hashable value under [==]: booleans, ints
    and floats of equal value are one key; NaN equals nothing. *)
Inductive hkey : Set :=
| KNone
| KNum (n : Z)
| KFrac (s : bool) (m : positive) (e : Z)
| KInf (s : bool)
| KNaN
| KStr (s : string)
| KOid (s : string)
| KDate (t : Z).

Definition hkey_of_float (f : float) : hkey :=
  match Prim2SF f with
  | S754_zero _ => KNum 0
  | S754_infinity s => KInf s
  | S754_nan => KNaN
  | S754_finite s m e =>
      match e with
      | Zneg p =>
          if Zpos m mod 2 ^ Zpos p =? 0
          then KNum (if s then - (Zpos m / 2 ^ Zpos p) else Zpos m / 2 ^ Zpos p)
          else KFrac s m e
      | _ => KNum (if s then - (Zpos m * 2 ^ e) else Zpos m * 2 ^ e)
      end
  end.

(** [hash(v)] raises [TypeError] on a list or a dict. *)
Definition hash_key (v : value) : res hkey :=
  match v with
  | VNone => Ok KNone
  | VBool b => Ok (KNum (if b then 1 else 0))
  | VInt n => Ok (KNum n)
  | VFloat f => Ok (hkey_of_float f)
  | VStr s => Ok (KStr s)
  | VOid s => Ok (KOid s)
  | VDate t => Ok (KDate t)
  | VList _ | VDict _ => Raise TypeError
  end.

Definition hkey_eqb (a b : hkey) : bool :=
  match a, b with
  | KNone, KNone => true
  | KNum x, KNum y => x =? y
  | KFrac s m e, KFrac s' m' e' => (Bool.eqb s s' && Pos.eqb m m' && (e =? e'))%bool
  | KInf s, KInf s' => Bool.eqb s s'
  | KStr x, KStr y => String.eqb x y
  | KOid x, KOid y => String.eqb x y
  | KDate x, KDate y => x =? y
  | _, _ => false
  end.

(** Equality of two dictionary keys. *)
Definition key_eqb (a b : value) : bool :=
  match hash_key a, hash_key b with
  | Ok x, Ok y => hkey_eqb x y
  | _, _ => false
  end.

(** *** Dictionaries with arbitrary hashable keys, in insertion order *)

Fixpoint tbl_find {V : Type} (k : value) (t : list (value * V)) : option V :=
  match t with
  | [] => None
  | (k', v) :: t' => if key_eqb k k' then Some v else tbl_find k t'
  end.

(** [t[k] = f(t.get(k))]: an existing binding keeps its place and its key
    object; a new one is appended. *)
Fixpoint tbl_update {V : Type} (k : value) (f : option V -> V) (t : list (value * V))
  : list (value * V) :=
  match t with
  | [] => [(k, f None)]
  | (k', v) :: t' =>
      if key_eqb k k' then (k', f (Some v)) :: t'
      else (k', v) :: tbl_update k f t'
  end.

(** The same with string keys. *)
Fixpoint str_find {V : Type} (k : string) (t : list (string * V)) : option V :=
  match t with
  | [] => None
  | (k', v) :: t' => if String.eqb k k' then Some v else str_find k t'
  end.

Fixpoint str_update {V : Type} (k : string) (f : option V -> V) (t : list (string * V))
  : list (string * V) :=
  match t with
  | [] => [(k, f None)]
  | (k', v) :: t' =>
      if String.eqb k k' then (k', f (Some v)) :: t'
      else (k', v) :: str_update k f t'
  end.

(** [defaultdict(float)]: a missing key reads as [0.0]. *)
Definition float_default (o : option float) : float :=
  match o with
  | Some x => x
  | None => zero
  end.

(** *** Slicing and sorting *)

(** [x[:7]].  A value that cannot be sliced raises [TypeError]; so does a
    dictionary up to Python 3.11, where a slice is not hashable (from 3.12
    on it raises [KeyError] instead). *)
Definition slice7 (x : value) : res value :=
  match x with
  | VStr s => Ok (VStr (substring 0 7 s))
  | VList l => Ok (VList (firstn 7 l))
  | _ => Raise TypeError
  end.

(** [l[-6:]]. *)
Definition last6 {A : Type} (l : list A) : list A :=
  skipn (List.length l - 6) l.

(** Stable sorting.  [before x y] says that [x] must come before [y];
    an element is placed in front of the first one that must not precede
    it, so elements that [before] does not separate keep their order.
    On keys that [<] orders totally this is the list that [sorted] and
    [list.sort] return. *)
Fixpoint insert_sorted {A : Type} (before : A -> A -> bool) (x : A) (l : list A)
  : list A :=
  match l with
  | [] => [x]
  | y :: l' => if before y x then y :: insert_sorted before x l' else x :: l
  end.

Definition stable_sort {A : Type} (before : A -> A -> bool) (l : list A) : list A :=
  fold_right (insert_sorted before) [] l.

(** Two neighbours of a sorted list: the second need not come before the
    first. *)
Definition in_order {A : Type} (before : A -> A -> bool) (a b : A) : Prop :=
  before b a = false.

End Py.

(** ** The totals engine: [calculate_invoice_total] *)
Module Totals.
Import Py.

(** The body of the [try] block for one line item, up to the two amounts
    that are then added to the accumulators. *)
Definition item_amounts (item : value) : res (float * float) :=
  q <- get item "quantity" (VInt 0) ;;
  quantity <- py_float q ;;
  p <- get item "unit_price" (VInt 0) ;;
  unit_price <- py_float p ;;
  t <- get item "tax" (VInt 0) ;;
  tax_rate <- py_float t ;;
  let item_subtotal := (quantity * unit_price)%float in
  let item_tax := (item_subtotal * tax_rate / 100)%float in
  Ok (item_subtotal, item_tax).

(** The [for] loop: [except (ValueError, TypeError): continue] skips the
    item; any other exception leaves the function. *)
Fixpoint total_loop (items : list value) (subtotal total_tax : num)
  : res (num * num) :=
  match items with
  | [] => Ok (subtotal, total_tax)
  | item :: rest =>
      match item_amounts item with
      | Ok (item_subtotal, item_tax) =>
          total_loop rest (num_add subtotal (NFloat item_subtotal))
                          (num_add total_tax (NFloat item_tax))
      | Raise e =>
          if value_or_type_error e then total_loop rest subtotal total_tax
          else Raise e
      end
  end.

Definition calculate_invoice_total (items gst_rate : value) : res num :=
  if (negb (truthy items) || negb (isinstance_list items))%bool then Ok (NInt 0)
  else
    st <- total_loop (elements items) (NInt 0) (NInt 0) ;;
    let '(subtotal, total_tax) := st in
    g <- py_float gst_rate ;;
    let gst_amount := num_truediv (num_mul subtotal (NFloat g)) (NInt 100) in
    Ok (num_round2 (num_add (num_add subtotal total_tax) gst_amount)).

End Totals.

(** ** Recording a payment: [pay_invoice] *)
Module Payment.
Import Py.

(** The [if]/[elif]/[else] that re-evaluates the status. *)
Definition payment_status (new_paid total : float) : string :=
  if PrimFloat.leb total new_paid then "paid"
  else if PrimFloat.ltb zero new_paid then "partial"
  else "unpaid".

(** What the handler does: it answers with an error and writes nothing, or
    it issues [update_one(invoice_filter, {'$set': fields})]. *)
Inductive pay_result : Type :=
| PayError (code : Z) (error : string)
| PayUpdate (fields : list (string * value)).

(** [body] is [request.json]; [lookup] is the outcome of the block that
    resolves [invoice_id] against the collection (the document, [None], or
    the exception that leaves the block); [now] is [datetime.now()]. *)
Definition pay_invoice (body : value) (lookup : res (option value)) (now : Z)
  : pay_result :=
  if negb (truthy body) then PayError 400 "No payment data provided"
  else
    match lookup with
    | Raise _ => PayError 500 "Failed to record payment"
    | Ok None => PayError 404 "Invoice not found"
    | Ok (Some invoice) =>
        if negb (truthy invoice) then PayError 404 "Invoice not found"
        else
          match (a <- get body "amount" (VInt 0) ;; py_float a) with
          | Raise e =>
              if value_or_type_error e then PayError 400 "Invalid payment amount"
              else PayError 500 "Failed to record payment"
          | Ok payment =>
              if PrimFloat.leb payment zero then
                PayError 400 "Payment amount must be positive"
              else
                match
                  (c <- get invoice "amount_paid" (VInt 0) ;;
                   current_paid <- py_float c ;;
                   t <- get invoice "total" (VInt 0) ;;
                   total <- py_float t ;;
                   Ok (current_paid, total))
                with
                | Raise _ => PayError 500 "Failed to record payment"
                | Ok (current_paid, total) =>
                    let new_paid := (current_paid + payment)%float in
                    let status := payment_status new_paid total in
                    PayUpdate [("amount_paid", VFloat (round2 new_paid));
                               ("status", VStr status);
                               ("updated_at", VDate now)]
                end
          end
    end.

(** The tail of the handler, once the store has answered the update. *)
Definition pay_reply (modified_count : Z) (updated_invoice : value) : Z * value :=
  if modified_count =? 0 then
    (500, VDict [("error", VStr "Failed to record payment")])
  else (200, updated_invoice).

(** [$set] on a stored document. *)
Definition apply_set (fields : list (string * value)) (doc : value) : value :=
  match doc with
  | VDict d => VDict (fold_left (fun d kv => dict_set (fst kv) (snd kv) d) fields d)
  | _ => doc
  end.

(** The stored invoice once the handler has run. *)
Definition stored_after (r : pay_result) (invoice : value) : value :=
  match r with
  | PayError _ _ => invoice
  | PayUpdate fields => apply_set fields invoice
  end.

(** One accepted payment of [amount] on a stored invoice: the sum the
    handler evaluates and the invoice as stored afterwards. *)
Definition pay_step (invoice : value) (amount : float) (now : Z)
  : option (float * value) :=
  match pay_invoice (VDict [("amount", VFloat amount)]) (Ok (Some invoice)) now with
  | PayError _ _ => None
  | PayUpdate fields =>
      match (c <- get invoice "amount_paid" (VInt 0) ;; py_float c) with
      | Ok current_paid => Some ((current_paid + amount)%float, apply_set fields invoice)
      | Raise _ => None
      end
  end.

(** A sequence of payments, all accepted: the evaluated sums and the
    successive stored invoices. *)
Fixpoint pay_all (invoice : value) (amounts : list float) (now : Z)
  : option (list (float * value)) :=
  match amounts with
  | [] => Some []
  | a :: rest =>
      match pay_step invoice a now with
      | None => None
      | Some (new_paid, invoice') =>
          match pay_all invoice' rest now with
          | None => None
          | Some tr => Some ((new_paid, invoice') :: tr)
          end
      end
  end.

(** The order [unpaid < partial < paid]. *)
Definition status_rank (status : string) : Z :=
  if String.eqb status "paid" then 2
  else if String.eqb status "partial" then 1
  else 0.

Definition stored_status (invoice : value) : option string :=
  match invoice with
  | VDict d =>
      match dict_lookup "status" d with
      | Some (VStr s) => Some s
      | _ => None
      end
  | _ => None
  end.

Definition stored_field (k : string) (invoice : value) : option value :=
  match invoice with
  | VDict d => dict_lookup k d
  | _ => None
  end.

End Payment.

(** ** Creating an invoice: [create_invoice] *)
Module Create.
Import Py Totals.

(** [s.split("-")]. *)
Fixpoint split_dash (cur : list ascii) (l : list ascii) : list (list ascii) :=
  match l with
  | [] => [rev cur]
  | c :: l' =>
      if Ascii.eqb c "-" then rev cur :: split_dash [] l'
      else split_dash (c :: cur) l'
  end.

(** [int(s)] for a string, base ten. *)
Definition int_of_string (l : list ascii) : option Z :=
  match drop_underscores None (strip l) with
  | None => None
  | Some l1 =>
      let '(neg, body) := take_sign l1 in
      match take_digits 0 0 body with
      | (_, O, _) => None
      | (v, _, []) => Some (if neg then - v else v)
      | _ => None
      end
  end.

Definition decimal_of_nat (n : N) : string :=
  NilZero.string_of_uint (N.to_uint n).

Fixpoint zeros (n : nat) : string :=
  match n with
  | O => ""
  | S n' => "0" ++ zeros n'
  end.

Definition zero_pad (width : nat) (s : string) : string :=
  zeros (width - String.length s) ++ s.

(** [f"{n:04d}"]. *)
Definition format_04d (n : Z) : string :=
  match n with
  | Zneg p => "-" ++ zero_pad 3 (decimal_of_nat (Npos p))
  | _ => zero_pad 4 (decimal_of_nat (Z.to_N n))
  end.

(** [generate_invoice_number]; [last_invoice] is the list the query for the
    highest invoice number returns (at most one document). *)
Definition generate_invoice_number (last_invoice : list value) : res string :=
  match last_invoice with
  | [] => Ok "INV-0001"
  | doc :: _ =>
      last_num <- get doc "invoice_number" (VStr "INV-0000") ;;
      match last_num with
      | VStr s =>
          match split_dash [] (list_ascii_of_string s) with
          | _ :: part :: _ =>
              match int_of_string part with
              | Some num => Ok ("INV-" ++ format_04d (num + 1))
              | None => Ok "INV-0001"            (* ValueError *)
              end
          | _ => Ok "INV-0001"                   (* IndexError *)
          end
      | _ => Raise AttributeError                (* no [split] *)
      end
  end.

(** What the handler does before it answers: it rejects the request,
    fails with an exception (answered by a 500), or hands a document to
    [insert_one]. *)
Inductive create_result : Type :=
| Rejected (code : Z) (error : string)
| Failed (e : exn)
| Insert (doc : list (string * value)).

(** [body] is [request.json]. *)
Definition create_invoice (body : value) (last_invoice : list value) (now : Z)
  : create_result :=
  if negb (truthy body) then Rejected 400 "No data provided"
  else
    match body with
    | VDict invoice_data =>
        let items := default (dict_lookup "items" invoice_data) (VList []) in
        if (negb (truthy items) || negb (isinstance_list items))%bool then
          Rejected 400 "'items' must be a non-empty list"
        else
          let invoice_data :=
            dict_set "from" (default (dict_lookup "from" invoice_data) (VDict [])) invoice_data in
          let invoice_data :=
            dict_set "for" (default (dict_lookup "for" invoice_data) (VDict [])) invoice_data in
          let currency := default (dict_lookup "currency" invoice_data) (VStr "INR") in
          match
            (gst_rate <- py_float (default (dict_lookup "gst_rate" invoice_data) (VInt 18)) ;;
             total <- calculate_invoice_total items (VFloat gst_rate) ;;
             number <- generate_invoice_number last_invoice ;;
             Ok (gst_rate, total, number))
          with
          | Raise e => Failed e
          | Ok (gst_rate, total, number) =>
              let invoice_data := dict_set "invoice_number" (VStr number) invoice_data in
              let invoice_data := dict_set "total" (value_of_num total) invoice_data in
              let invoice_data := dict_set "status" (VStr "unpaid") invoice_data in
              let invoice_data := dict_set "amount_paid" (VFloat zero) invoice_data in
              let invoice_data := dict_set "currency" currency invoice_data in
              let invoice_data := dict_set "gst_rate" (VFloat gst_rate) invoice_data in
              let invoice_data := dict_set "created_at" (VDate now) invoice_data in
              let invoice_data := dict_set "updated_at" (VDate now) invoice_data in
              Insert invoice_data
          end
    | _ => Failed AttributeError
    end.

End Create.

(** ** The reporting aggregator: [reports_summary] *)
Module Reports.
Import Py.

(** The variables the loop over the invoices updates. *)
Record acc : Type := mk_acc {
  total_invoiced : num;
  total_paid : num;
  client_revenue : list (value * float);
  status_breakdown : list (string * Z);
  monthly_data : list (string * float)
}.

Definition acc0 : acc :=
  {| total_invoiced := NInt 0;
     total_paid := NInt 0;
     client_revenue := [];
     status_breakdown := [("paid", 0); ("partial", 0); ("unpaid", 0)];
     monthly_data := [] |}.

(** Statements that update the loop variables and may raise: the
    variables keep what was assigned before the exception. *)
Definition M (A : Type) : Type := acc -> acc * res A.

Definition ret {A : Type} (a : A) : M A := fun s => (s, Ok a).

Definition mbind {A B : Type} (m : M A) (k : A -> M B) : M B :=
  fun s =>
    match m s with
    | (s', Ok a) => k a s'
    | (s', Raise e) => (s', Raise e)
    end.

Notation "x <~ m ;; k" := (mbind m (fun x => k))
  (at level 61, m at next level, right associativity).

Definition lift {A : Type} (r : res A) : M A := fun s => (s, r).

Definition modify (f : acc -> acc) : M unit := fun s => (f s, Ok tt).

(** [try: m except <handled>: pass]. *)
Definition try_except (handled : exn -> bool) (m : M unit) : M unit :=
  fun s =>
    match m s with
    | (s', Raise e) => if handled e then (s', Ok tt) else (s', Raise e)
    | r => r
    end.

Fixpoint for_each (body : value -> M unit) (l : list value) : M unit :=
  match l with
  | [] => ret tt
  | x :: rest => _ <~ body x ;; for_each body rest
  end.

(** [except (IndexError, ValueError)]. *)
Definition index_or_value_error (e : exn) : bool :=
  match e with
  | ValueError => true
  | _ => false
  end.

Definition add_total_invoiced (x : float) (a : acc) : acc :=
  mk_acc (num_add (total_invoiced a) (NFloat x)) (total_paid a)
         (client_revenue a) (status_breakdown a) (monthly_data a).

Definition add_total_paid (x : float) (a : acc) : acc :=
  mk_acc (total_invoiced a) (num_add (total_paid a) (NFloat x))
         (client_revenue a) (status_breakdown a) (monthly_data a).

Definition add_status (status : string) (a : acc) : acc :=
  mk_acc (total_invoiced a) (total_paid a) (client_revenue a)
         (match str_find status (status_breakdown a) with
          | Some _ =>
              str_update status (fun o => match o with Some n => n + 1 | None => 1 end)
                         (status_breakdown a)
          | None => status_breakdown a
          end)
         (monthly_data a).

Definition add_client_revenue (client_id : value) (x : float) (a : acc) : acc :=
  mk_acc (total_invoiced a) (total_paid a)
         (tbl_update client_id (fun o => (float_default o + x)%float) (client_revenue a))
         (status_breakdown a) (monthly_data a).

Definition add_monthly (month_key : string) (x : float) (a : acc) : acc :=
  mk_acc (total_invoiced a) (total_paid a) (client_revenue a) (status_breakdown a)
         (str_update month_key (fun o => (float_default o + x)%float) (monthly_data a)).

(** [if status in status_breakdown: status_breakdown[status] += 1]. *)
Definition count_status (status : value) : M unit :=
  _ <~ lift (hash_key status) ;;
  match status with
  | VStr s => modify (add_status s)
  | _ => ret tt
  end.

(** [client_revenue[client_id] += invoice_total]. *)
Definition count_client (client_id : value) (invoice_total : float) : M unit :=
  _ <~ lift (hash_key client_id) ;;
  modify (add_client_revenue client_id invoice_total).

(** The inner [try] of the monthly step. *)
Definition count_month (invoice_date : value) (invoice_total : float) : M unit :=
  try_except index_or_value_error
    (month_key <~ lift (slice7 invoice_date) ;;
     _ <~ lift (hash_key month_key) ;;
     match month_key with
     | VStr k => modify (add_monthly k invoice_total)
     | _ => ret tt
     end).

(** The body of the loop, with its [except (ValueError, TypeError)]. *)
Definition process_invoice (inv : value) : M unit :=
  try_except value_or_type_error
    (t <~ lift (get inv "total" (VInt 0)) ;;
     invoice_total <~ lift (py_float t) ;;
     p <~ lift (get inv "amount_paid" (VInt 0)) ;;
     amount_paid <~ lift (py_float p) ;;
     status <~ lift (get inv "status" (VStr "unpaid")) ;;
     _ <~ modify (add_total_invoiced invoice_total) ;;
     _ <~ modify (add_total_paid amount_paid) ;;
     _ <~ count_status status ;;
     for_ <~ lift (get inv "for" (VDict [])) ;;
     client_id <~ lift (get for_ "id" VNone) ;;
     _ <~ (if truthy client_id then count_client client_id invoice_total else ret tt) ;;
     invoice_date <~ lift (get inv "date" (VStr "")) ;;
     if truthy invoice_date then count_month invoice_date invoice_total else ret tt).

(** [{c.get("id", c.get("_id")): c for c in clients}]. *)
Fixpoint client_dict (clients : list value) (d : list (value * value))
  : res (list (value * value)) :=
  match clients with
  | [] => Ok d
  | c :: rest =>
      oid <- get c "_id" VNone ;;
      k <- get c "id" oid ;;
      _ <- hash_key k ;;
      client_dict rest (tbl_update k (fun _ => c) d)
  end.

(** An entry of [top_clients].  [tc_name] is [None] when the roster entry
    has no name, where the handler puts the text [Client <id>]. *)
Record top_client : Type := mk_top_client {
  tc_id : value;
  tc_name : option value;
  tc_email : value;
  tc_revenue : float
}.

Definition lookup_field (k : string) (doc : value) : option value :=
  match doc with
  | VDict d => dict_lookup k d
  | _ => None
  end.

(** The loop that fills [top_clients], before sorting. *)
Fixpoint top_candidates (revenue : list (value * float)) (roster : list (value * value))
  : list top_client :=
  match revenue with
  | [] => []
  | (client_id, rev) :: rest =>
      match (if PrimFloat.ltb zero rev then tbl_find client_id roster else None) with
      | Some client =>
          mk_top_client client_id (lookup_field "name" client)
            (match lookup_field "email" client with Some e => e | None => VStr "" end)
            (round2 rev)
          :: top_candidates rest roster
      | None => top_candidates rest roster
      end
  end.

(** [top_clients.sort(key=lambda c: c["revenue"], reverse=True)]. *)
Definition sort_top_clients (l : list top_client) : list top_client :=
  stable_sort (fun a b => PrimFloat.ltb (tc_revenue b) (tc_revenue a)) l.

Definition month_names : list string :=
  ["January"; "February"; "March"; "April"; "May"; "June"; "July";
   "August"; "September"; "October"; "November"; "December"].

Definition all_digits (l : list ascii) : bool := forallb is_digit l.

Definition digits_val (l : list ascii) : Z :=
  fold_left (fun a c => 10 * a + digit_val c) l 0.

(** [datetime.strptime(month + "-01", "%Y-%m-%d").strftime("%B %Y")]: four
    digits of a year from 1 on, a dash, and a month written [1]..[9],
    [01]..[09] or [10]..[12]; anything else raises [ValueError]. *)
Definition month_label (month : string) : option string :=
  match list_ascii_of_string month with
  | y1 :: y2 :: y3 :: y4 :: "-"%char :: m =>
      let y := [y1; y2; y3; y4] in
      let mv := digits_val m in
      if (all_digits y && (1 <=? digits_val y) && all_digits m
          && (Nat.leb 1 (List.length m) && Nat.leb (List.length m) 2)
          && (1 <=? mv) && (mv <=? 12))%bool
      then Some (nth (Z.to_nat (mv - 1)) month_names "" ++ " " ++ string_of_list_ascii y)
      else None
  | _ => None
  end.

Record month_entry : Type := mk_month_entry {
  me_month : string;
  me_amount : float
}.

(** The loop over [sorted(monthly_data.items())]; the keys of a dictionary
    are distinct, so the pairs are ordered by their keys. *)
Fixpoint monthly_entries (sorted_items : list (string * float)) : list month_entry :=
  match sorted_items with
  | [] => []
  | (month, amount) :: rest =>
      match month_label month with
      | Some name => mk_month_entry name (round2 amount) :: monthly_entries rest
      | None => monthly_entries rest
      end
  end.

Definition sort_months (items : list (string * float)) : list (string * float) :=
  stable_sort (fun a b => String.ltb (fst a) (fst b)) items.

(** The ["data"] object of the answer. *)
Record summary : Type := mk_summary {
  s_total_invoiced : num;
  s_total_paid : num;
  s_total_outstanding : num;
  s_invoice_count : nat;
  s_client_count : nat;
  s_status_breakdown : list (string * Z);
  s_top_clients : list top_client;
  s_monthly_data : list month_entry;
  s_average_invoice : num;
  s_collection_rate : num
}.

(** The loop over the invoices, from the initial variables. *)
Definition accumulate (invoices : list value) : acc * res unit :=
  for_each process_invoice invoices acc0.

(** [invoices] and [clients] are the two collections as read from the
    store; an exception that reaches the outer handler (answered by a 500)
    is the [Raise] result. *)
Definition reports_summary (invoices clients : list value) : res summary :=
  match accumulate invoices with
  | (_, Raise e) => Raise e
  | (a, Ok _) =>
      let total_outstanding := num_sub (total_invoiced a) (total_paid a) in
      roster <- client_dict clients [] ;;
      let top_clients := sort_top_clients (top_candidates (client_revenue a) roster) in
      let monthly_list := monthly_entries (sort_months (monthly_data a)) in
      Ok {| s_total_invoiced := num_round2 (total_invoiced a);
            s_total_paid := num_round2 (total_paid a);
            s_total_outstanding := num_round2 total_outstanding;
            s_invoice_count := List.length invoices;
            s_client_count := List.length clients;
            s_status_breakdown := status_breakdown a;
            s_top_clients := firstn 5 top_clients;
            s_monthly_data := last6 monthly_list;
            s_average_invoice :=
              match invoices with
              | [] => NInt 0
              | _ => num_round2 (num_truediv (total_invoiced a)
                                             (NInt (Z.of_nat (List.length invoices))))
              end;
            s_collection_rate :=
              if num_pos (total_invoiced a)
              then num_round2 (num_mul (num_truediv (total_paid a) (total_invoiced a))
                                       (NInt 100))
              else NInt 0 |}
  end.

End Reports.

(** ** The vocabulary of the specification *)
Module Spec.
Import Py Totals Payment Create Reports.

(** *** Totals *)

(** The three numbers of a line item whose fields all convert. *)
Definition numeric_fields (item : value) : option (float * float * float) :=
  match item with
  | VDict d =>
      match py_float (default (dict_lookup "quantity" d) (VInt 0)),
            py_float (default (dict_lookup "unit_price" d) (VInt 0)),
            py_float (default (dict_lookup "tax" d) (VInt 0)) with
      | Ok q, Ok p, Ok t => Some (q, p, t)
      | _, _, _ => None
      end
  | _ => None
  end.

(** A sum taken from [0], left to right. *)
Definition running_sum (l : list float) : num :=
  fold_left (fun a x => num_add a (NFloat x)) l (NInt 0).

Definition closed_form_total (fields : list (float * float * float)) (g : float) : num :=
  let subtotal := running_sum (map (fun f => let '(q, p, _) := f in (q * p)%float) fields) in
  let item_tax_total :=
    running_sum (map (fun f => let '(q, p, t) := f in (q * p * t / 100)%float) fields) in
  let gst_amount := num_truediv (num_mul subtotal (NFloat g)) (NInt 100) in
  num_round2 (num_add (num_add subtotal item_tax_total) gst_amount).

Definition scenario_items : value :=
  VList [VDict [("desc", VStr "A"); ("quantity", VInt 2);
                ("unit_price", VInt 100); ("tax", VInt 10)]].

(** *** Payment status *)

(** The thresholds of the payment-status rule, as the specification lists
    them. *)
Definition threshold (status : string) (amount_paid total : float) : Prop :=
  if String.eqb status "paid" then PrimFloat.leb total amount_paid = true
  else if String.eqb status "partial" then
    PrimFloat.ltb zero amount_paid = true /\ PrimFloat.ltb amount_paid total = true
  else if String.eqb status "unpaid" then PrimFloat.eqb amount_paid zero = true
  else False.

(** Exactly one status meets its threshold, and it is the computed one. *)
Definition one_status_per_thresholds (amount_paid total : float) : Prop :=
  forall status, threshold status amount_paid total <->
                 payment_status amount_paid total = status.

(** *** Sequences of payments *)

(** The amount paid and the total of a stored invoice, as the payment
    action reads them. *)
Definition amount_of (invoice : value) : res float :=
  c <- get invoice "amount_paid" (VInt 0) ;; py_float c.

Definition total_of (invoice : value) : res float :=
  t <- get invoice "total" (VInt 0) ;; py_float t.

Definition rank_of (invoice : value) : Z :=
  match stored_status invoice with
  | Some s => status_rank s
  | None => 0
  end.

(** From one stored state to the next, the status does not go down and
    the amount paid does not decrease. *)
Definition no_regress (prev next : value) : Prop :=
  rank_of prev <= rank_of next
  /\ exists p q, amount_of prev = Ok p /\ amount_of next = Ok q
                 /\ PrimFloat.leb p q = true.

Fixpoint never_regresses (prev : value) (states : list value) : Prop :=
  match states with
  | [] => True
  | next :: rest => no_regress prev next /\ never_regresses next rest
  end.

Definition payments_never_regress (invoice : value) (amounts : list float) (now : Z)
  : Prop :=
  Forall (fun a => PrimFloat.ltb zero a = true) amounts ->
  forall trace, pay_all invoice amounts now = Some trace ->
                never_regresses invoice (map snd trace).

(** What a sequence of accepted payments does, step by step: the sum the
    handler evaluates, the amount and the status it stores, and the total
    it leaves in place. *)
Fixpoint follows (prev : value) (amounts : list float) (trace : list (float * value))
         (total : float) : Prop :=
  match amounts, trace with
  | [], [] => True
  | a :: amounts', (new_paid, next) :: trace' =>
      PrimFloat.leb a zero = false
      /\ (exists current_paid,
             amount_of prev = Ok current_paid /\ new_paid = (current_paid + a)%float)
      /\ stored_field "amount_paid" next = Some (VFloat (round2 new_paid))
      /\ stored_status next = Some (payment_status new_paid total)
      /\ total_of next = Ok total
      /\ follows next amounts' trace' total
  | _, _ => False
  end.

Definition fresh_invoice : value :=
  VDict [("total", VFloat 256%float); ("amount_paid", VFloat 0%float);
         ("status", VStr "unpaid")].

Definition third_paid_invoice : value :=
  VDict [("total", VFloat 100%float); ("amount_paid", VFloat 33.333%float);
         ("status", VStr "partial")].

(** *** Top clients *)

(** The key under which a client is entered in the roster. *)
Definition roster_key (c : value) : res value :=
  oid <- get c "_id" VNone ;; get c "id" oid.

Definition in_roster (client_id : value) (clients : list value) : Prop :=
  exists c k, In c clients /\ roster_key c = Ok k /\ key_eqb client_id k = true.

(** [x] occurs in the list, and [y] occurs somewhere after it. *)
Inductive occurs_before {A : Type} (x y : A) : list A -> Prop :=
| occurs_here (l : list A) : In y l -> occurs_before x y (x :: l)
| occurs_later (z : A) (l : list A) : occurs_before x y l -> occurs_before x y (z :: l).

(** *** Summary totals *)

(** The two amounts the summary reads from an invoice. *)
Definition invoice_amounts (inv : value) : res (float * float) :=
  t <- get inv "total" (VInt 0) ;;
  invoice_total <- py_float t ;;
  p <- get inv "amount_paid" (VInt 0) ;;
  amount_paid <- py_float p ;;
  Ok (invoice_total, amount_paid).

(** The amounts of the invoices on which both conversions succeed. *)
Definition counted_amounts (invoices : list value) : list (float * float) :=
  flat_map (fun inv => match invoice_amounts inv with
                       | Ok x => [x]
                       | Raise _ => []
                       end) invoices.

(** The full-precision sums. *)
Definition invoiced_sum (invoices : list value) : num :=
  running_sum (map fst (counted_amounts invoices)).

Definition paid_sum (invoices : list value) : num :=
  running_sum (map snd (counted_amounts invoices)).

(** The equation between the three totals as the summary shows them. *)
Definition outstanding_is_difference_of_outputs (invoices clients : list value) : Prop :=
  forall s, reports_summary invoices clients = Ok s ->
            num_eqb (s_total_outstanding s)
                    (num_sub (s_total_invoiced s) (s_total_paid s)) = true.

Definition two_small_invoices : list value :=
  [VDict [("total", VFloat 0.1%float); ("amount_paid", VFloat 0.1%float);
          ("status", VStr "paid")];
   VDict [("total", VFloat 0.2%float); ("amount_paid", VFloat 0%float);
          ("status", VStr "unpaid")]].

(** *** Monthly revenue *)

(** The year-month key of an invoice: the first seven characters of a date
    that is a non-empty string. *)
Definition month_key (inv : value) : option string :=
  match lookup_field "date" inv with
  | Some (VStr d) => if String.eqb d "" then None else Some (substring 0 7 d)
  | _ => None
  end.

Definition is_ok {A : Type} (r : res A) : bool :=
  match r with
  | Ok _ => true
  | Raise _ => false
  end.

(** An invoice whose fields other than the date are as [create_invoice]
    and [pay_invoice] store them: numeric amounts, a hashable status, a
    client reference that is a record with a hashable or empty id.  The
    date is anything but a JSON object. *)
Definition regular (inv : value) : bool :=
  match inv with
  | VDict d =>
      is_ok (py_float (default (dict_lookup "total" d) (VInt 0)))
      && is_ok (py_float (default (dict_lookup "amount_paid" d) (VInt 0)))
      && is_ok (hash_key (default (dict_lookup "status" d) (VStr "unpaid")))
      && match default (dict_lookup "for" d) (VDict []) with
         | VDict f =>
             let client_id := default (dict_lookup "id" f) VNone in
             negb (truthy client_id) || is_ok (hash_key client_id)
         | _ => false
         end
      && match dict_lookup "date" d with
         | Some (VDict _) => false
         | _ => true
         end
  | _ => false
  end.

(** A sum taken from [start], left to right. *)
Definition sum_from (start : float) (xs : list float) : float :=
  fold_left PrimFloat.add xs start.





(** *** Sample data *)

(** A small collection: nine invoices of three clients over eight months,
    one without a date and one with a date that names no month. *)
Definition invoice_record (total paid : float) (status : string) (client date : value)
  : value :=
  VDict [("total", VFloat total); ("amount_paid", VFloat paid);
         ("status", VStr status); ("for", VDict [("id", client)]); ("date", date)].

Definition sample_invoices : list value :=
  [invoice_record 256%float 256%float "paid" (VInt 1) (VStr "2024-03-15");
   invoice_record 100%float 0%float "unpaid" (VStr "b") (VStr "2024-01-03");
   invoice_record 100%float 40%float "partial" (VInt 3) (VStr "2024-02-11");
   invoice_record 50%float 50%float "paid" (VStr "b") (VStr "2024-03-20");
   invoice_record 75%float 0%float "unpaid" (VInt 1) (VStr "2024-04-01");
   invoice_record 20%float 0%float "unpaid" (VInt 3) VNone;
   invoice_record 30%float 0%float "unpaid" (VInt 3) (VStr "next week");
   invoice_record 10%float 10%float "paid" (VInt 1) (VStr "2024-05-09");
   invoice_record 10%float 10%float "paid" (VInt 1) (VStr "2024-06-09");
   invoice_record 10%float 10%float "paid" (VInt 1) (VStr "2024-07-09");
   invoice_record 10%float 10%float "paid" (VInt 1) (VStr "2024-08-09")].

Definition sample_clients : list value :=
  [VDict [("_id", VOid "65a1"); ("id", VInt 1); ("name", VStr "Ann")];
   VDict [("_id", VStr "b"); ("email", VStr "b@example.org")];
   VDict [("_id", VOid "65a3"); ("id", VFloat 3%float); ("name", VStr "Cy")]].

End Spec.

(** ** The loop body of the summary in direct style *)
Module Direct.
Import Py Reports.

(** The handler of the loop body, applied to the outcome of its [try]
    block. *)
Definition handled (r : acc * res unit) : acc * res unit :=
  match r with
  | (a, Raise e) => (a, if value_or_type_error e then Ok tt else Raise e)
  | _ => r
  end.

(** The monthly step in direct style. *)
Definition month_step (date : value) (t : float) (a : acc) : acc * res unit :=
  if truthy date then
    match date with
    | VStr s => (add_monthly (substring 0 7 s) t a, Ok tt)
    | _ => (a, Raise TypeError)
    end
  else (a, Ok tt).

(** The client step in direct style. *)
Definition client_step (client_id : value) (t : float) (a : acc) : acc * res unit :=
  if truthy client_id then
    match hash_key client_id with
    | Ok _ => (add_client_revenue client_id t a, Ok tt)
    | Raise e => (a, Raise e)
    end
  else (a, Ok tt).

(** The statements of the loop body that follow the two totals. *)
Definition after_totals (d : list (string * value)) (t : float) (a : acc)
  : acc * res unit :=
  let status := default (dict_lookup "status" d) (VStr "unpaid") in
  match hash_key status with
  | Raise e => (a, Raise e)
  | Ok _ =>
      let a2 := match status with VStr s => add_status s a | _ => a end in
      match get (default (dict_lookup "for" d) (VDict [])) "id" VNone with
      | Raise e => (a2, Raise e)
      | Ok client_id =>
          match client_step client_id t a2 with
          | (a3, Raise e) => (a3, Raise e)
          | (a3, Ok _) => month_step (default (dict_lookup "date" d) (VStr "")) t a3
          end
      end
  end.

Definition body_direct (d : list (string * value)) (a : acc) : acc * res unit :=
  match py_float (default (dict_lookup "total" d) (VInt 0)) with
  | Raise e => (a, Raise e)
  | Ok t =>
      match py_float (default (dict_lookup "amount_paid" d) (VInt 0)) with
      | Raise e => (a, Raise e)
      | Ok p => after_totals d t (add_total_paid p (add_total_invoiced t a))
      end
  end.


End Direct.

(** ** Keys that order the floats *)
Module FloatKeys.

(** A key whose lexicographic order is the order of the floats that are
    not NaN. *)
Definition ford (x : spec_float) : option (Z * Z * Z) :=
  match x with
  | S754_nan => None
  | S754_zero _ => Some (0, 0, 0)
  | S754_infinity s => Some (if s then -2 else 2, 0, 0)
  | S754_finite s m e => Some (if s then (-1, - e, - Zpos m) else (1, e, Zpos m))
  end.

Definition lex3 (a b : Z * Z * Z) : comparison :=
  let '(a1, a2, a3) := a in
  let '(b1, b2, b3) := b in
  match a1 ?= b1 with
  | Eq => match a2 ?= b2 with Eq => a3 ?= b3 | c => c end
  | c => c
  end.

Definition fcmp (x y : float) : option comparison :=
  SFcompare (Prim2SF x) (Prim2SF y).

End FloatKeys.

(** ** Replacing an invoice: [update_invoice] *)
Module Update.
Import Py Totals.

(** [d.pop(k, None)]. *)
Fixpoint dict_remove (k : string) (d : list (string * value)) : list (string * value) :=
  match d with
  | [] => []
  | (k', v) :: d' =>
      if String.eqb k k' then dict_remove k d' else (k', v) :: dict_remove k d'
  end.

(** [if k not in d: d[k] = v]. *)
Definition set_if_absent (k : string) (v : value) (d : list (string * value))
  : list (string * value) :=
  match dict_lookup k d with
  | Some _ => d
  | None => dict_set k v d
  end.

(** What the handler does before it answers: it rejects the request,
    fails with an exception (answered by a 500), or issues
    [update_one(invoice_filter, {'$set': fields})]. *)
Inductive update_result : Type :=
| NotUpdated (code : Z) (error : string)
| UpdateFailed (e : exn)
| UpdateSet (fields : list (string * value)).

(** [body] is [request.json]; [lookup] is the outcome of the block that
    resolves [invoice_id] against the collection; [now] is
    [datetime.now()].  The stored invoice is read with [invoice.get] at
    four places; a read can only fail at the first of them, so the two
    reads that the handler makes under a condition are made here at
    once. *)
Definition update_invoice (body : value) (lookup : res (option value)) (now : Z)
  : update_result :=
  if negb (truthy body) then NotUpdated 400 "No data provided"
  else
    match lookup with
    | Raise e => UpdateFailed e
    | Ok None => NotUpdated 404 "Invoice not found"
    | Ok (Some invoice) =>
        if negb (truthy invoice) then NotUpdated 404 "Invoice not found"
        else
          match body with
          | VDict update_data =>
              let items := default (dict_lookup "items" update_data) (VList []) in
              if (negb (truthy items) || negb (isinstance_list items))%bool then
                NotUpdated 400 "'items' must be a non-empty list"
              else
                let update_data :=
                  dict_set "from" (default (dict_lookup "from" update_data) (VDict []))
                           update_data in
                let update_data :=
                  dict_set "for" (default (dict_lookup "for" update_data) (VDict []))
                           update_data in
                match
                  (stored_currency <- get invoice "currency" (VStr "INR") ;;
                   let currency :=
                     default (dict_lookup "currency" update_data) stored_currency in
                   stored_rate <- get invoice "gst_rate" (VInt 18) ;;
                   gst_rate <-
                     py_float (default (dict_lookup "gst_rate" update_data) stored_rate) ;;
                   total <- calculate_invoice_total items (VFloat gst_rate) ;;
                   stored_paid <- get invoice "amount_paid" (VInt 0) ;;
                   stored_status <- get invoice "status" (VStr "unpaid") ;;
                   Ok (currency, gst_rate, total, stored_paid, stored_status))
                with
                | Raise e => UpdateFailed e
                | Ok (currency, gst_rate, total, stored_paid, stored_status) =>
                    let update_data := dict_set "total" (value_of_num total) update_data in
                    let update_data := dict_set "currency" currency update_data in
                    let update_data := dict_set "gst_rate" (VFloat gst_rate) update_data in
                    let update_data := dict_set "updated_at" (VDate now) update_data in
                    let update_data := set_if_absent "amount_paid" stored_paid update_data in
                    let update_data := set_if_absent "status" stored_status update_data in
                    let update_data := dict_remove "_id" update_data in
                    let update_data := dict_remove "id" update_data in
                    let update_data := dict_remove "invoice_number" update_data in
                    let update_data := dict_remove "created_at" update_data in
                    UpdateSet update_data
                end
          | _ => UpdateFailed AttributeError
          end
    end.

(** The tail of the handler, once the store has answered the update. *)
Definition update_reply (modified_count matched_count : Z) (updated_invoice : value)
  : Z * value :=
  if ((modified_count =? 0) && (matched_count =? 0))%bool then
    (404, VDict [("error", VStr "Invoice not found")])
  else (200, updated_invoice).

End Update.

(** ** Logo file names: [allowed_logo_file] *)
Module Logos.
Import Py.

Definition ALLOWED_LOGO_EXTENSIONS : list string :=
  ["png"; "jpg"; "jpeg"; "gif"; "svg"].

(** [c.lower()] on a character below 256: the letters [A]-[Z] and the
    accented capitals [192]-[222], the sign [215] apart, move up by 32. *)
Definition lower_char (c : ascii) : ascii :=
  let n := nat_of_ascii c in
  if ((Nat.leb 65 n && Nat.leb n 90)
      || (Nat.leb 192 n && Nat.leb n 222 && negb (Nat.eqb n 215)))%bool
  then ascii_of_nat (n + 32) else c.

(** [s.lower()]. *)
Fixpoint str_lower (s : string) : string :=
  match s with
  | EmptyString => EmptyString
  | String c s' => String (lower_char c) (str_lower s')
  end.

(** ['.' in s]. *)
Fixpoint has_dot (s : string) : bool :=
  match s with
  | EmptyString => false
  | String c s' => (Ascii.eqb c "." || has_dot s')%bool
  end.

(** The split of a text at its last dot, if it has one. *)
Fixpoint split_last_dot (s : string) : option (string * string) :=
  match s with
  | EmptyString => None
  | String c s' =>
      match split_last_dot s' with
      | Some (before, after) => Some (String c before, after)
      | None => if Ascii.eqb c "." then Some (EmptyString, s') else None
      end
  end.

(** [s.rsplit('.', 1)]. *)
Definition rsplit_dot (s : string) : list string :=
  match split_last_dot s with
  | Some (before, after) => [before; after]
  | None => [s]
  end.

(** [allowed_logo_file]; [None] stands for the [IndexError] of the
    subscript [[1]]. *)
Definition allowed_logo_file (filename : string) : option bool :=
  if has_dot filename then
    match nth_error (rsplit_dot filename) 1 with
    | Some extension =>
        Some (existsb (String.eqb (str_lower extension)) ALLOWED_LOGO_EXTENSIONS)
    | None => None
    end
  else Some false.

End Logos.

(** ** Documents as JSON: [serialize_doc] *)
Module Serialize.
Import Py.

Section SerializeDoc.

(** [str(v)] for a value that is neither a string nor an [ObjectId], and
    [t.isoformat()]: the two conversions are left open, and what is proved
    of [serialize_doc] holds whatever texts they produce. *)
Variable text_of : value -> string.
Variable isoformat : Z -> string.

(** [str(v)]; an [ObjectId] is written as its 24 hexadecimal digits, which
    is what [VOid] carries. *)
Definition py_str (v : value) : string :=
  match v with
  | VStr s => s
  | VOid s => s
  | _ => text_of v
  end.

Fixpoint serialize_doc (doc : value) : value :=
  match doc with
  | VNone => VNone
  | VList l => VList (map serialize_doc l)
  | VDict d =>
      VDict
        (fold_left
           (fun result kv =>
              let '(key, v) := kv in
              if String.eqb key "_id" then dict_set "id" (VStr (py_str v)) result
              else
                match v with
                | VOid _ => dict_set key (VStr (py_str v)) result
                | VDate t => dict_set key (VStr (isoformat t)) result
                | VDict _ => dict_set key (serialize_doc v) result
                | VList l => dict_set key (VList (map serialize_doc l)) result
                | _ => dict_set key v result
                end)
           d [])
  | _ => doc
  end.

End SerializeDoc.

End Serialize.

(** ** The one-shot import: [migrate_json_to_mongodb] *)
Module Migrate.
Import Py Update Logos.

(** [v.lower()]: only a [str] has the method. *)
Definition lower_method (v : value) : res string :=
  match v with
  | VStr s => Ok (str_lower s)
  | _ => Raise AttributeError
  end.

(** [x.setdefault(k, v)]: only a [dict] has the method. *)
Definition setdefault (x : value) (k : string) (v : value) : res value :=
  match x with
  | VDict d => Ok (VDict (set_if_absent k v d))
  | _ => Raise AttributeError
  end.

(** The values a [for] loop visits: the elements of a list, the keys of a
    dictionary, the characters of a text; nothing else can be iterated. *)
Definition iterate (v : value) : res (list value) :=
  match v with
  | VList l => Ok l
  | VDict d => Ok (map (fun kv => VStr (fst kv)) d)
  | VStr s => Ok (map (fun c => VStr (String c EmptyString)) (list_ascii_of_string s))
  | _ => Raise TypeError
  end.

(** [s.add(x)] on a set of texts. *)
Definition set_add (x : string) (s : list string) : list string :=
  if existsb (String.eqb x) s then s else (s ++ [x])%list.

(** The variables of the loop over the clients. *)
Record seen : Type := mk_seen {
  emails_seen : list string;
  unique_clients : list value;
  duplicates : list string
}.

(** The loop that keeps one client per e-mail address. *)
Fixpoint unique_loop (clients_data : list value) (now : Z) (st : seen) : res seen :=
  match clients_data with
  | [] => Ok st
  | client :: rest =>
      e <- get client "email" (VStr "") ;;
      email <- lower_method e ;;
      if String.eqb email "" then unique_loop rest now st
      else if existsb (String.eqb email) (emails_seen st) then
        unique_loop rest now
          (mk_seen (emails_seen st) (unique_clients st) (set_add email (duplicates st)))
      else
        client <- setdefault client "created_at" (VDate now) ;;
        client <- setdefault client "updated_at" (VDate now) ;;
        unique_loop rest now
          (mk_seen (set_add email (emails_seen st)) (unique_clients st ++ [client])
                   (duplicates st))
  end.

(** The loop that stamps the invoices. *)
Fixpoint stamp_loop (invoices_data : list value) (now : Z) : res (list value) :=
  match invoices_data with
  | [] => Ok []
  | invoice :: rest =>
      invoice <- setdefault invoice "created_at" (VDate now) ;;
      invoice <- setdefault invoice "updated_at" (VDate now) ;;
      rest <- stamp_loop rest now ;;
      Ok (invoice :: rest)
  end.

(** The two collections when the script ends, and the exception that ended
    it, if one did.  Both collections are dropped first; [insert_many] is
    reached only after the loop over the data has ended. *)
Record migrated : Type := mk_migrated {
  clients_col : list value;
  invoices_col : list value;
  failure : option exn
}.

(** [clients_file] and [invoices_file] are the decoded contents of the two
    files, [None] for a file that does not exist. *)
Definition migrate_json_to_mongodb (clients_file invoices_file : option value) (now : Z)
  : migrated :=
  match
    match clients_file with
    | Some clients_data =>
        l <- iterate clients_data ;;
        st <- unique_loop l now (mk_seen [] [] []) ;;
        Ok (unique_clients st)
    | None => Ok []
    end
  with
  | Raise e => mk_migrated [] [] (Some e)
  | Ok clients =>
      match
        match invoices_file with
        | Some invoices_data =>
            l <- iterate invoices_data ;;
            stamp_loop l now
        | None => Ok []
        end
      with
      | Raise e => mk_migrated clients [] (Some e)
      | Ok invoices => mk_migrated clients invoices None
      end
  end.

End Migrate.

(** ** Importing a list of clients: [bulk_create_clients] *)
Module Bulk.
Import Py Create Logos Serialize Migrate.

(** [c.isspace()] on a character below 256. *)
Definition is_blank (c : ascii) : bool :=
  let n := nat_of_ascii c in
  ((Nat.leb 9 n && Nat.leb n 13) || (Nat.leb 28 n && Nat.leb n 32)
   || Nat.eqb n 133 || Nat.eqb n 160)%bool.

Fixpoint lstrip_blank (l : list ascii) : list ascii :=
  match l with
  | c :: l' => if is_blank c then lstrip_blank l' else l
  | [] => []
  end.

(** [s.strip()]. *)
Definition str_strip (s : string) : string :=
  string_of_list_ascii
    (rev (lstrip_blank (rev (lstrip_blank (list_ascii_of_string s))))).

(** [type(v).__name__], as an [AttributeError] quotes it. *)
Definition type_name (v : value) : string :=
  match v with
  | VNone => "NoneType"
  | VBool _ => "bool"
  | VInt _ => "int"
  | VFloat _ => "float"
  | VStr _ => "str"
  | VList _ => "list"
  | VDict _ => "dict"
  | VOid _ => "ObjectId"
  | VDate _ => "datetime.datetime"
  end.

(** The text of the [AttributeError] for a method the value has not. *)
Definition no_attribute (v : value) (method : string) : string :=
  "'" ++ type_name v ++ "' object has no attribute '" ++ method ++ "'".

(** The [results] of the answer. *)
Record results : Type := mk_results {
  successful : Z;
  failed : Z;
  errors : list string
}.

(** The variables of the loop over the rows. *)
Record batch : Type := mk_batch {
  b_results : results;
  existing_emails : list string;
  clients_to_insert : list value
}.

Definition fail_row (error : string) (b : batch) : batch :=
  mk_batch (mk_results (successful (b_results b)) (failed (b_results b) + 1)
                       (errors (b_results b) ++ [error]))
           (existing_emails b) (clients_to_insert b).

Definition row_label (index : nat) : string :=
  "Row " ++ decimal_of_nat (N.of_nat (index + 1)) ++ ": ".

Section BulkCreate.

(** [str(v)] for a value that is not a text, as in [serialize_doc]. *)
Variable text_of : value -> string.

(** [str(client_data.get(k, '')).strip()]. *)
Definition clean_field (d : list (string * value)) (k : string) : value :=
  VStr (str_strip (py_str text_of (default (dict_lookup k d) (VStr "")))).

(** One turn of the loop over the rows, with its [except Exception]. *)
Definition bulk_row (index : nat) (client_data : value) (now : Z) (b : batch) : batch :=
  match client_data with
  | VDict d =>
      if (negb (truthy (default (dict_lookup "name" d) VNone))
          || negb (truthy (default (dict_lookup "email" d) VNone)))%bool
      then fail_row (row_label index ++ "Missing required fields (name and email)") b
      else
        match default (dict_lookup "email" d) (VStr "") with
        | VStr given =>
            let email := str_lower given in
            if existsb (String.eqb email) (existing_emails b) then
              fail_row (row_label index ++ "Email '" ++ given ++ "' already exists") b
            else
              let clean_data :=
                VDict [("name", clean_field d "name");
                       ("email", VStr email);
                       ("phone", clean_field d "phone");
                       ("company", clean_field d "company");
                       ("billing_address", clean_field d "billing_address");
                       ("actual_address", clean_field d "actual_address");
                       ("notes", clean_field d "notes");
                       ("created_at", VDate now);
                       ("updated_at", VDate now)] in
              mk_batch (mk_results (successful (b_results b) + 1) (failed (b_results b))
                                   (errors (b_results b)))
                       (set_add email (existing_emails b))
                       (clients_to_insert b ++ [clean_data])
        | v => fail_row (row_label index ++ no_attribute v "lower") b
        end
  | v => fail_row (row_label index ++ no_attribute v "get") b
  end.

(** [for index, client_data in enumerate(request.json)]. *)
Fixpoint bulk_loop (index : nat) (rows : list value) (now : Z) (b : batch) : batch :=
  match rows with
  | [] => b
  | client_data :: rest => bulk_loop (S index) rest now (bulk_row index client_data now b)
  end.

(** The loop that collects the addresses already in the collection. *)
Fixpoint collect_emails (existing : list value) (emails : list string)
  : res (list string) :=
  match existing with
  | [] => Ok emails
  | client :: rest =>
      e <- get client "email" (VStr "") ;;
      email <- lower_method e ;;
      collect_emails rest (set_add email emails)
  end.

(** What the handler does: it rejects the request, fails with an exception
    (answered by a 500), or answers 200 with [results] after handing
    [clients_to_insert], when it is not empty, to [insert_many]. *)
Inductive bulk_result : Type :=
| BulkRejected (code : Z) (error : string)
| BulkFailed (e : exn)
| BulkDone (r : results) (clients_to_insert : list value).

(** [body] is [request.json]; [existing] is what
    [clients_collection.find({}, {'email': 1})] returns. *)
Definition bulk_create_clients (body : value) (existing : list value) (now : Z)
  : bulk_result :=
  if (negb (truthy body) || negb (isinstance_list body))%bool then
    BulkRejected 400 "Data must be a list of client objects"
  else
    match collect_emails existing [] with
    | Raise e => BulkFailed e
    | Ok emails =>
        let b := bulk_loop 0 (elements body) now
                           (mk_batch (mk_results 0 0 []) emails []) in
        BulkDone (b_results b) (clients_to_insert b)
    end.

End BulkCreate.

End Bulk.

(** ** Ids in the URL, and the two handlers that delete *)
Module Ids.
Import Py Create Serialize.

(** The filter of a query on a collection: [{'_id': ObjectId(id)}] or
    [{'id': int(id)}]. *)
Inductive query : Type :=
| ByObjectId (oid : string)
| ByLegacyId (n : Z).

(** [int(s)] for a text. *)
Definition py_int (s : string) : res Z :=
  match int_of_string (list_ascii_of_string s) with
  | Some n => Ok n
  | None => Raise ValueError
  end.

(** What a handler answers: a status code with a [message] or with an
    [error]. *)
Inductive answer : Type :=
| Message (code : Z) (message : string)
| Error (code : Z) (error : string).

(** [", ".join(l)]; [None] stands for the [TypeError] raised on an element
    that is not a text. *)
Fixpoint join_comma (l : list value) : option string :=
  match l with
  | [] => Some ""
  | VStr s :: rest =>
      match rest with
      | [] => Some s
      | _ => option_map (fun tail => s ++ ", " ++ tail) (join_comma rest)
      end
  | _ => None
  end.

Section Resolve.

(** [ObjectId.is_valid], of the driver. *)
Variable is_valid : string -> bool.

(** [str(v)] for a value that is not a text, as in [serialize_doc]. *)
Variable text_of : value -> string.

(** The block that turns the id of the URL into a filter: the [try] with
    its [except (ValueError, InvalidId)], which tries [int(id)] again.
    [ObjectId(id)] does not raise once [is_valid(id)] holds. *)
Definition resolve (id : string) : res query :=
  match (if is_valid id then Ok (ByObjectId id)
         else n <- py_int id ;; Ok (ByLegacyId n)) with
  | Ok q => Ok q
  | Raise ValueError => n <- py_int id ;; Ok (ByLegacyId n)
  | Raise e => Raise e
  end.

(** The block that finds the invoice in [pay_invoice] and
    [update_invoice]; [find_one] is the collection. *)
Definition find_by_id (find_one : query -> option value) (id : string)
  : res (option value) :=
  q <- resolve id ;; Ok (find_one q).

(** [delete_invoice]: the [delete_one] it issues, if any, and its answer;
    [delete_one] gives the [deleted_count] of the store. *)
Definition delete_invoice (invoice_id : string) (delete_one : query -> Z)
  : option query * answer :=
  match resolve invoice_id with
  | Raise _ => (None, Error 500 "Failed to delete invoice")
  | Ok q =>
      if delete_one q =? 0 then (Some q, Error 404 "Invoice not found")
      else (Some q, Message 200 ("Invoice " ++ invoice_id ++ " deleted successfully"))
  end.

(** The key under which [delete_client] looks for invoices:
    [client['_id']] for a client found by its [ObjectId] ([None] when no
    client was found), the integer of the URL otherwise.  The outer
    [None] stands for the exception of a failed subscript. *)
Definition search_id (q : query) (client : option value) : option value :=
  match q with
  | ByObjectId _ =>
      match client with
      | Some c =>
          if truthy c then
            match c with
            | VDict d => dict_lookup "_id" d
            | _ => None
            end
          else Some VNone
      | None => Some VNone
      end
  | ByLegacyId n => Some (VInt n)
  end.

(** [inv.get("invoice_number", f"#{inv.get('_id')}")] for each invoice. *)
Fixpoint invoice_numbers (client_invoices : list value) : option (list value) :=
  match client_invoices with
  | [] => Some []
  | VDict d :: rest =>
      let number :=
        default (dict_lookup "invoice_number" d)
                (VStr ("#" ++ py_str text_of (default (dict_lookup "_id" d) VNone))) in
      option_map (cons number) (invoice_numbers rest)
  | _ => None
  end.

(** [delete_client]: the [delete_one] it issues, if any, and its answer.
    [find_one] is the collection of clients, [invoices_for k] the list
    that [invoices_collection.find({'for.id': k})] returns. *)
Definition delete_client (client_id : string) (find_one : query -> option value)
           (invoices_for : value -> list value) (delete_one : query -> Z)
  : option query * answer :=
  let failed := (None, Error 500 "Failed to delete client") in
  match resolve client_id with
  | Raise _ => failed
  | Ok q =>
      let client := find_one q in
      match search_id q client with
      | None => failed
      | Some key =>
          match client with
          | None => (None, Error 404 "Client not found")
          | Some c =>
              if negb (truthy c) then (None, Error 404 "Client not found")
              else
                match c with
                | VDict d =>
                    let client_invoices := invoices_for key in
                    match client_invoices with
                    | _ :: _ =>
                        match invoice_numbers client_invoices with
                        | None => failed
                        | Some numbers =>
                            match join_comma (firstn 3 numbers) with
                            | None => failed
                            | Some shown =>
                                (None,
                                 Error 400
                                   ("Cannot delete client. Client has "
                                    ++ decimal_of_nat
                                         (N.of_nat (List.length client_invoices))
                                    ++ " associated invoices: " ++ shown
                                    ++ (if Nat.ltb 3 (List.length numbers)
                                        then "..." else "")))
                            end
                        end
                    | [] =>
                        if delete_one q =? 0 then (Some q, Error 404 "Client not found")
                        else
                          (Some q,
                           Message 200
                             ("Client '"
                              ++ py_str text_of
                                   (default (dict_lookup "name" d) (VStr "Unknown"))
                              ++ "' deleted successfully"))
                    end
                | _ => failed
                end
          end
      end
  end.

End Resolve.

End Ids.

(** ** Vocabulary of the further properties *)
Module Terms.
Import Py Totals Create Reports Spec Logos Serialize Migrate Bulk Ids.

Definition is_dict (v : value) : bool :=
  match v with
  | VDict _ => true
  | _ => false
  end.

(** A field whose conversion overflows: an [int] beyond the range of a
    double. *)
Definition overflows (v : value) : bool :=
  match py_float v with
  | Raise OverflowError => true
  | _ => false
  end.

Definition item_overflows (item : value) : bool :=
  match item with
  | VDict d =>
      overflows (default (dict_lookup "quantity" d) (VInt 0))
      || overflows (default (dict_lookup "unit_price" d) (VInt 0))
      || overflows (default (dict_lookup "tax" d) (VInt 0))
  | _ => false
  end.

(** An item that the loop skips. *)
Definition skipped (item : value) : Prop :=
  exists e, item_amounts item = Raise e /\ value_or_type_error e = true.

(** The keys of a stored invoice that [update_invoice] takes out of its
    [$set]. *)
Definition kept_on_update : list string :=
  ["_id"; "id"; "invoice_number"; "created_at"].

(** The keys [create_invoice] assigns after copying the request. *)
Definition assigned_on_create : list string :=
  ["from"; "for"; "invoice_number"; "total"; "status"; "amount_paid";
   "currency"; "gst_rate"; "created_at"; "updated_at"].

(** The status the summary reads from an invoice. *)
Definition status_of (inv : value) : value :=
  default (lookup_field "status" inv) (VStr "unpaid").

Definition has_status (k : string) (inv : value) : bool :=
  match status_of inv with
  | VStr s => String.eqb s k
  | _ => false
  end.

Definition count_with_status (k : string) (invoices : list value) : Z :=
  Z.of_nat (List.length (filter (has_status k) invoices)).

(** An [ObjectId] or a [datetime]: what [jsonify] cannot write. *)
Definition is_bson (v : value) : bool :=
  match v with
  | VOid _ | VDate _ => true
  | _ => false
  end.

(** A value ready for JSON: no [ObjectId], no [datetime] and no key [_id]
    at any depth. *)
Fixpoint json_ready (v : value) : bool :=
  match v with
  | VOid _ | VDate _ => false
  | VList l => forallb json_ready l
  | VDict d =>
      forallb (fun kv => negb (String.eqb (fst kv) "_id") && json_ready (snd kv)) d
  | _ => true
  end.

(** [ObjectId]s and [datetime]s occur only as fields of documents, never
    as elements of a list. *)
Fixpoint fields_only (v : value) : bool :=
  match v with
  | VList l => forallb (fun x => negb (is_bson x) && fields_only x) l
  | VDict d => forallb (fun kv => fields_only (snd kv)) d
  | _ => true
  end.

(** A value that is neither a list nor a document. *)
Definition is_scalar (v : value) : bool :=
  match v with
  | VList _ | VDict _ => false
  | _ => true
  end.

Fixpoint distinct (keys : list string) : bool :=
  match keys with
  | [] => true
  | k :: rest => negb (existsb (String.eqb k) rest) && distinct rest
  end.

(** The keys of every document are distinct, as those of a [dict] are. *)
Fixpoint well_keyed (v : value) : bool :=
  match v with
  | VList l => forallb well_keyed l
  | VDict d => distinct (map fst d) && forallb (fun kv => well_keyed (snd kv)) d
  | _ => true
  end.

(** What [serialize_doc] stores for a field other than [_id]. *)
Definition field_value (text_of : value -> string) (isoformat : Z -> string)
           (v : value) : value :=
  match v with
  | VOid _ => VStr (py_str text_of v)
  | VDate t => VStr (isoformat t)
  | _ => serialize_doc text_of isoformat v
  end.

(** One turn of the loop of [serialize_doc] over the items of a document:
    the key and the value it assigns. *)
Definition assignment (text_of : value -> string) (isoformat : Z -> string)
           (kv : string * value) : string * value :=
  if String.eqb (fst kv) "_id" then ("id", VStr (py_str text_of (snd kv)))
  else (fst kv, field_value text_of isoformat (snd kv)).

(** The e-mail address under which the import knows a client: the field
    [email], lower-cased. *)
Definition email_key (client : value) : res string :=
  e <- get client "email" (VStr "") ;; lower_method e.

Definition email_keys (clients : list value) : list string :=
  flat_map (fun c => match email_key c with Ok e => [e] | Raise _ => [] end) clients.

(** A client record the import can read: a document whose [email], if it
    has one, is a text. *)
Definition importable (client : value) : bool :=
  match email_key client with
  | Ok _ => true
  | Raise _ => false
  end.

(** A record with the two time stamps set where it had none. *)
Definition stamped (now : Z) (x : value) : res value :=
  x <- setdefault x "created_at" (VDate now) ;;
  setdefault x "updated_at" (VDate now).

(** What the loop over the clients keeps true of its variables: the
    addresses seen are those of the clients kept, one for each, all
    different and none empty. *)
Definition consistent (st : seen) : Prop :=
  emails_seen st = email_keys (unique_clients st)
  /\ distinct (emails_seen st) = true
  /\ ~ In "" (emails_seen st)
  /\ List.length (emails_seen st) = List.length (unique_clients st).

(** The address of a client handed to [insert_many]. *)
Definition inserted_email (client : value) : option string :=
  match lookup_field "email" client with
  | Some (VStr s) => Some s
  | _ => None
  end.

Definition inserted_emails (clients : list value) : list string :=
  flat_map (fun c => match inserted_email c with Some e => [e] | None => [] end) clients.

(** What the loop over the rows keeps true, [known] being the addresses
    found in the collection: the rows are all counted, and the addresses
    to insert are new, different from one another, lower-case and not
    empty. *)
Definition accounted (rows_done : nat) (known : list string) (b : batch) : Prop :=
  successful (b_results b) + failed (b_results b) = Z.of_nat rows_done
  /\ Z.of_nat (List.length (errors (b_results b))) = failed (b_results b)
  /\ Z.of_nat (List.length (clients_to_insert b)) = successful (b_results b)
  /\ existing_emails b = (known ++ inserted_emails (clients_to_insert b))%list
  /\ distinct (inserted_emails (clients_to_insert b)) = true
  /\ (forall e, In e (inserted_emails (clients_to_insert b)) ->
                ~ In e known /\ e <> "" /\ str_lower e = e).

(** The client an invoice is counted for: the [id] of its [for], when it
    is truthy. *)
Definition client_of (inv : value) : option value :=
  match inv with
  | VDict d =>
      match default (dict_lookup "for" d) (VDict []) with
      | VDict f =>
          let client_id := default (dict_lookup "id" f) VNone in
          if truthy client_id then Some client_id else None
      | _ => None
      end
  | _ => None
  end.

(** What the invoices with a client contribute to the revenue table. *)
Definition client_contributions (invoices : list value) : list (value * float) :=
  flat_map (fun inv => match client_of inv, invoice_amounts inv with
                       | Some k, Ok (t, _) => [(k, t)]
                       | _, _ => []
                       end) invoices.

(** The contributions to client [k]: those whose id equals [k] as a
    dictionary key does. *)
Definition contributions_to (k : value) (invoices : list value) : list (value * float) :=
  filter (fun c => key_eqb k (fst c)) (client_contributions invoices).

(** The totals of the invoices of client [k], added in order from [0.0]. *)
Definition client_total (k : value) (invoices : list value) : float :=
  sum_from zero (map snd (contributions_to k invoices)).

(** [client_revenue[k] += x] over a list of contributions. *)
Definition add_clients (contribs : list (value * float)) (t : list (value * float))
  : list (value * float) :=
  fold_left (fun t c => tbl_update (fst c) (fun o => (float_default o + snd c)%float) t)
            contribs t.

(** No two entries of a table have equal keys. *)
Fixpoint keys_differ {V : Type} (t : list (value * V)) : Prop :=
  match t with
  | [] => True
  | (k, _) :: rest => Forall (fun e => key_eqb k (fst e) = false) rest /\ keys_differ rest
  end.

(** A store for examples: one client with both ids, and one invoice that
    refers to it by the legacy one. *)
Definition sample_client_store (q : query) : option value :=
  Some (VDict [("_id", VOid "65a1f0c2d4e6f8a0b1c3d5e7"); ("id", VInt 12);
               ("name", VStr "Ann")]).

Definition sample_invoices_for (k : value) : list value :=
  match k with
  | VInt 12 => [VDict [("invoice_number", VStr "INV-0007")]]
  | _ => []
  end.

Definition has_24_characters (s : string) : bool :=
  Nat.eqb (String.length s) 24.

End Terms.

(** * Properties *)

(** ** The order of binary64 numbers *)
Module FloatOrder.
Import FloatKeys.

Lemma SFcompare_lex3 (a b : spec_float) :
  SFcompare a b =
    match ford a, ford b with
    | Some ka, Some kb => Some (lex3 ka kb)
    | _, _ => None
    end.
Proof.
  destruct a as [sa|sa| |sa ma ea], b as [sb|sb| |sb mb eb]; simpl; try reflexivity;
    try (destruct sa; reflexivity); try (destruct sb; reflexivity);
    try (destruct sa, sb; reflexivity).
  destruct sa, sb; simpl; try reflexivity.
  rewrite Z.compare_opp, (Z.compare_antisym ea eb).
  destruct (ea ?= eb); reflexivity.
Qed.

Lemma lex3_Lt a1 a2 a3 b1 b2 b3 :
  lex3 (a1, a2, a3) (b1, b2, b3) = Lt <->
  a1 < b1 \/ (a1 = b1 /\ (a2 < b2 \/ (a2 = b2 /\ a3 < b3))).
Proof.
  unfold lex3.
  destruct (Z.compare_spec a1 b1), (Z.compare_spec a2 b2), (Z.compare_spec a3 b3);
    split; intros; try discriminate; try reflexivity; lia.
Qed.

Lemma lex3_Eq a1 a2 a3 b1 b2 b3 :
  lex3 (a1, a2, a3) (b1, b2, b3) = Eq <-> a1 = b1 /\ a2 = b2 /\ a3 = b3.
Proof.
  unfold lex3.
  destruct (Z.compare_spec a1 b1), (Z.compare_spec a2 b2), (Z.compare_spec a3 b3);
    split; intros; try discriminate; try reflexivity; lia.
Qed.

Lemma some_cmp_iff (c d : comparison) : Some c = Some d <-> c = d.
Proof. split; congruence. Qed.

Lemma none_cmp_iff (d : comparison) : @None comparison = Some d <-> False.
Proof. split; [discriminate|tauto]. Qed.

Lemma ltb_fcmp x y : PrimFloat.ltb x y = true <-> fcmp x y = Some Lt.
Proof.
  rewrite ltb_spec. unfold SFltb, fcmp.
  destruct (SFcompare _ _) as [[]|]; split; congruence.
Qed.

Lemma leb_fcmp x y :
  PrimFloat.leb x y = true <-> fcmp x y = Some Lt \/ fcmp x y = Some Eq.
Proof.
  rewrite leb_spec. unfold SFleb, fcmp.
  destruct (SFcompare _ _) as [[]|]; split; intros; try congruence; auto;
    destruct H; congruence.
Qed.

Lemma eqb_fcmp x y : PrimFloat.eqb x y = true <-> fcmp x y = Some Eq.
Proof.
  rewrite eqb_spec. unfold SFeqb, fcmp.
  destruct (SFcompare _ _) as [[]|]; split; congruence.
Qed.

Lemma fcmp_keys x y :
  fcmp x y =
    match ford (Prim2SF x), ford (Prim2SF y) with
    | Some ka, Some kb => Some (lex3 ka kb)
    | _, _ => None
    end.
Proof. apply SFcompare_lex3. Qed.

(** Decides a statement on the order of a few floats by comparing keys. *)
Ltac float_order :=
  repeat match goal with
  | H : PrimFloat.ltb _ _ = true |- _ => apply ltb_fcmp in H
  | H : PrimFloat.leb _ _ = true |- _ => apply leb_fcmp in H
  | H : PrimFloat.eqb _ _ = true |- _ => apply eqb_fcmp in H
  | H : PrimFloat.ltb ?x ?y = false |- _ =>
      apply not_true_iff_false in H; rewrite ltb_fcmp in H
  | H : PrimFloat.leb ?x ?y = false |- _ =>
      apply not_true_iff_false in H; rewrite leb_fcmp in H
  | H : PrimFloat.eqb ?x ?y = false |- _ =>
      apply not_true_iff_false in H; rewrite eqb_fcmp in H
  | |- PrimFloat.ltb _ _ = true => apply ltb_fcmp
  | |- PrimFloat.leb _ _ = true => apply leb_fcmp
  | |- PrimFloat.eqb _ _ = true => apply eqb_fcmp
  | |- PrimFloat.ltb _ _ = false => apply not_true_iff_false; rewrite ltb_fcmp
  | |- PrimFloat.leb _ _ = false => apply not_true_iff_false; rewrite leb_fcmp
  | |- PrimFloat.eqb _ _ = false => apply not_true_iff_false; rewrite eqb_fcmp
  end;
  rewrite ?fcmp_keys in *;
  repeat match goal with
  | |- context [ford (Prim2SF ?x)] =>
      destruct (ford (Prim2SF x)) as [[[? ?] ?]|]
  | H : context [ford (Prim2SF ?x)] |- _ =>
      destruct (ford (Prim2SF x)) as [[[? ?] ?]|]
  end;
  rewrite ?some_cmp_iff, ?none_cmp_iff, ?lex3_Lt, ?lex3_Eq in *;
  lia.

Lemma ltb_trans x y z :
  PrimFloat.ltb x y = true -> PrimFloat.ltb y z = true -> PrimFloat.ltb x z = true.
Proof. intros. float_order. Qed.

Lemma ltb_asym x y : PrimFloat.ltb x y = true -> PrimFloat.ltb y x = false.
Proof. intros. float_order. Qed.

Lemma leb_trans x y z :
  PrimFloat.leb x y = true -> PrimFloat.leb y z = true -> PrimFloat.leb x z = true.
Proof. intros. float_order. Qed.

Lemma ltb_leb_trans x y z :
  PrimFloat.ltb x y = true -> PrimFloat.leb y z = true -> PrimFloat.ltb x z = true.
Proof. intros. float_order. Qed.

Lemma leb_false_ltb x y :
  PrimFloat.eqb x x = true -> PrimFloat.eqb y y = true ->
  PrimFloat.leb x y = false -> PrimFloat.ltb y x = true.
Proof. intros. float_order. Qed.

Lemma ltb_eqb_false x y k :
  PrimFloat.ltb x y = true -> PrimFloat.eqb x k = true -> PrimFloat.eqb y k = false.
Proof. intros. float_order. Qed.

Lemma ltb_positive_not_nan x : PrimFloat.ltb zero x = true -> PrimFloat.eqb x x = true.
Proof. intros H. float_order. Qed.

Lemma not_ltb_leb x y :
  PrimFloat.eqb x x = true -> PrimFloat.eqb y y = true ->
  PrimFloat.ltb x y = false -> PrimFloat.leb y x = true.
Proof. intros. float_order. Qed.

End FloatOrder.

(** ** Rounding never turns a number into NaN *)
Module RoundingFacts.
Import Py.

Lemma iter_pos_invariant {A : Type} (P : A -> Prop) (f : A -> A) :
  (forall x, P x -> P (f x)) -> forall n x, P x -> P (iter_pos f n x).
Proof.
  intros Hf. induction n as [n IH|n IH|]; intros x Hx; cbn [iter_pos]; auto.
Qed.

Lemma shr_1_nonneg mrs : 0 <= shr_m mrs -> 0 <= shr_m (shr_1 mrs).
Proof.
  destruct mrs as [m r s]. cbn [shr_m shr_1].
  destruct m as [|[p|p|]|[p|p|]]; cbn [shr_m]; lia.
Qed.

Lemma shr_fexp_nonneg m e l :
  0 <= m -> 0 <= shr_m (fst (shr_fexp prec emax m e l)).
Proof.
  intros Hm. unfold shr_fexp, shr.
  assert (H0 : 0 <= shr_m (shr_record_of_loc m l)).
  { destruct l as [|[]]; exact Hm. }
  destruct (fexp prec emax (Zdigits2 m + e) - e); cbn [fst]; auto.
  apply iter_pos_invariant; auto. apply shr_1_nonneg.
Qed.

Lemma round_nearest_even_nonneg m l : 0 <= m -> 0 <= round_nearest_even m l.
Proof.
  intros Hm. unfold round_nearest_even.
  destruct l as [|[]]; try lia. destruct (Z.even m); lia.
Qed.

Lemma binary_round_aux_not_nan sx mx ex lx :
  0 <= mx -> binary_round_aux prec emax sx mx ex lx <> S754_nan.
Proof.
  intros Hm. unfold binary_round_aux.
  pose proof (shr_fexp_nonneg mx ex lx Hm) as H1.
  destruct (shr_fexp prec emax mx ex lx) as [mrs' e']. cbn [fst] in H1.
  pose proof (shr_fexp_nonneg _ e' loc_Exact
                (round_nearest_even_nonneg _ (loc_of_shr_record mrs') H1)) as H2.
  destruct (shr_fexp prec emax _ e' loc_Exact) as [mrs'' e'']. cbn [fst] in H2.
  destruct (shr_m mrs'') as [|p|p]; try discriminate; [|lia].
  destruct (e'' <=? emax - prec); discriminate.
Qed.

Lemma binary_round_not_nan sx mx ex : binary_round prec emax sx mx ex <> S754_nan.
Proof.
  unfold binary_round.
  destruct (shl_align mx ex _) as [mz ez].
  apply binary_round_aux_not_nan. lia.
Qed.

Lemma binary_normalize_not_nan m e sz :
  0 <= m -> binary_normalize prec emax m e sz <> S754_nan.
Proof.
  intros Hm. destruct m; cbn [binary_normalize]; try discriminate; try lia.
  apply binary_round_not_nan.
Qed.

Lemma SFdiv_finite_not_nan sx mx ex sy my ey :
  SFdiv prec emax (S754_finite sx mx ex) (S754_finite sy my ey) <> S754_nan.
Proof.
  cbn [SFdiv]. unfold SFdiv_core_binary.
  set (m' := match _ - _ - _ with Zpos _ => _ | Z0 => _ | Zneg _ => _ end).
  assert (Hm' : 0 <= m').
  { subst m'. destruct (_ - _ - _); try lia. apply Z.shiftl_nonneg. lia. }
  pose proof (Z_div_mod m' (Zpos my) eq_refl) as Hdiv.
  destruct (Z.div_eucl m' (Zpos my)) as [q r].
  apply binary_round_aux_not_nan.
  destruct Hdiv as [Heq Hr]. nia.
Qed.

(** A float built from a specification that is not NaN is not NaN. *)
Lemma SF2Prim_not_nan y : y <> S754_nan -> Prim2SF (SF2Prim y) <> S754_nan.
Proof.
  intros Hy. destruct y as [[]|[]| |s m e]; try (vm_compute; discriminate);
    [congruence|].
  cbn [SF2Prim].
  assert (H : Prim2SF (Z.ldexp (of_uint63 (Uint63.of_Z (Zpos m))) e) <> S754_nan).
  { rewrite Z_ldexp_spec, of_uint63_spec.
    pose proof (Uint63.to_Z_bounded (Uint63.of_Z (Zpos m))) as Hb.
    pose proof (binary_normalize_not_nan (Uint63.to_Z (Uint63.of_Z (Zpos m))) 0 false
                  (proj1 Hb)) as Hn.
    destruct (binary_normalize prec emax _ 0 false); cbn [SFldexp]; try congruence.
    apply binary_round_not_nan. }
  destruct s; [|exact H].
  rewrite opp_spec. destruct (Prim2SF _); cbn [SFopp]; congruence.
Qed.

Lemma eqb_refl_iff x : PrimFloat.eqb x x = true <-> Prim2SF x <> S754_nan.
Proof.
  rewrite eqb_spec. unfold SFeqb.
  destruct (Prim2SF x) as [s|s| |s m e]; cbn [SFcompare].
  - split; [discriminate|reflexivity].
  - destruct s; (split; [discriminate|reflexivity]).
  - split; [discriminate|congruence].
  - destruct s; rewrite Z.compare_refl, Pos.compare_cont_refl; cbn [CompOpp];
      (split; [discriminate|reflexivity]).
Qed.

Lemma float_of_ratio_not_nan s n d :
  PrimFloat.eqb (float_of_ratio s n d) (float_of_ratio s n d) = true.
Proof.
  apply eqb_refl_iff. unfold float_of_ratio.
  destruct n; apply SF2Prim_not_nan; try discriminate.
  apply SFdiv_finite_not_nan.
Qed.

(** Rounding to two places yields NaN on NaN only. *)
Lemma round2_not_nan x :
  PrimFloat.eqb x x = true -> PrimFloat.eqb (round2 x) (round2 x) = true.
Proof.
  intros Hx. unfold round2.
  destruct (Prim2SF x); try exact Hx.
  apply float_of_ratio_not_nan.
Qed.

End RoundingFacts.

(** ** Stable sorting *)
Module SortFacts.
Import Py.

Section StableSort.
Context {A : Type}.
Variable before : A -> A -> bool.

Lemma insert_sorted_perm x l : Permutation (insert_sorted before x l) (x :: l).
Proof.
  induction l as [|y l IH]; cbn [insert_sorted].
  - apply Permutation_refl.
  - destruct (before y x).
    + eapply Permutation_trans; [apply perm_skip, IH|apply perm_swap].
    + apply Permutation_refl.
Qed.

Lemma stable_sort_perm l : Permutation (stable_sort before l) l.
Proof.
  induction l as [|x l IH]; cbn [stable_sort fold_right].
  - apply Permutation_refl.
  - eapply Permutation_trans; [apply insert_sorted_perm|].
    apply perm_skip, IH.
Qed.

Hypothesis before_asym : forall a b, before a b = true -> before b a = false.

Lemma insert_sorted_hd x y l :
  HdRel (in_order before) y l -> before y x = true ->
  HdRel (in_order before) y (insert_sorted before x l).
Proof.
  intros Hhd Hyx. destruct l as [|z l]; cbn [insert_sorted].
  - constructor. unfold in_order. auto.
  - inversion Hhd; subst. destruct (before z x); constructor; auto.
    unfold in_order. auto.
Qed.

Lemma insert_sorted_sorted x l :
  Sorted (in_order before) l -> Sorted (in_order before) (insert_sorted before x l).
Proof.
  induction l as [|y l IH]; intros Hs; cbn [insert_sorted].
  - repeat constructor.
  - inversion Hs; subst. destruct (before y x) eqn:E.
    + constructor; [auto|apply insert_sorted_hd; auto].
    + constructor; [exact Hs|constructor; exact E].
Qed.

Lemma stable_sort_sorted l : Sorted (in_order before) (stable_sort before l).
Proof.
  induction l as [|x l IH]; cbn [stable_sort fold_right].
  - constructor.
  - apply insert_sorted_sorted, IH.
Qed.

(** Stability: the elements of a class that [before] never splits keep
    their order. *)
Variable P : A -> bool.
Hypothesis class_not_split :
  forall x y, before y x = true -> P x = true -> P y = false.

Lemma insert_sorted_filter x l :
  filter P (insert_sorted before x l) = filter P (x :: l).
Proof.
  induction l as [|y l IH]; cbn [insert_sorted]; [reflexivity|].
  destruct (before y x) eqn:E; [|reflexivity].
  cbn [filter] in *. rewrite IH.
  destruct (P x) eqn:Px; [|reflexivity].
  rewrite (class_not_split x y E Px). reflexivity.
Qed.

Lemma stable_sort_filter l : filter P (stable_sort before l) = filter P l.
Proof.
  induction l as [|x l IH]; cbn [stable_sort fold_right]; [reflexivity|].
  rewrite insert_sorted_filter. cbn [filter]. fold (stable_sort before l).
  rewrite IH. reflexivity.
Qed.
End StableSort.

Section SortedFacts.
Context {A : Type}.
Variables (R R' : A -> A -> Prop) (P : A -> Prop).
Hypothesis R_R' : forall a b, P a -> P b -> R a b -> R' a b.

Lemma Sorted_weaken l : Forall P l -> Sorted R l -> Sorted R' l.
Proof.
  intros HP Hs. induction Hs as [|x l Hl IH Hhd]; constructor.
  - apply IH. inversion HP; assumption.
  - inversion HP as [|? ? Px Pl]; subst.
    destruct Hhd as [|y l' Hxy]; constructor.
    inversion Pl; subst. auto.
Qed.

Lemma StronglySorted_firstn n : forall l,
  StronglySorted R l -> StronglySorted R (firstn n l).
Proof.
  induction n as [|n IH]; intros l Hs; cbn [firstn]; [constructor|].
  destruct Hs as [|x l Hl Hx]; constructor.
  - apply IH, Hl.
  - rewrite Forall_forall in *. intros y Hy. apply Hx. rewrite <- (firstn_skipn n l). apply in_or_app. left. exact Hy.
Qed.
End SortedFacts.

End SortFacts.

(** ** The order of strings *)
Module StringOrder.








End StringOrder.

(** ** Dictionaries *)
Module DictFacts.
Import Py.

Lemma dict_lookup_set_same k v d : dict_lookup k (dict_set k v d) = Some v.
Proof.
  induction d as [|[k' v'] d IH]; simpl.
  - now rewrite String.eqb_refl.
  - destruct (String.eqb k k') eqn:E; simpl; rewrite ?String.eqb_refl, ?E; auto.
Qed.

Lemma dict_lookup_set_other k k' v d :
  k <> k' -> dict_lookup k (dict_set k' v d) = dict_lookup k d.
Proof.
  intros Hne. apply String.eqb_neq in Hne.
  induction d as [|[k0 v0] d IH]; simpl.
  - now rewrite Hne.
  - destruct (String.eqb k' k0) eqn:E; simpl.
    + apply String.eqb_eq in E; subst k0. now rewrite Hne.
    + destruct (String.eqb k k0); auto.
Qed.

End DictFacts.

(** ** Tables keyed by strings *)
Module TableFacts.
Import Py Spec Direct.

Section StrTable.
Context {V : Type}.






End StrTable.






End TableFacts.

(** ** The totals engine *)
Module TotalsFacts.
Import Py Totals Spec.

Lemma item_amounts_numeric item q p t :
  numeric_fields item = Some (q, p, t) ->
  item_amounts item = Ok ((q * p)%float, (q * p * t / 100)%float).
Proof.
  unfold numeric_fields, item_amounts.
  destruct item; try discriminate.
  simpl.
  destruct (py_float (default (dict_lookup "quantity" d) (VInt 0))); try discriminate.
  destruct (py_float (default (dict_lookup "unit_price" d) (VInt 0))); try discriminate.
  destruct (py_float (default (dict_lookup "tax" d) (VInt 0))); try discriminate.
  intros H; inversion H; subst. reflexivity.
Qed.

Lemma total_loop_numeric items : forall fields subtotal total_tax,
  map numeric_fields items = map Some fields ->
  total_loop items subtotal total_tax =
    Ok (fold_left (fun a x => num_add a (NFloat x))
                  (map (fun f => let '(q, p, _) := f in (q * p)%float) fields) subtotal,
        fold_left (fun a x => num_add a (NFloat x))
                  (map (fun f => let '(q, p, t) := f in (q * p * t / 100)%float) fields)
                  total_tax).
Proof.
  induction items as [|item items IH]; intros [|[[q p] t] fields] subtotal total_tax H;
    simpl in H; try discriminate.
  - reflexivity.
  - inversion H as [[H1 H2]].
    simpl. rewrite (item_amounts_numeric _ _ _ _ H1).
    apply IH, H2.
Qed.

Lemma zero_gst_amount g :
  is_finite g = true -> (zero + zero * g / 100)%float = zero.
Proof.
  intros Hfin.
  apply Prim2SF_inj.
  rewrite add_spec, div_spec, mul_spec.
  unfold is_finite, is_nan, is_infinity in Hfin.
  rewrite !eqb_spec, abs_spec in Hfin.
  change (Prim2SF infinity) with (S754_infinity false) in Hfin.
  change (Prim2SF zero) with (S754_zero false).
  destruct (Prim2SF g) as [s|s| |s m e];
    try (destruct s; vm_compute in Hfin; discriminate);
    try (vm_compute in Hfin; discriminate);
    destruct s; reflexivity.
Qed.

(** C1.  On a non-empty list of items whose three fields all convert, and a
    GST rate that converts, [calculate_invoice_total] returns
    [round(subtotal + item_tax_total + gst_amount, 2)] with the three sums
    of the closed form; on the empty list it returns the integer [0], which
    is the value of the closed form whenever the rate is finite; the
    scenario of two units at 100 with 10 percent tax and 18 percent GST
    gives 256.0. *)
Theorem calculate_invoice_total_closed_form :
  (forall items fields gst g,
      items <> [] ->
      map numeric_fields items = map Some fields ->
      py_float gst = Ok g ->
      calculate_invoice_total (VList items) gst = Ok (closed_form_total fields g))
  /\ (forall gst, calculate_invoice_total (VList []) gst = Ok (NInt 0))
  /\ (forall g, is_finite g = true ->
                num_eqb (NInt 0) (closed_form_total [] g) = true)
  /\ calculate_invoice_total scenario_items (VInt 18) = Ok (NFloat 256%float).
Proof.
  split; [|split; [|split]].
  - intros items fields gst g Hne Hnum Hg.
    unfold calculate_invoice_total.
    destruct items as [|item items]; [congruence|].
    cbn [truthy isinstance_list negb orb elements].
    rewrite (total_loop_numeric _ _ _ _ Hnum).
    cbn [bind]. rewrite Hg. reflexivity.
  - reflexivity.
  - intros g Hfin.
    unfold closed_form_total, running_sum; cbn [map fold_left].
    unfold num_truediv, num_mul, num_add, num_round2, num_eqb, as_float.
    change (SF2Prim (binary_normalize prec emax 0 0 false)) with zero.
    change (SF2Prim (binary_normalize prec emax 100 0 false)) with 100%float.
    change (SF2Prim (binary_normalize prec emax (0 + 0) 0 false)) with zero.
    rewrite (zero_gst_amount g Hfin). reflexivity.
  - vm_compute. reflexivity.
Qed.

Lemma calculate_invoice_total_closed_form_witness :
  calculate_invoice_total
    (VList [VDict [("quantity", VInt 3); ("unit_price", VStr "19.99")];
            VDict [("quantity", VFloat 1.5%float); ("unit_price", VInt 40);
                   ("tax", VInt 5)]])
    (VStr "18")
  = Ok (closed_form_total
          [(3%float, 19.99%float, 0%float); (1.5%float, 40%float, 5%float)]
          18%float).
Proof.
  apply (proj1 calculate_invoice_total_closed_form).
  - discriminate.
  - vm_compute. reflexivity.
  - vm_compute. reflexivity.
Defined.

(** An item one of whose conversions raises [ValueError] or [TypeError]
    leaves the two accumulators as they are: the loop gives what it gives
    without the item. *)
Theorem total_loop_skips_item :
  forall items1 item items2 subtotal total_tax e,
    item_amounts item = Raise e ->
    value_or_type_error e = true ->
    total_loop (items1 ++ item :: items2) subtotal total_tax
    = total_loop (items1 ++ items2) subtotal total_tax.
Proof.
  induction items1 as [|x items1 IH]; intros item items2 subtotal total_tax e He Hvt.
  - cbn [app total_loop]. rewrite He, Hvt. reflexivity.
  - cbn [app total_loop].
    destruct (item_amounts x) as [[s t]|e'].
    + eapply IH; eauto.
    + destruct (value_or_type_error e'); [eapply IH; eauto|reflexivity].
Qed.

Lemma total_loop_skips_item_witness :
  total_loop ([VDict [("quantity", VInt 2); ("unit_price", VInt 100)]]
              ++ VDict [("quantity", VStr "two")] :: [VDict [("quantity", VNone)]])
             (NInt 0) (NInt 0)
  = total_loop ([VDict [("quantity", VInt 2); ("unit_price", VInt 100)]]
                ++ [VDict [("quantity", VNone)]])
               (NInt 0) (NInt 0).
Proof.
  apply (total_loop_skips_item _ _ _ _ _ ValueError); vm_compute; reflexivity.
Defined.

(** C5 (defect).  A quantity too large for a float makes [float()] raise
    [OverflowError], which the handler of the loop does not name: the call
    raises instead of skipping the item, although the second item is
    well formed. *)
Theorem overflowing_quantity_is_not_skipped :
  py_float (VInt (10 ^ 400)) = Raise OverflowError
  /\ calculate_invoice_total
       (VList [VDict [("quantity", VInt (10 ^ 400)); ("unit_price", VInt 1);
                      ("tax", VInt 0)];
               VDict [("quantity", VInt 2); ("unit_price", VInt 100);
                      ("tax", VInt 10)]])
       (VFloat 18%float)
     = Raise OverflowError.
Proof. split; vm_compute; reflexivity. Qed.

End TotalsFacts.

(** ** Payments *)
Module PaymentFacts.
Import Py Payment Spec FloatOrder DictFacts.

(** The thresholds overlap at a zero total: an invoice of total 0 with
    nothing paid meets the threshold of [unpaid] and the one of [paid]. *)
Lemma thresholds_overlap_at_zero_total :
  ~ one_status_per_thresholds zero zero.
Proof.
  intros H. specialize (H "unpaid").
  assert (Hu : threshold "unpaid" zero zero) by (vm_compute; reflexivity).
  apply H in Hu. vm_compute in Hu. discriminate.
Qed.

(** C2, amended.  With [amount_paid >= 0] and a total that is a number,
    the status computed by the payment action is [paid] exactly when
    [amount_paid >= total], [partial] exactly when
    [0 < amount_paid < total], and [unpaid] exactly when [amount_paid == 0]
    and [amount_paid >= total] fails. *)
Theorem payment_status_thresholds :
  forall amount_paid total,
    PrimFloat.leb zero amount_paid = true ->
    PrimFloat.eqb total total = true ->
    (payment_status amount_paid total = "paid" <->
       PrimFloat.leb total amount_paid = true)
    /\ (payment_status amount_paid total = "partial" <->
          PrimFloat.ltb zero amount_paid = true /\
          PrimFloat.ltb amount_paid total = true)
    /\ (payment_status amount_paid total = "unpaid" <->
          PrimFloat.eqb amount_paid zero = true /\
          PrimFloat.leb total amount_paid = false).
Proof.
  intros a t Ha Ht. unfold payment_status.
  destruct (PrimFloat.leb t a) eqn:Eta.
  - repeat split; try discriminate; auto.
    + intros [_ Hlt]. exfalso. float_order.
    + intros [_ Hf]. discriminate.
  - assert (Hat : PrimFloat.ltb a t = true).
    { apply leb_false_ltb; auto. float_order. }
    destruct (PrimFloat.ltb zero a) eqn:E0.
    + repeat split; try discriminate; auto.
      intros [He _]. exfalso. float_order.
    + repeat split; try discriminate; auto.
      * intros [Hc _]. discriminate.
      * float_order.
Qed.

Lemma payment_status_thresholds_witness :
  (payment_status 100%float 256%float = "partial" <->
     PrimFloat.ltb zero 100%float = true /\ PrimFloat.ltb 100%float 256%float = true)
  /\ (payment_status zero zero = "paid" <-> PrimFloat.leb zero zero = true).
Proof.
  split.
  - apply (payment_status_thresholds 100%float 256%float); reflexivity.
  - apply (payment_status_thresholds zero zero); reflexivity.
Defined.

(** C7.  A payment request whose amount converts to a number that is not
    positive is answered by an error of the 4xx/5xx kind and issues no
    update: whatever invoice is stored stays as it is. *)
Theorem pay_invoice_rejects_non_positive :
  forall body lookup now a payment,
    get body "amount" (VInt 0) = Ok a ->
    py_float a = Ok payment ->
    PrimFloat.leb payment zero = true ->
    (exists code error,
        pay_invoice body lookup now = PayError code error /\ 400 <= code)
    /\ (forall invoice, stored_after (pay_invoice body lookup now) invoice = invoice).
Proof.
  intros body lookup now a payment Hget Hfloat Hle.
  assert (H : exists code error,
             pay_invoice body lookup now = PayError code error /\ 400 <= code).
  { unfold pay_invoice.
    destruct (truthy body); cbn [negb]; [|eexists _, _; split; [reflexivity|lia]].
    destruct lookup as [[invoice|]|e]; try (eexists _, _; split; [reflexivity|lia]).
    destruct (truthy invoice); cbn [negb]; [|eexists _, _; split; [reflexivity|lia]].
    rewrite Hget. cbn [bind]. rewrite Hfloat, Hle.
    eexists _, _; split; [reflexivity|lia]. }
  split; [exact H|].
  intros invoice. destruct H as (code & error & -> & _). reflexivity.
Qed.

Lemma pay_invoice_rejects_non_positive_witness :
  let invoice := VDict [("total", VFloat 256%float); ("amount_paid", VFloat 256%float);
                        ("status", VStr "paid")] in
  (exists code error,
      pay_invoice (VDict [("amount", VInt (-5))]) (Ok (Some invoice)) 0
      = PayError code error /\ 400 <= code)
  /\ (forall invoice',
         stored_after (pay_invoice (VDict [("amount", VInt (-5))]) (Ok (Some invoice)) 0)
                      invoice' = invoice').
Proof.
  intros invoice.
  apply (pay_invoice_rejects_non_positive _ _ _ (VInt (-5)) (-5)%float);
    vm_compute; reflexivity.
Defined.

Lemma status_rank_mono n1 n2 total :
  PrimFloat.leb n1 n2 = true ->
  status_rank (payment_status n1 total) <= status_rank (payment_status n2 total).
Proof.
  intros H. unfold payment_status.
  destruct (PrimFloat.leb total n1) eqn:E1.
  - assert (E2 : PrimFloat.leb total n2 = true) by float_order.
    rewrite E2. reflexivity.
  - destruct (PrimFloat.ltb zero n1) eqn:E3.
    + assert (E4 : PrimFloat.ltb zero n2 = true) by float_order.
      rewrite E4. destruct (PrimFloat.leb total n2); vm_compute; discriminate.
    + destruct (PrimFloat.leb total n2); [vm_compute; discriminate|].
      destruct (PrimFloat.ltb zero n2); vm_compute; discriminate.
Qed.

Lemma pay_step_spec invoice a now new_paid next :
  pay_step invoice a now = Some (new_paid, next) ->
  exists d current_paid total,
    invoice = VDict d
    /\ amount_of invoice = Ok current_paid
    /\ total_of invoice = Ok total
    /\ PrimFloat.leb a zero = false
    /\ new_paid = (current_paid + a)%float
    /\ next = VDict (dict_set "updated_at" (VDate now)
                      (dict_set "status" (VStr (payment_status new_paid total))
                        (dict_set "amount_paid" (VFloat (round2 new_paid)) d))).
Proof.
  unfold pay_step, pay_invoice, amount_of, total_of.
  cbn [truthy negb get dict_lookup default bind py_float String.eqb Ascii.eqb Bool.eqb].
  destruct (truthy invoice); cbn [negb]; [|discriminate].
  destruct (PrimFloat.leb a zero) eqn:Ea; [discriminate|].
  destruct invoice as [| | | | | |d| |]; try discriminate.
  cbn [get bind].
  destruct (py_float (default (dict_lookup "amount_paid" d) (VInt 0))) as [c|e];
    cbn [bind]; [|discriminate].
  destruct (py_float (default (dict_lookup "total" d) (VInt 0))) as [t|e];
    cbn [bind]; [|discriminate].
  intros H. inversion H; subst; clear H.
  exists d, c, t. repeat split; reflexivity.
Qed.

Lemma follows_pay_all amounts : forall invoice now trace total,
  pay_all invoice amounts now = Some trace ->
  total_of invoice = Ok total ->
  follows invoice amounts trace total.
Proof.
  induction amounts as [|a amounts IH]; intros invoice now trace total Hrun Htot.
  - inversion Hrun. exact I.
  - cbn [pay_all] in Hrun.
    destruct (pay_step invoice a now) as [[new_paid next]|] eqn:Hstep; [|discriminate].
    destruct (pay_all next amounts now) as [tr|] eqn:Hrest; [|discriminate].
    inversion Hrun; subst trace; clear Hrun.
    apply pay_step_spec in Hstep.
    destruct Hstep as (d & c & t & -> & Hc & Ht & Ha & Hn & ->).
    rewrite Htot in Ht. inversion Ht; subst t; clear Ht.
    assert (Htot' : total_of
              (VDict (dict_set "updated_at" (VDate now)
                       (dict_set "status" (VStr (payment_status new_paid total))
                         (dict_set "amount_paid" (VFloat (round2 new_paid)) d))))
              = Ok total).
    { unfold total_of, get in *. cbn [bind] in *.
      rewrite !dict_lookup_set_other by discriminate. exact Htot. }
    cbn [follows]. repeat split.
    + exact Ha.
    + exists c. split; assumption.
    + cbn [stored_field]. rewrite dict_lookup_set_other by discriminate.
      rewrite dict_lookup_set_other by discriminate.
      apply dict_lookup_set_same.
    + cbn [stored_status]. rewrite dict_lookup_set_other by discriminate.
      rewrite dict_lookup_set_same. reflexivity.
    + exact Htot'.
    + eapply IH; eauto.
Qed.

Lemma statuses_sorted total : forall trace : list (float * value),
  Sorted (fun x y => PrimFloat.leb x y = true) (map fst trace) ->
  Sorted (fun s1 s2 => status_rank s1 <= status_rank s2)
         (map (fun step => payment_status (fst step) total) trace).
Proof.
  induction trace as [|[n next] trace IH]; intros H; cbn [map] in *.
  - constructor.
  - inversion H as [|? ? Hs Hh]; subst. constructor; [auto|].
    destruct trace as [|[n' next'] trace]; cbn [map fst] in *; constructor.
    inversion Hh; subst. apply status_rank_mono. assumption.
Qed.

(** An invoice of 100.00 on which 33.333 is recorded as paid: a payment of
    0.001 is accepted and the stored amount becomes 33.33. *)
Lemma rounding_lowers_amount_paid :
  ~ payments_never_regress third_paid_invoice [0.001%float] 0.
Proof.
  intros H.
  assert (Hpos : Forall (fun a => PrimFloat.ltb zero a = true) [0.001%float]).
  { constructor; [reflexivity|constructor]. }
  specialize (H Hpos _ eq_refl).
  destruct H as [[_ (p & q & Hp & Hq & Hle)] _].
  vm_compute in Hp, Hq.
  inversion Hp; inversion Hq; subst.
  vm_compute in Hle. discriminate.
Qed.

(** C4, amended.  A sequence of accepted payments proceeds as follows: each
    amount is not [<= 0]; the handler evaluates the stored amount paid plus
    the amount, stores that sum rounded to two places and the status the
    rule gives to the unrounded sum and the total, and leaves the total as
    it is.  Whenever the sums so evaluated do not decrease from one payment
    to the next, the statuses stored do not regress in the order
    unpaid < partial < paid. *)
Theorem payments_follow_evaluated_sums :
  forall invoice amounts now trace total,
    pay_all invoice amounts now = Some trace ->
    total_of invoice = Ok total ->
    follows invoice amounts trace total
    /\ (Sorted (fun x y => PrimFloat.leb x y = true) (map fst trace) ->
        Sorted (fun s1 s2 => status_rank s1 <= status_rank s2)
               (map (fun step => payment_status (fst step) total) trace)).
Proof.
  intros invoice amounts now trace total Hrun Htot. split.
  - eapply follows_pay_all; eauto.
  - apply statuses_sorted.
Qed.

Lemma payments_follow_evaluated_sums_witness :
  follows fresh_invoice [100%float; 156%float]
    [(100%float,
      VDict [("total", VFloat 256%float); ("amount_paid", VFloat 100%float);
             ("status", VStr "partial"); ("updated_at", VDate 7)]);
     (256%float,
      VDict [("total", VFloat 256%float); ("amount_paid", VFloat 256%float);
             ("status", VStr "paid"); ("updated_at", VDate 7)])]
    256%float
  /\ (Sorted (fun x y => PrimFloat.leb x y = true) [100%float; 256%float] ->
      Sorted (fun s1 s2 => status_rank s1 <= status_rank s2)
             [payment_status 100%float 256%float; payment_status 256%float 256%float]).
Proof.
  apply (payments_follow_evaluated_sums fresh_invoice [100%float; 156%float] 7);
    vm_compute; reflexivity.
Defined.

End PaymentFacts.

(** ** Invoice creation *)
Module CreateFacts.
Import Py Totals Create DictFacts.

(** C10.  Whenever a create request reaches [insert_one], the document
    handed over has status ["unpaid"], [amount_paid] [0.0] and the total that
    [calculate_invoice_total] gives for the submitted items and GST rate,
    whatever the request said about these three keys. *)
Theorem create_invoice_sets_payment_fields :
  forall body last_invoice now doc,
    create_invoice body last_invoice now = Insert doc ->
    exists d g total,
      body = VDict d
      /\ py_float (default (dict_lookup "gst_rate" d) (VInt 18)) = Ok g
      /\ calculate_invoice_total (default (dict_lookup "items" d) (VList [])) (VFloat g)
         = Ok total
      /\ dict_lookup "total" doc = Some (value_of_num total)
      /\ dict_lookup "status" doc = Some (VStr "unpaid")
      /\ dict_lookup "amount_paid" doc = Some (VFloat zero).
Proof.
  intros body last_invoice now doc.
  unfold create_invoice.
  destruct (truthy body); cbn [negb]; [|discriminate].
  destruct body as [| | | | | |d| |]; try discriminate.
  destruct (negb (truthy (default (dict_lookup "items" d) (VList [])))
            || negb (isinstance_list (default (dict_lookup "items" d) (VList []))))%bool;
    [discriminate|].
  rewrite !dict_lookup_set_other by discriminate.
  destruct (py_float (default (dict_lookup "gst_rate" d) (VInt 18))) as [g|e] eqn:Hg;
    cbn [bind]; [|discriminate].
  destruct (calculate_invoice_total _ (VFloat g)) as [total|e] eqn:Ht;
    cbn [bind]; [|discriminate].
  destruct (generate_invoice_number last_invoice) as [number|e];
    cbn [bind]; [|discriminate].
  intros H; inversion H; subst doc; clear H.
  exists d, g, total.
  repeat split; auto;
    repeat (rewrite dict_lookup_set_other by discriminate);
    apply dict_lookup_set_same.
Qed.

Lemma create_invoice_sets_payment_fields_witness :
  exists d g total,
    VDict [("items", VList [VDict [("quantity", VInt 2); ("unit_price", VInt 100);
                                   ("tax", VInt 10)]]);
           ("status", VStr "paid"); ("amount_paid", VInt 999); ("total", VInt 1)]
    = VDict d
    /\ py_float (default (dict_lookup "gst_rate" d) (VInt 18)) = Ok g
    /\ calculate_invoice_total (default (dict_lookup "items" d) (VList [])) (VFloat g)
       = Ok total
    /\ dict_lookup "total"
         [("items", VList [VDict [("quantity", VInt 2); ("unit_price", VInt 100);
                                  ("tax", VInt 10)]]);
          ("status", VStr "unpaid"); ("amount_paid", VFloat zero);
          ("total", VFloat 256%float); ("from", VDict []); ("for", VDict []);
          ("invoice_number", VStr "INV-0042"); ("currency", VStr "INR");
          ("gst_rate", VFloat 18%float); ("created_at", VDate 7);
          ("updated_at", VDate 7)]
       = Some (value_of_num total)
    /\ dict_lookup "status"
         [("items", VList [VDict [("quantity", VInt 2); ("unit_price", VInt 100);
                                  ("tax", VInt 10)]]);
          ("status", VStr "unpaid"); ("amount_paid", VFloat zero);
          ("total", VFloat 256%float); ("from", VDict []); ("for", VDict []);
          ("invoice_number", VStr "INV-0042"); ("currency", VStr "INR");
          ("gst_rate", VFloat 18%float); ("created_at", VDate 7);
          ("updated_at", VDate 7)]
       = Some (VStr "unpaid")
    /\ dict_lookup "amount_paid"
         [("items", VList [VDict [("quantity", VInt 2); ("unit_price", VInt 100);
                                  ("tax", VInt 10)]]);
          ("status", VStr "unpaid"); ("amount_paid", VFloat zero);
          ("total", VFloat 256%float); ("from", VDict []); ("for", VDict []);
          ("invoice_number", VStr "INV-0042"); ("currency", VStr "INR");
          ("gst_rate", VFloat 18%float); ("created_at", VDate 7);
          ("updated_at", VDate 7)]
       = Some (VFloat zero).
Proof.
  apply (create_invoice_sets_payment_fields _ [VDict [("invoice_number", VStr "INV-0041")]] 7).
  vm_compute. reflexivity.
Defined.

End CreateFacts.

(** ** The summary *)
Module ReportsFacts.
Import Py Reports Spec Direct FloatOrder RoundingFacts SortFacts StringOrder TableFacts.

Lemma count_month_direct date t a :
  (if truthy date then count_month date t else ret tt) a = month_step date t a.
Proof.
  unfold month_step, count_month, try_except, mbind, lift, modify, ret.
  destruct (truthy date); [|reflexivity].
  destruct date; try reflexivity.
Qed.

Lemma count_client_direct client_id t a :
  (if truthy client_id then count_client client_id t else ret tt) a
  = client_step client_id t a.
Proof.
  unfold client_step, count_client, mbind, lift, modify, ret.
  destruct (truthy client_id); [|reflexivity].
  destruct (hash_key client_id); reflexivity.
Qed.

Lemma process_invoice_direct inv a :
  process_invoice inv a =
    match inv with
    | VDict d => handled (body_direct d a)
    | _ => (a, Raise AttributeError)
    end.
Proof.
  destruct inv as [| | | | | |d| |]; try reflexivity.
  unfold process_invoice, try_except, handled, body_direct.
  unfold mbind at 1. unfold lift at 1. unfold get at 1.
  unfold mbind at 1. unfold lift at 1.
  destruct (py_float (default (dict_lookup "total" d) (VInt 0))) as [t|e];
    [|destruct (value_or_type_error e); reflexivity].
  unfold mbind at 1. unfold lift at 1. unfold get at 1.
  unfold mbind at 1. unfold lift at 1.
  destruct (py_float (default (dict_lookup "amount_paid" d) (VInt 0))) as [p|e];
    [|destruct (value_or_type_error e); reflexivity].
  unfold mbind at 1. unfold lift at 1. unfold get at 1.
  unfold mbind at 1. unfold modify at 1.
  unfold mbind at 1. unfold modify at 1.
  set (a1 := add_total_paid p (add_total_invoiced t a)).
  unfold after_totals.
  set (status := default (dict_lookup "status" d) (VStr "unpaid")).
  unfold mbind at 1. unfold count_status. unfold mbind at 1. unfold lift at 1.
  destruct (hash_key status) as [h|e]; [|destruct (value_or_type_error e); reflexivity].
  set (a2 := match status with VStr s => add_status s a1 | _ => a1 end).
  assert (Hs : match status with
               | VStr s => modify (add_status s)
               | _ => ret tt
               end a1 = (a2, Ok tt)).
  { subst a2. destruct status; reflexivity. }
  rewrite Hs.
  unfold mbind at 1. unfold lift at 1. unfold get at 1.
  unfold mbind at 1. unfold lift at 1.
  destruct (get (default (dict_lookup "for" d) (VDict [])) "id" VNone) as [cid|e];
    [|destruct (value_or_type_error e); reflexivity].
  unfold mbind at 1. rewrite count_client_direct.
  destruct (client_step cid t a2) as [a3 [[]|e]]; [|destruct (value_or_type_error e); reflexivity].
  unfold mbind at 1. unfold lift at 1. unfold get at 1.
  rewrite count_month_direct.
  destruct (month_step _ t a3) as [a4 [[]|e]];
    [reflexivity|destruct (value_or_type_error e); reflexivity].
Qed.

Lemma month_step_frame date t a :
  let a' := fst (month_step date t a) in
  total_invoiced a' = total_invoiced a /\ total_paid a' = total_paid a
  /\ client_revenue a' = client_revenue a
  /\ status_breakdown a' = status_breakdown a.
Proof.
  unfold month_step. destruct (truthy date); [|simpl; auto].
  destruct date; simpl; auto.
Qed.

Lemma client_step_frame client_id t a :
  let a' := fst (client_step client_id t a) in
  total_invoiced a' = total_invoiced a /\ total_paid a' = total_paid a
  /\ monthly_data a' = monthly_data a
  /\ status_breakdown a' = status_breakdown a.
Proof.
  unfold client_step. destruct (truthy client_id); [|simpl; auto].
  destruct (hash_key client_id); simpl; auto.
Qed.

Lemma status_frame (status : value) a :
  let a' := match status with VStr s => add_status s a | _ => a end in
  total_invoiced a' = total_invoiced a /\ total_paid a' = total_paid a
  /\ monthly_data a' = monthly_data a
  /\ client_revenue a' = client_revenue a.
Proof. destruct status; simpl; auto. Qed.

Lemma after_totals_totals d t a :
  total_invoiced (fst (after_totals d t a)) = total_invoiced a
  /\ total_paid (fst (after_totals d t a)) = total_paid a.
Proof.
  unfold after_totals.
  destruct (hash_key _); [|simpl; auto].
  destruct (status_frame (default (dict_lookup "status" d) (VStr "unpaid")) a)
    as (Hi & Hp & _).
  cbv zeta in Hi, Hp.
  set (a2 := match default (dict_lookup "status" d) (VStr "unpaid") with
             | VStr s => add_status s a
             | _ => a
             end) in *.
  destruct (get _ "id" VNone) as [cid|e]; [|simpl; auto].
  destruct (client_step_frame cid t a2) as (Hi2 & Hp2 & _).
  destruct (client_step cid t a2) as [a3 [[]|e]]; cbn [fst] in *;
    [|split; congruence].
  destruct (month_step_frame (default (dict_lookup "date" d) (VStr "")) t a3)
    as (Hi3 & Hp3 & _).
  cbv zeta in Hi3, Hp3. split; congruence.
Qed.

Lemma process_invoice_totals inv a :
  let a' := fst (process_invoice inv a) in
  total_invoiced a' =
    match invoice_amounts inv with
    | Ok (t, _) => num_add (total_invoiced a) (NFloat t)
    | Raise _ => total_invoiced a
    end
  /\ total_paid a' =
    match invoice_amounts inv with
    | Ok (_, p) => num_add (total_paid a) (NFloat p)
    | Raise _ => total_paid a
    end.
Proof.
  rewrite process_invoice_direct.
  destruct inv as [| | | | | |d| |]; try (simpl; auto; fail).
  unfold invoice_amounts, body_direct, get. cbn [bind].
  destruct (py_float (default (dict_lookup "total" d) (VInt 0))) as [t|e];
    cbn [bind]; [|simpl; auto].
  destruct (py_float (default (dict_lookup "amount_paid" d) (VInt 0))) as [p|e];
    cbn [bind]; [|simpl; auto].
  destruct (after_totals_totals d t (add_total_paid p (add_total_invoiced t a)))
    as [Hi Hp].
  destruct (after_totals d t _) as [a' [[]|e]]; cbn [handled fst] in *;
    rewrite Hi, Hp; simpl; auto.
Qed.

Lemma for_each_cons body x rest a :
  for_each body (x :: rest) a =
    match body x a with
    | (a1, Ok _) => for_each body rest a1
    | (a1, Raise e) => (a1, Raise e)
    end.
Proof. reflexivity. Qed.

Lemma accumulate_totals invoices : forall a a' u,
  for_each process_invoice invoices a = (a', Ok u) ->
  total_invoiced a' =
    fold_left (fun n x => num_add n (NFloat x)) (map fst (counted_amounts invoices))
              (total_invoiced a)
  /\ total_paid a' =
    fold_left (fun n x => num_add n (NFloat x)) (map snd (counted_amounts invoices))
              (total_paid a).
Proof.
  induction invoices as [|inv invoices IH]; intros a a' u H.
  - inversion H; subst. split; reflexivity.
  - rewrite for_each_cons in H.
    destruct (process_invoice_totals inv a) as [Hi Hp].
    destruct (process_invoice inv a) as [a1 [[]|e]]; [|discriminate].
    apply IH in H. destruct H as [H1 H2].
    cbn [fst] in Hi, Hp. rewrite Hi in H1. rewrite Hp in H2.
    unfold counted_amounts. cbn [flat_map].
    fold (counted_amounts invoices).
    destruct (invoice_amounts inv) as [[t p]|e]; cbn [app map fst snd fold_left];
      split; assumption.
Qed.

(** Two invoices of 0.10 (paid) and 0.20 (unpaid): the summary shows
    0.3 invoiced, 0.1 paid and 0.2 outstanding, and [0.3 - 0.1] is not
    [0.2]. *)
Lemma rounded_outputs_break_the_difference :
  ~ outstanding_is_difference_of_outputs two_small_invoices [].
Proof.
  intros H.
  specialize (H _ eq_refl).
  vm_compute in H. discriminate.
Qed.

(** C3, amended.  The three totals of the summary are the roundings to two
    places of the full-precision sum of the invoice totals, of the
    full-precision sum of the amounts paid, and of the difference of these
    two sums: the difference holds exactly before the outputs are rounded. *)
Theorem summary_totals_rounded_separately :
  forall invoices clients s,
    reports_summary invoices clients = Ok s ->
    s_total_invoiced s = num_round2 (invoiced_sum invoices)
    /\ s_total_paid s = num_round2 (paid_sum invoices)
    /\ s_total_outstanding s =
         num_round2 (num_sub (invoiced_sum invoices) (paid_sum invoices)).
Proof.
  intros invoices clients s. unfold reports_summary, accumulate.
  destruct (for_each process_invoice invoices acc0) as [a [u|e]] eqn:Hacc;
    [|discriminate].
  destruct (client_dict clients []) as [roster|e]; cbn [bind]; [|discriminate].
  intros H; inversion H; subst s; clear H. cbn.
  destruct (accumulate_totals _ _ _ _ Hacc) as [-> ->].
  repeat split.
Qed.

Lemma summary_totals_rounded_separately_witness :
  exists s,
    reports_summary two_small_invoices [] = Ok s
    /\ s_total_invoiced s = num_round2 (invoiced_sum two_small_invoices)
    /\ s_total_paid s = num_round2 (paid_sum two_small_invoices)
    /\ s_total_outstanding s =
         num_round2 (num_sub (invoiced_sum two_small_invoices)
                             (paid_sum two_small_invoices)).
Proof.
  eexists. split.
  - vm_compute. reflexivity.
  - apply (summary_totals_rounded_separately two_small_invoices []).
    vm_compute. reflexivity.
Defined.

Lemma in_firstn {A : Type} (x : A) n l : In x (firstn n l) -> In x l.
Proof.
  intros H. rewrite <- (firstn_skipn n l). apply in_or_app. left. exact H.
Qed.

Section OccursBefore.
Context {A : Type}.

Lemma occurs_before_firstn (x y : A) n : forall l,
  occurs_before x y (firstn n l) -> occurs_before x y l.
Proof.
  induction n as [|n IH]; intros l H.
  - inversion H.
  - destruct l as [|z l]; cbn [firstn] in H; [inversion H|].
    inversion H; subst.
    + apply occurs_here. eapply in_firstn; eauto.
    + apply occurs_later. auto.
Qed.

Lemma occurs_before_filter (P : A -> bool) (x y : A) l :
  occurs_before x y l -> P x = true -> P y = true ->
  occurs_before x y (filter P l).
Proof.
  intros H Px Py. induction H as [l Hin|z l H IH]; cbn [filter].
  - rewrite Px. apply occurs_here. apply filter_In. auto.
  - destruct (P z); [apply occurs_later|]; exact IH.
Qed.

Lemma occurs_before_unfilter (P : A -> bool) (x y : A) : forall l,
  occurs_before x y (filter P l) -> occurs_before x y l.
Proof.
  induction l as [|z l IH]; cbn [filter]; intros H.
  - inversion H.
  - destruct (P z).
    + inversion H; subst.
      * apply occurs_here. eapply proj1, filter_In; eauto.
      * apply occurs_later. auto.
    + apply occurs_later. auto.
Qed.
End OccursBefore.

Lemma top_candidates_in revenue roster e :
  In e (top_candidates revenue roster) ->
  exists rev client,
    In (tc_id e, rev) revenue /\ PrimFloat.ltb zero rev = true
    /\ tc_revenue e = round2 rev /\ tbl_find (tc_id e) roster = Some client.
Proof.
  induction revenue as [|[cid rev] revenue IH]; cbn [top_candidates]; intros H.
  - contradiction.
  - destruct (PrimFloat.ltb zero rev) eqn:Hpos.
    + destruct (tbl_find cid roster) as [client|] eqn:Hfind.
      * destruct H as [<-|H].
        -- exists rev, client. cbn. auto.
        -- destruct (IH H) as (r & c & Hin & ?). exists r, c. split; [right|]; auto.
      * destruct (IH H) as (r & c & Hin & ?). exists r, c. split; [right|]; auto.
    + destruct (IH H) as (r & c & Hin & ?). exists r, c. split; [right|]; auto.
Qed.

Lemma top_candidates_order revenue roster e1 e2 :
  occurs_before e1 e2 (top_candidates revenue roster) ->
  occurs_before (tc_id e1) (tc_id e2) (map fst revenue).
Proof.
  induction revenue as [|[cid rev] revenue IH]; cbn [top_candidates map fst]; intros H.
  - inversion H.
  - destruct (if PrimFloat.ltb zero rev then tbl_find cid roster else None)
      as [client|].
    + inversion H; subst.
      * cbn [tc_id]. apply occurs_here.
        match goal with Hin : In e2 _ |- _ => apply top_candidates_in in Hin;
          destruct Hin as (r & c & Hin2 & _) end.
        apply (in_map fst) in Hin2. exact Hin2.
      * apply occurs_later. auto.
    + apply occurs_later. auto.
Qed.

Lemma tbl_find_in {V : Type} (k : value) (t : list (value * V)) v :
  tbl_find k t = Some v -> exists k', In (k', v) t /\ key_eqb k k' = true.
Proof.
  induction t as [|[k0 v0] t IH]; cbn [tbl_find]; intros H; [discriminate|].
  destruct (key_eqb k k0) eqn:E.
  - inversion H; subst. exists k0. split; [left; reflexivity|exact E].
  - destruct (IH H) as (k' & Hin & Hk). exists k'. split; [right|]; auto.
Qed.

Lemma tbl_update_keys {V : Type} (k : value) (f : option V -> V) t k' v' :
  In (k', v') (tbl_update k f t) -> k' = k \/ exists v, In (k', v) t.
Proof.
  induction t as [|[k0 v0] t IH]; cbn [tbl_update]; intros H.
  - destruct H as [H|[]]. inversion H. auto.
  - destruct (key_eqb k k0).
    + destruct H as [H|H].
      * inversion H; subst. right. exists v0. left. reflexivity.
      * right. exists v'. right. exact H.
    + destruct H as [H|H].
      * inversion H; subst. right. exists v'. left. reflexivity.
      * destruct (IH H) as [->|[v Hv]]; [left; reflexivity|].
        right. exists v. right. exact Hv.
Qed.

Lemma client_dict_keys clients : forall d roster k c,
  client_dict clients d = Ok roster ->
  In (k, c) roster ->
  (exists c0, In (k, c0) d) \/ exists c', In c' clients /\ roster_key c' = Ok k.
Proof.
  induction clients as [|c1 clients IH]; intros d roster k c Hd Hin.
  - inversion Hd; subst. left. exists c. exact Hin.
  - cbn [client_dict] in Hd.
    destruct (get c1 "_id" VNone) as [oid|e] eqn:Ho; cbn [bind] in Hd; [|discriminate].
    destruct (get c1 "id" oid) as [k1|e] eqn:Hk; cbn [bind] in Hd; [|discriminate].
    destruct (hash_key k1); cbn [bind] in Hd; [|discriminate].
    destruct (IH _ _ _ _ Hd Hin) as [[c0 Hc0]|(c' & Hc' & Hr)].
    + apply tbl_update_keys in Hc0. destruct Hc0 as [->|[v Hv]].
      * right. exists c1. split; [left; reflexivity|].
        unfold roster_key. rewrite Ho. cbn [bind]. exact Hk.
      * left. exists v. exact Hv.
    + right. exists c'. split; [right|]; assumption.
Qed.

Lemma reports_summary_parts invoices clients s :
  reports_summary invoices clients = Ok s ->
  exists a u roster,
    accumulate invoices = (a, Ok u)
    /\ client_dict clients [] = Ok roster
    /\ s_top_clients s
       = firstn 5 (sort_top_clients (top_candidates (client_revenue a) roster))
    /\ s_monthly_data s = last6 (monthly_entries (sort_months (monthly_data a)))
    /\ s_total_invoiced s = num_round2 (total_invoiced a).
Proof.
  unfold reports_summary.
  destruct (accumulate invoices) as [a [u|e]] eqn:Hacc; [|discriminate].
  destruct (client_dict clients []) as [roster|e] eqn:Hroster; cbn [bind];
    [|discriminate].
  intros H. injection H as <-.
  exists a, u, roster. repeat split.
Qed.

Lemma top_candidates_numbers revenue roster :
  Forall (fun e => PrimFloat.eqb (tc_revenue e) (tc_revenue e) = true)
         (top_candidates revenue roster).
Proof.
  apply Forall_forall. intros e He.
  destruct (top_candidates_in _ _ _ He) as (rev & c & _ & Hpos & -> & _).
  apply round2_not_nan, ltb_positive_not_nan, Hpos.
Qed.

Lemma sort_top_clients_descending cands :
  Forall (fun e => PrimFloat.eqb (tc_revenue e) (tc_revenue e) = true) cands ->
  StronglySorted (fun a b => PrimFloat.leb (tc_revenue b) (tc_revenue a) = true)
                 (sort_top_clients cands).
Proof.
  intros Hnum. apply Sorted_StronglySorted.
  - intros a b c Hab Hbc. eapply leb_trans; eassumption.
  - eapply Sorted_weaken with
      (P := fun e => PrimFloat.eqb (tc_revenue e) (tc_revenue e) = true)
      (R := in_order (fun a b => PrimFloat.ltb (tc_revenue b) (tc_revenue a))).
    + intros a b Ha Hb Hab. unfold in_order in Hab.
      apply not_ltb_leb; assumption.
    + eapply Forall_forall. intros e He.
      rewrite Forall_forall in Hnum. apply Hnum.
      eapply Permutation_in; [apply stable_sort_perm|exact He].
    + apply stable_sort_sorted.
      intros x y Hxy. apply ltb_asym. exact Hxy.
Qed.

(** C8.  Whenever a summary is produced, [top_clients] has at most five
    entries; each entry stands for a client whose accumulated revenue is
    greater than 0 and whose id is a key of the roster, and shows that
    revenue rounded to two places; every entry has a revenue at least as
    large as that of each entry listed after it; and of two entries of equal
    revenue, the one listed first is the one whose client was encountered
    first. *)
Theorem top_clients_ranked :
  forall invoices clients s,
    reports_summary invoices clients = Ok s ->
    (List.length (s_top_clients s) <= 5)%nat
    /\ (forall e, In e (s_top_clients s) ->
          exists rev,
            In (tc_id e, rev) (client_revenue (fst (accumulate invoices)))
            /\ PrimFloat.ltb zero rev = true
            /\ tc_revenue e = round2 rev
            /\ in_roster (tc_id e) clients)
    /\ StronglySorted
         (fun a b => PrimFloat.leb (tc_revenue b) (tc_revenue a) = true)
         (s_top_clients s)
    /\ (forall e1 e2,
          occurs_before e1 e2 (s_top_clients s) ->
          PrimFloat.eqb (tc_revenue e1) (tc_revenue e2) = true ->
          occurs_before (tc_id e1) (tc_id e2)
                        (map fst (client_revenue (fst (accumulate invoices))))).
Proof.
  intros invoices clients s H.
  destruct (reports_summary_parts _ _ _ H) as (a & u & roster & Hacc & Hroster & -> & _).
  rewrite Hacc. cbn [fst].
  set (cands := top_candidates (client_revenue a) roster).
  set (sorted := sort_top_clients cands).
  repeat split.
  - apply firstn_le_length.
  - intros e He. apply in_firstn in He.
    unfold sorted, sort_top_clients in He.
    apply (Permutation_in _ (stable_sort_perm _ cands)) in He.
    apply top_candidates_in in He.
    destruct He as (rev & client & Hin & Hpos & Hrev & Hfind).
    exists rev. repeat split; auto.
    apply tbl_find_in in Hfind. destruct Hfind as (k & Hk & Heq).
    destruct (client_dict_keys _ _ _ _ _ Hroster Hk) as [[c0 []]|(c' & Hc' & Hr)].
    exists c', k. auto.
  - apply StronglySorted_firstn, sort_top_clients_descending,
      top_candidates_numbers.
  - intros e1 e2 Hbefore Htie.
    apply top_candidates_order with (roster := roster).
    apply occurs_before_firstn in Hbefore. unfold sorted, sort_top_clients in Hbefore.
    set (P := fun e : top_client => PrimFloat.eqb (tc_revenue e) (tc_revenue e1)).
    apply (occurs_before_filter P) in Hbefore.
    + rewrite (stable_sort_filter _ P) in Hbefore.
      * apply occurs_before_unfilter in Hbefore. exact Hbefore.
      * intros x y Hyx Px. unfold P in *. float_order.
    + unfold P. float_order.
    + unfold P. float_order.
Qed.

Lemma top_clients_ranked_witness :
  exists s,
    reports_summary sample_invoices sample_clients = Ok s
    /\ (List.length (s_top_clients s) <= 5)%nat
    /\ (forall e, In e (s_top_clients s) ->
          exists rev,
            In (tc_id e, rev) (client_revenue (fst (accumulate sample_invoices)))
            /\ PrimFloat.ltb zero rev = true
            /\ tc_revenue e = round2 rev
            /\ in_roster (tc_id e) sample_clients)
    /\ StronglySorted
         (fun a b => PrimFloat.leb (tc_revenue b) (tc_revenue a) = true)
         (s_top_clients s)
    /\ (forall e1 e2,
          occurs_before e1 e2 (s_top_clients s) ->
          PrimFloat.eqb (tc_revenue e1) (tc_revenue e2) = true ->
          occurs_before (tc_id e1) (tc_id e2)
                        (map fst (client_revenue (fst (accumulate sample_invoices))))).
Proof.
  eexists. split.
  - vm_compute. reflexivity.
  - apply (top_clients_ranked sample_invoices sample_clients).
    vm_compute. reflexivity.
Defined.

Lemma process_invoice_regular inv a :
  regular inv = true ->
  exists t p,
    invoice_amounts inv = Ok (t, p)
    /\ snd (process_invoice inv a) = Ok tt
    /\ monthly_data (fst (process_invoice inv a)) =
         match month_key inv with
         | Some k => str_update k (fun o => (float_default o + t)%float) (monthly_data a)
         | None => monthly_data a
         end.
Proof.
  intros Hreg. rewrite process_invoice_direct.
  destruct inv as [| | | | | |d| |]; try discriminate Hreg.
  cbn [regular] in Hreg.
  unfold invoice_amounts, body_direct, get; cbn [bind].
  destruct (py_float (default (dict_lookup "total" d) (VInt 0))) as [t|e];
    [|discriminate].
  destruct (py_float (default (dict_lookup "amount_paid" d) (VInt 0))) as [p|e];
    [|discriminate].
  cbn [bind]. exists t, p. split; [reflexivity|].
  unfold after_totals.
  set (a1 := add_total_paid p (add_total_invoiced t a)).
  destruct (hash_key (default (dict_lookup "status" d) (VStr "unpaid"))) as [h|e];
    [|discriminate].
  destruct (status_frame (default (dict_lookup "status" d) (VStr "unpaid")) a1)
    as (_ & _ & Hm2 & _).
  cbv zeta in Hm2.
  set (a2 := match default (dict_lookup "status" d) (VStr "unpaid") with
             | VStr s => add_status s a1
             | _ => a1
             end) in *.
  cbn [is_ok andb] in Hreg.
  destruct (default (dict_lookup "for" d) (VDict [])) as [| | | | | |f| |];
    try discriminate Hreg.
  cbn [get].
  set (cid := default (dict_lookup "id" f) VNone) in *.
  destruct (client_step_frame cid t a2) as (_ & _ & Hm3 & _). cbv zeta in Hm3.
  assert (Hc : snd (client_step cid t a2) = Ok tt).
  { unfold client_step. destruct (truthy cid); [|reflexivity].
    destruct (hash_key cid); [reflexivity|discriminate]. }
  destruct (client_step cid t a2) as [a3 r3]. cbn [fst snd] in *. subst r3.
  assert (Hm : monthly_data a3 = monthly_data a).
  { rewrite Hm3, Hm2. reflexivity. }
  unfold month_key, lookup_field, month_step.
  destruct (dict_lookup "date" d) as [date|]; cbn [default].
  - destruct date; cbn [truthy handled fst snd]; try (split; [reflexivity|exact Hm]).
    + destruct b; cbn [handled fst snd value_or_type_error]; split; auto.
    + destruct (n =? 0); cbn [negb handled fst snd value_or_type_error]; split; auto.
    + destruct (PrimFloat.eqb f0 zero);
        cbn [negb handled fst snd value_or_type_error]; split; auto.
    + destruct (String.eqb s ""); cbn [negb handled fst snd]; split; auto.
      cbn [add_monthly monthly_data]. rewrite Hm. reflexivity.
    + destruct l; cbn [handled fst snd value_or_type_error]; split; auto.
    + destruct d0; cbn [handled fst snd value_or_type_error]; split; auto.
  - cbn [truthy String.eqb negb handled fst snd]. split; auto.
Qed.











End ReportsFacts.

(** ** Exceptions that leave the two components *)
Module Robustness.
Import Py Totals Reports.

(** C6 (defect).  The totals engine raises on an item that is not a record
    and on a GST rate that does not convert; the summary raises on an
    invoice whose client reference is [null]. *)
Theorem totals_and_summary_raise :
  calculate_invoice_total (VList [VInt 5]) (VFloat 18%float) = Raise AttributeError
  /\ calculate_invoice_total
       (VList [VDict [("quantity", VInt 1); ("unit_price", VInt 1); ("tax", VInt 0)]])
       (VStr "abc")
     = Raise ValueError
  /\ reports_summary [VDict [("total", VInt 1); ("for", VNone)]] []
     = Raise AttributeError.
Proof. repeat split; vm_compute; reflexivity. Qed.

End Robustness.

(** ** Edge cases of the totals engine *)
Module TotalsEdge.
Import Py Totals Spec Terms TotalsFacts.

(** The exceptions [float()] can raise. *)
Lemma float_of_string_raises s e :
  float_of_string s = Raise e -> e = ValueError.
Proof.
  unfold float_of_string.
  destruct (drop_underscores None _) as [l|]; [|congruence].
  destruct (take_sign l) as [neg body].
  destruct (_ || _)%bool; [discriminate|].
  destruct (String.eqb _ "nan"); [discriminate|].
  destruct (parse_decimal neg body); congruence.
Qed.

Lemma py_float_raises v e :
  py_float v = Raise e -> e = ValueError \/ e = TypeError \/ e = OverflowError.
Proof.
  destruct v as [|b|n|f|s|l|d|o|t]; cbn [py_float];
    try (intros H; inversion H; auto; fail).
  - unfold float_of_int. destruct (binary_normalize _ _ _ _ _); intros H; inversion H; auto.
  - intros H. apply float_of_string_raises in H. auto.
Qed.

Lemma item_amounts_raises d e :
  item_amounts (VDict d) = Raise e ->
  e = ValueError \/ e = TypeError \/ e = OverflowError.
Proof.
  unfold item_amounts, get; cbn [bind].
  destruct (py_float (default (dict_lookup "quantity" d) (VInt 0))) as [q|e1] eqn:E1;
    cbn [bind]; [|intros H; inversion H; subst; eapply py_float_raises; eauto].
  destruct (py_float (default (dict_lookup "unit_price" d) (VInt 0))) as [p|e2] eqn:E2;
    cbn [bind]; [|intros H; inversion H; subst; eapply py_float_raises; eauto].
  destruct (py_float (default (dict_lookup "tax" d) (VInt 0))) as [t|e3] eqn:E3;
    cbn [bind]; [discriminate|intros H; inversion H; subst; eapply py_float_raises; eauto].
Qed.

Lemma total_loop_raises items : forall subtotal total_tax e,
  forallb is_dict items = true ->
  total_loop items subtotal total_tax = Raise e -> e = OverflowError.
Proof.
  induction items as [|item items IH]; intros subtotal total_tax e Hd; cbn [total_loop].
  - discriminate.
  - cbn [forallb] in Hd. apply andb_prop in Hd. destruct Hd as [Hi Hrest].
    destruct item; try discriminate Hi.
    destruct (item_amounts (VDict d)) as [[s t]|e1] eqn:E.
    + apply IH. exact Hrest.
    + destruct (item_amounts_raises _ _ E) as [-> | [-> | ->]]; cbn [value_or_type_error].
      * apply IH. exact Hrest.
      * apply IH. exact Hrest.
      * intros H. inversion H. reflexivity.
Qed.


Lemma item_amounts_overflow d :
  item_amounts (VDict d) = Raise OverflowError -> item_overflows (VDict d) = true.
Proof.
  unfold item_amounts, item_overflows, overflows, get; cbn [bind].
  destruct (py_float (default (dict_lookup "quantity" d) (VInt 0))) as [q|e1];
    cbn [bind]; [|intros H; inversion H; reflexivity].
  destruct (py_float (default (dict_lookup "unit_price" d) (VInt 0))) as [p|e2];
    cbn [bind]; [|intros H; inversion H; reflexivity].
  destruct (py_float (default (dict_lookup "tax" d) (VInt 0))) as [t|e3];
    cbn [bind]; [discriminate|intros H; inversion H; reflexivity].
Qed.

Lemma total_loop_overflow items : forall subtotal total_tax e,
  forallb is_dict items = true ->
  total_loop items subtotal total_tax = Raise e ->
  e = OverflowError /\ existsb item_overflows items = true.
Proof.
  induction items as [|item items IH]; intros subtotal total_tax e Hd; cbn [total_loop].
  - discriminate.
  - cbn [forallb] in Hd. apply andb_prop in Hd. destruct Hd as [Hi Hrest].
    destruct item as [| | | | | |d| |]; try discriminate Hi.
    cbn [existsb].
    destruct (item_amounts (VDict d)) as [[s t]|e1] eqn:E.
    + intros H. destruct (IH _ _ _ Hrest H) as [-> Hex]. rewrite Hex.
      split; [reflexivity|apply orb_true_r].
    + destruct (item_amounts_raises _ _ E) as [-> | [-> | ->]]; cbn [value_or_type_error].
      * intros H. destruct (IH _ _ _ Hrest H) as [-> Hex]. rewrite Hex.
        split; [reflexivity|apply orb_true_r].
      * intros H. destruct (IH _ _ _ Hrest H) as [-> Hex]. rewrite Hex.
        split; [reflexivity|apply orb_true_r].
      * intros H. inversion H. rewrite (item_amounts_overflow _ E).
        split; reflexivity.
Qed.

(** X1.  With line items that are records and a GST rate that converts, the only
    exception that leaves [calculate_invoice_total] is [OverflowError], and
    it does so only when a quantity, unit price or tax of some item is an
    integer too large for a float. *)
Theorem calculate_invoice_total_raises_on_overflow_only :
  forall items gst g,
    forallb is_dict items = true ->
    py_float gst = Ok g ->
    (exists total, calculate_invoice_total (VList items) gst = Ok total)
    \/ (calculate_invoice_total (VList items) gst = Raise OverflowError
        /\ existsb item_overflows items = true).
Proof.
  intros items gst g Hd Hg. unfold calculate_invoice_total.
  destruct (negb (truthy (VList items)) || negb (isinstance_list (VList items)))%bool;
    [left; eexists; reflexivity|].
  cbn [elements].
  destruct (total_loop items (NInt 0) (NInt 0)) as [[subtotal total_tax]|e1] eqn:E;
    cbn [bind].
  - rewrite Hg. cbn [bind]. left. eexists. reflexivity.
  - right. destruct (total_loop_overflow _ _ _ _ Hd E) as [-> Hex]. auto.
Qed.

Lemma calculate_invoice_total_raises_on_overflow_only_witness :
  (exists total,
      calculate_invoice_total
        (VList [VDict [("quantity", VStr "two"); ("unit_price", VInt (10 ^ 400))];
                VDict [("quantity", VInt 2); ("unit_price", VStr "1e999")]])
        (VInt 18) = Ok total)
  \/ (calculate_invoice_total
        (VList [VDict [("quantity", VStr "two"); ("unit_price", VInt (10 ^ 400))];
                VDict [("quantity", VInt 2); ("unit_price", VStr "1e999")]])
        (VInt 18) = Raise OverflowError
      /\ existsb item_overflows
           [VDict [("quantity", VStr "two"); ("unit_price", VInt (10 ^ 400))];
            VDict [("quantity", VInt 2); ("unit_price", VStr "1e999")]] = true).
Proof.
  apply (calculate_invoice_total_raises_on_overflow_only
           [VDict [("quantity", VStr "two"); ("unit_price", VInt (10 ^ 400))];
            VDict [("quantity", VInt 2); ("unit_price", VStr "1e999")]]
           (VInt 18) 18%float); vm_compute; reflexivity.
Defined.

Lemma total_loop_all_skipped items : forall subtotal total_tax,
  Forall skipped items ->
  total_loop items subtotal total_tax = Ok (subtotal, total_tax).
Proof.
  induction items as [|item items IH]; intros subtotal total_tax Hs; cbn [total_loop].
  - reflexivity.
  - inversion Hs as [|? ? (e & He & Hv) Hrest]; subst.
    rewrite He, Hv. apply IH. exact Hrest.
Qed.

(** X2.  A line item whose quantity, unit price or tax does not convert
    ([ValueError] or [TypeError]) contributes nothing: the total is the one
    of the remaining items.  When no item is left the total is the float
    [0.0], not the integer [0] of an empty list. *)
Theorem invalid_item_contributes_nothing :
  (forall items1 item items2 gst,
      skipped item ->
      (items1 ++ items2)%list <> [] ->
      calculate_invoice_total (VList (items1 ++ item :: items2)) gst
      = calculate_invoice_total (VList (items1 ++ items2)) gst)
  /\ (forall items gst g,
         items <> [] ->
         Forall skipped items ->
         py_float gst = Ok g ->
         is_finite g = true ->
         calculate_invoice_total (VList items) gst = Ok (NFloat zero)).
Proof.
  split.
  - intros items1 item items2 gst (e & He & Hv) Hne.
    unfold calculate_invoice_total. cbn [isinstance_list negb orb elements].
    assert (H1 : truthy (VList (items1 ++ item :: items2)) = true)
      by (destruct items1; reflexivity).
    assert (H2 : truthy (VList (items1 ++ items2)) = true).
    { destruct (items1 ++ items2)%list; [congruence|reflexivity]. }
    rewrite H1, H2. cbn [negb orb].
    rewrite (total_loop_skips_item items1 item items2 _ _ e He Hv). reflexivity.
  - intros items gst g Hne Hs Hg Hfin.
    unfold calculate_invoice_total. cbn [isinstance_list negb orb elements].
    assert (H1 : truthy (VList items) = true) by (destruct items; [congruence|reflexivity]).
    rewrite H1. cbn [negb orb].
    rewrite (total_loop_all_skipped _ _ _ Hs). cbn [bind]. rewrite Hg. cbn [bind].
    cbn [num_add num_mul num_truediv num_round2 as_float]. 
    change (SF2Prim (binary_normalize prec emax 0 0 false)) with zero.
    change (SF2Prim (binary_normalize prec emax 100 0 false)) with 100%float.
    change (Z.add 0 0) with 0. cbn [num_add as_float].
    change (SF2Prim (binary_normalize prec emax 0 0 false)) with zero.
    rewrite (zero_gst_amount g Hfin). reflexivity.
Qed.

Lemma invalid_item_contributes_nothing_witness :
  calculate_invoice_total
    (VList ([VDict [("quantity", VInt 2); ("unit_price", VInt 100)]]
            ++ VDict [("quantity", VInt 1); ("unit_price", VInt 5); ("tax", VStr "n/a")]
               :: [])) (VInt 18)
  = calculate_invoice_total
      (VList ([VDict [("quantity", VInt 2); ("unit_price", VInt 100)]] ++ [])) (VInt 18).
Proof.
  apply (proj1 invalid_item_contributes_nothing).
  - exists ValueError. split; vm_compute; reflexivity.
  - discriminate.
Defined.

End TotalsEdge.

(** ** Edge cases of the payment action *)
Module PaymentEdge.
Import Py Payment Spec FloatOrder RoundingFacts DictFacts.

(** The only update the handler issues. *)
Lemma pay_invoice_update body lookup now fields :
  pay_invoice body lookup now = PayUpdate fields ->
  exists invoice payment current_paid total,
    lookup = Ok (Some invoice)
    /\ (a <- get body "amount" (VInt 0) ;; py_float a) = Ok payment
    /\ PrimFloat.leb payment zero = false
    /\ amount_of invoice = Ok current_paid
    /\ total_of invoice = Ok total
    /\ fields = [("amount_paid", VFloat (round2 (current_paid + payment)%float));
                 ("status", VStr (payment_status (current_paid + payment)%float total));
                 ("updated_at", VDate now)].
Proof.
  unfold pay_invoice, amount_of, total_of.
  destruct (truthy body); cbn [negb]; [|discriminate].
  destruct lookup as [[invoice|]|e]; try discriminate.
  destruct (truthy invoice); cbn [negb]; [|discriminate].
  destruct (a <- get body "amount" (VInt 0) ;; py_float a) as [payment|e] eqn:Ea.
  2:{ destruct (value_or_type_error e); discriminate. }
  destruct (PrimFloat.leb payment zero) eqn:El; [discriminate|].
  destruct (get invoice "amount_paid" (VInt 0)) as [c|e] eqn:Ec; cbn [bind];
    [|discriminate].
  destruct (py_float c) as [current_paid|e] eqn:Ecp; cbn [bind]; [|discriminate].
  destruct (get invoice "total" (VInt 0)) as [t|e] eqn:Et; cbn [bind]; [|discriminate].
  destruct (py_float t) as [total|e] eqn:Etp; cbn [bind]; [|discriminate].
  intros H. inversion H; subst; clear H.
  exists invoice, payment, current_paid, total.
  rewrite Ec, Et. cbn [bind]. repeat split; try reflexivity; assumption.
Qed.

(** X3.  Whatever the request, the payment action leaves every field of the
    stored invoice other than [amount_paid], [status] and [updated_at] as
    it was. *)
Theorem pay_invoice_keeps_other_fields :
  forall body lookup now invoice k,
    k <> "amount_paid" -> k <> "status" -> k <> "updated_at" ->
    stored_field k (stored_after (pay_invoice body lookup now) invoice)
    = stored_field k invoice.
Proof.
  intros body lookup now invoice k H1 H2 H3.
  destruct (pay_invoice body lookup now) as [code error|fields] eqn:E; cbn [stored_after].
  - reflexivity.
  - apply pay_invoice_update in E.
    destruct E as (inv & payment & c & t & _ & _ & _ & _ & _ & ->).
    destruct invoice as [| | | | | |d| |]; try reflexivity.
    cbn [apply_set fold_left fst snd stored_field].
    rewrite !dict_lookup_set_other by assumption. reflexivity.
Qed.

Lemma pay_invoice_keeps_other_fields_witness :
  stored_field "total"
    (stored_after
       (pay_invoice (VDict [("amount", VInt 100); ("total", VInt 1)])
          (Ok (Some (VDict [("invoice_number", VStr "INV-0007");
                            ("total", VFloat 256%float);
                            ("amount_paid", VFloat 0%float)]))) 0)
       (VDict [("invoice_number", VStr "INV-0007"); ("total", VFloat 256%float);
               ("amount_paid", VFloat 0%float)]))
  = stored_field "total"
      (VDict [("invoice_number", VStr "INV-0007"); ("total", VFloat 256%float);
              ("amount_paid", VFloat 0%float)]).
Proof.
  apply (pay_invoice_keeps_other_fields
           (VDict [("amount", VInt 100); ("total", VInt 1)])
           (Ok (Some (VDict [("invoice_number", VStr "INV-0007");
                             ("total", VFloat 256%float);
                             ("amount_paid", VFloat 0%float)]))) 0
           (VDict [("invoice_number", VStr "INV-0007"); ("total", VFloat 256%float);
                   ("amount_paid", VFloat 0%float)]) "total"); discriminate.
Defined.

Lemma nan_spec x : PrimFloat.eqb x x = false -> Prim2SF x = S754_nan.
Proof.
  intros H. destruct (Prim2SF x) eqn:E; try reflexivity;
    assert (Hn : Prim2SF x <> S754_nan) by (rewrite E; discriminate);
    apply eqb_refl_iff in Hn; congruence.
Qed.

Lemma add_nan c p : Prim2SF p = S754_nan -> Prim2SF (c + p)%float = S754_nan.
Proof.
  intros Hp. rewrite add_spec, Hp. destruct (Prim2SF c); reflexivity.
Qed.

Lemma nan_leb_l x y : Prim2SF x = S754_nan -> PrimFloat.leb x y = false.
Proof. intros H. rewrite leb_spec, H. reflexivity. Qed.

Lemma nan_leb_r x y : Prim2SF y = S754_nan -> PrimFloat.leb x y = false.
Proof.
  intros H. rewrite leb_spec, H. unfold SFleb. destruct (Prim2SF x); reflexivity.
Qed.

Lemma nan_ltb_r x y : Prim2SF y = S754_nan -> PrimFloat.ltb x y = false.
Proof.
  intros H. rewrite ltb_spec, H. unfold SFltb. destruct (Prim2SF x); reflexivity.
Qed.

(** X4.  A payment amount that converts to NaN (the text ["nan"], say) passes
    the test [payment <= 0]: on an invoice whose amounts convert, the action
    stores NaN as the amount paid and the status ["unpaid"], whatever the
    invoice had been paid before. *)
Theorem nan_payment_resets_invoice :
  forall body a payment invoice current_paid total now,
    get body "amount" (VInt 0) = Ok a ->
    py_float a = Ok payment ->
    PrimFloat.eqb payment payment = false ->
    truthy invoice = true ->
    amount_of invoice = Ok current_paid ->
    total_of invoice = Ok total ->
    exists x,
      pay_invoice body (Ok (Some invoice)) now
      = PayUpdate [("amount_paid", VFloat x); ("status", VStr "unpaid");
                   ("updated_at", VDate now)]
      /\ PrimFloat.eqb x x = false.
Proof.
  intros body a payment invoice current_paid total now Ha Hp Hnan Hinv Hc Ht.
  apply nan_spec in Hnan.
  assert (Hbody : truthy body = true).
  { destruct body as [| | | | | |d| |]; try discriminate Ha.
    destruct d as [|kv d]; [|reflexivity].
    cbn in Ha. inversion Ha; subst a. cbn in Hp. 
    inversion Hp; subst payment. vm_compute in Hnan. discriminate. }
  exists (round2 (current_paid + payment)%float).
  unfold pay_invoice. rewrite Hbody, Hinv. cbn [negb].
  rewrite Ha. cbn [bind]. rewrite Hp.
  rewrite (nan_leb_l _ _ Hnan).
  unfold amount_of, total_of in Hc, Ht.
  destruct (get invoice "amount_paid" (VInt 0)) as [c|e]; cbn [bind] in *; [|discriminate].
  rewrite Hc. cbn [bind].
  destruct (get invoice "total" (VInt 0)) as [t|e]; cbn [bind] in *; [|discriminate].
  rewrite Ht. cbn [bind].
  pose proof (add_nan current_paid payment Hnan) as Hsum.
  unfold payment_status.
  rewrite (nan_leb_r _ _ Hsum), (nan_ltb_r _ _ Hsum).
  split; [reflexivity|].
  unfold round2. rewrite Hsum.
  destruct (PrimFloat.eqb (current_paid + payment)%float (current_paid + payment)%float) eqn:E;
    [|reflexivity].
  apply eqb_refl_iff in E. congruence.
Qed.

Lemma nan_payment_resets_invoice_witness :
  exists x,
    pay_invoice (VDict [("amount", VStr "nan")])
      (Ok (Some (VDict [("total", VFloat 256%float); ("amount_paid", VFloat 256%float);
                        ("status", VStr "paid")]))) 0
    = PayUpdate [("amount_paid", VFloat x); ("status", VStr "unpaid");
                 ("updated_at", VDate 0)]
    /\ PrimFloat.eqb x x = false.
Proof.
  apply (nan_payment_resets_invoice
           (VDict [("amount", VStr "nan")]) (VStr "nan") nan
           (VDict [("total", VFloat 256%float); ("amount_paid", VFloat 256%float);
                   ("status", VStr "paid")])
           256%float 256%float 0); vm_compute; reflexivity.
Defined.

End PaymentEdge.

(** ** The document that [create_invoice] inserts *)
Module CreateEdge.
Import Py Totals Create Terms DictFacts.

Lemma create_invoice_insert body last_invoice now doc :
  create_invoice body last_invoice now = Insert doc ->
  exists d items g total number,
    body = VDict d
    /\ dict_lookup "items" d = Some items
    /\ py_float (default (dict_lookup "gst_rate" d) (VInt 18)) = Ok g
    /\ calculate_invoice_total items (VFloat g) = Ok total
    /\ generate_invoice_number last_invoice = Ok number
    /\ doc =
       dict_set "updated_at" (VDate now)
         (dict_set "created_at" (VDate now)
           (dict_set "gst_rate" (VFloat g)
             (dict_set "currency" (default (dict_lookup "currency" d) (VStr "INR"))
               (dict_set "amount_paid" (VFloat zero)
                 (dict_set "status" (VStr "unpaid")
                   (dict_set "total" (value_of_num total)
                     (dict_set "invoice_number" (VStr number)
                       (dict_set "for" (default (dict_lookup "for" d) (VDict []))
                         (dict_set "from" (default (dict_lookup "from" d) (VDict []))
                            d))))))))).
Proof.
  unfold create_invoice.
  destruct (truthy body); cbn [negb]; [|discriminate].
  destruct body as [| | | | | |d| |]; try discriminate.
  destruct (dict_lookup "items" d) as [items|] eqn:Hi; cbn [default];
    [|cbn; discriminate].
  destruct (negb (truthy items) || negb (isinstance_list items))%bool; [discriminate|].
  rewrite !dict_lookup_set_other by discriminate.
  destruct (py_float (default (dict_lookup "gst_rate" d) (VInt 18))) as [g|e] eqn:Hg;
    cbn [bind]; [|discriminate].
  destruct (calculate_invoice_total items (VFloat g)) as [total|e] eqn:Ht;
    cbn [bind]; [|discriminate].
  destruct (generate_invoice_number last_invoice) as [number|e] eqn:Hn;
    cbn [bind]; [|discriminate].
  intros H; inversion H; subst doc; clear H.
  exists d, items, g, total, number. repeat split; auto.
Qed.

(** X5.  The inserted document is consistent with itself: its [total] is what
    [calculate_invoice_total] gives for the [items] and the [gst_rate] that
    the document itself holds. *)
Theorem created_invoice_total_matches_its_items :
  forall body last_invoice now doc,
    create_invoice body last_invoice now = Insert doc ->
    exists items gst_rate total,
      dict_lookup "items" doc = Some items
      /\ dict_lookup "gst_rate" doc = Some gst_rate
      /\ calculate_invoice_total items gst_rate = Ok total
      /\ dict_lookup "total" doc = Some (value_of_num total).
Proof.
  intros body last_invoice now doc H.
  apply create_invoice_insert in H.
  destruct H as (d & items & g & total & number & -> & Hi & Hg & Ht & Hn & ->).
  exists items, (VFloat g), total.
  repeat split; auto;
    repeat (rewrite dict_lookup_set_other by discriminate);
    try apply dict_lookup_set_same.
  exact Hi.
Qed.

Lemma created_invoice_total_matches_its_items_witness :
  exists items gst_rate total,
    dict_lookup "items"
      [("items", VList [VDict [("quantity", VInt 2); ("unit_price", VInt 100);
                               ("tax", VInt 10)]]);
       ("gst_rate", VFloat 5%float); ("total", VFloat 230%float);
       ("from", VDict []); ("for", VDict []); ("invoice_number", VStr "INV-0001");
       ("status", VStr "unpaid"); ("amount_paid", VFloat zero);
       ("currency", VStr "INR"); ("created_at", VDate 7); ("updated_at", VDate 7)]
    = Some items
    /\ dict_lookup "gst_rate"
         [("items", VList [VDict [("quantity", VInt 2); ("unit_price", VInt 100);
                                  ("tax", VInt 10)]]);
          ("gst_rate", VFloat 5%float); ("total", VFloat 230%float);
          ("from", VDict []); ("for", VDict []); ("invoice_number", VStr "INV-0001");
          ("status", VStr "unpaid"); ("amount_paid", VFloat zero);
          ("currency", VStr "INR"); ("created_at", VDate 7); ("updated_at", VDate 7)]
      = Some gst_rate
    /\ calculate_invoice_total items gst_rate = Ok total
    /\ dict_lookup "total"
         [("items", VList [VDict [("quantity", VInt 2); ("unit_price", VInt 100);
                                  ("tax", VInt 10)]]);
          ("gst_rate", VFloat 5%float); ("total", VFloat 230%float);
          ("from", VDict []); ("for", VDict []); ("invoice_number", VStr "INV-0001");
          ("status", VStr "unpaid"); ("amount_paid", VFloat zero);
          ("currency", VStr "INR"); ("created_at", VDate 7); ("updated_at", VDate 7)]
      = Some (value_of_num total).
Proof.
  apply (created_invoice_total_matches_its_items
           (VDict [("items", VList [VDict [("quantity", VInt 2); ("unit_price", VInt 100);
                                           ("tax", VInt 10)]]);
                   ("gst_rate", VStr "5"); ("total", VInt 1)])
           [] 7).
  vm_compute. reflexivity.
Defined.

(** X6.  The request is copied: every key that [create_invoice] does not assign
    reaches the inserted document with the value the request gave it, and
    the invoice number is the generated one, whatever the request said. *)
Theorem create_invoice_copies_the_request :
  forall body last_invoice now doc,
    create_invoice body last_invoice now = Insert doc ->
    exists d number,
      body = VDict d
      /\ generate_invoice_number last_invoice = Ok number
      /\ dict_lookup "invoice_number" doc = Some (VStr number)
      /\ forall k, ~ In k assigned_on_create -> dict_lookup k doc = dict_lookup k d.
Proof.
  intros body last_invoice now doc H.
  apply create_invoice_insert in H.
  destruct H as (d & items & g & total & number & -> & Hi & Hg & Ht & Hn & ->).
  exists d, number. repeat split; auto.
  - repeat (rewrite dict_lookup_set_other by discriminate).
    apply dict_lookup_set_same.
  - intros k Hk. unfold assigned_on_create in Hk. cbn [In] in Hk.
    repeat (rewrite dict_lookup_set_other
              by (intros ->; apply Hk; repeat ((left; reflexivity) || right))).
    reflexivity.
Qed.

Lemma create_invoice_copies_the_request_witness :
  exists d number,
    VDict [("items", VList [VDict [("quantity", VInt 1); ("unit_price", VInt 50)]]);
           ("invoice_number", VStr "MINE-1"); ("notes", VStr "net 30")]
    = VDict d
    /\ generate_invoice_number [VDict [("invoice_number", VStr "INV-0041")]] = Ok number
    /\ dict_lookup "invoice_number"
         [("items", VList [VDict [("quantity", VInt 1); ("unit_price", VInt 50)]]);
          ("invoice_number", VStr "INV-0042"); ("notes", VStr "net 30");
          ("from", VDict []); ("for", VDict []); ("total", VFloat 59%float);
          ("status", VStr "unpaid"); ("amount_paid", VFloat zero);
          ("currency", VStr "INR"); ("gst_rate", VFloat 18%float);
          ("created_at", VDate 7); ("updated_at", VDate 7)]
       = Some (VStr number)
    /\ forall k, ~ In k assigned_on_create ->
         dict_lookup k
           [("items", VList [VDict [("quantity", VInt 1); ("unit_price", VInt 50)]]);
            ("invoice_number", VStr "INV-0042"); ("notes", VStr "net 30");
            ("from", VDict []); ("for", VDict []); ("total", VFloat 59%float);
            ("status", VStr "unpaid"); ("amount_paid", VFloat zero);
            ("currency", VStr "INR"); ("gst_rate", VFloat 18%float);
            ("created_at", VDate 7); ("updated_at", VDate 7)]
         = dict_lookup k d.
Proof.
  apply (create_invoice_copies_the_request
           (VDict [("items", VList [VDict [("quantity", VInt 1); ("unit_price", VInt 50)]]);
                   ("invoice_number", VStr "MINE-1"); ("notes", VStr "net 30")])
           [VDict [("invoice_number", VStr "INV-0041")]] 7).
  vm_compute. reflexivity.
Defined.

End CreateEdge.

(** ** Invoice numbers *)
Module NumberFacts.
Import Py Create.



















End NumberFacts.

(** ** Counting in the summary *)
Module SummaryEdge.
Import Py Reports Spec Direct Terms ReportsFacts.

Lemma add_status_counts s x y z a :
  status_breakdown a = [("paid", x); ("partial", y); ("unpaid", z)] ->
  status_breakdown (add_status s a)
  = [("paid", x + (if String.eqb s "paid" then 1 else 0));
     ("partial", y + (if String.eqb s "partial" then 1 else 0));
     ("unpaid", z + (if String.eqb s "unpaid" then 1 else 0))].
Proof.
  intros Ha. unfold add_status. cbn [status_breakdown]. rewrite Ha.
  cbn [str_find str_update].
  destruct (String.eqb s "paid") eqn:E1.
  - apply String.eqb_eq in E1. subst s. cbn. rewrite !Z.add_0_r. reflexivity.
  - destruct (String.eqb s "partial") eqn:E2.
    + apply String.eqb_eq in E2. subst s. cbn. rewrite !Z.add_0_r. reflexivity.
    + destruct (String.eqb s "unpaid") eqn:E3; rewrite !Z.add_0_r; reflexivity.
Qed.

Lemma month_step_status date t a :
  status_breakdown (fst (month_step date t a)) = status_breakdown a.
Proof. apply (month_step_frame date t a). Qed.

Lemma client_step_status cid t a :
  status_breakdown (fst (client_step cid t a)) = status_breakdown a.
Proof. apply (client_step_frame cid t a). Qed.

Lemma process_invoice_status inv a x y z :
  regular inv = true ->
  status_breakdown a = [("paid", x); ("partial", y); ("unpaid", z)] ->
  snd (process_invoice inv a) = Ok tt
  /\ status_breakdown (fst (process_invoice inv a))
     = [("paid", x + (if has_status "paid" inv then 1 else 0));
        ("partial", y + (if has_status "partial" inv then 1 else 0));
        ("unpaid", z + (if has_status "unpaid" inv then 1 else 0))].
Proof.
  intros Hreg Ha.
  destruct (process_invoice_regular inv a Hreg) as (t & p & _ & Hok & _).
  split; [exact Hok|]. clear Hok.
  rewrite process_invoice_direct.
  destruct inv as [| | | | | |d| |]; try discriminate Hreg.
  cbn [regular] in Hreg.
  unfold has_status, status_of, lookup_field, body_direct.
  destruct (py_float (default (dict_lookup "total" d) (VInt 0))) as [t'|e];
    [|discriminate].
  destruct (py_float (default (dict_lookup "amount_paid" d) (VInt 0))) as [p'|e];
    [|discriminate].
  unfold after_totals.
  set (a1 := add_total_paid p' (add_total_invoiced t' a)).
  assert (Ha1 : status_breakdown a1 = [("paid", x); ("partial", y); ("unpaid", z)])
    by exact Ha.
  set (status := default (dict_lookup "status" d) (VStr "unpaid")) in *.
  destruct (hash_key status) as [h|e]; [|discriminate].
  set (a2 := match status with VStr s => add_status s a1 | _ => a1 end).
  assert (Ha2 : status_breakdown a2
                = [("paid", x + (if match status with VStr s => String.eqb s "paid"
                                               | _ => false end then 1 else 0));
                   ("partial", y + (if match status with VStr s => String.eqb s "partial"
                                                  | _ => false end then 1 else 0));
                   ("unpaid", z + (if match status with VStr s => String.eqb s "unpaid"
                                                 | _ => false end then 1 else 0))]).
  { subst a2. destruct status; try (rewrite Ha1, !Z.add_0_r; reflexivity).
    apply add_status_counts. exact Ha1. }
  rewrite <- Ha2. clearbody a2.
  cbn [is_ok andb] in Hreg.
  destruct (default (dict_lookup "for" d) (VDict [])) as [| | | | | |f| |];
    try discriminate Hreg.
  cbn [get].
  pose proof (client_step_status (default (dict_lookup "id" f) VNone) t' a2) as Hc.
  destruct (client_step (default (dict_lookup "id" f) VNone) t' a2) as [a3 [u|e]];
    cbn [fst] in Hc.
  - pose proof (month_step_status (default (dict_lookup "date" d) (VStr "")) t' a3) as Hm.
    destruct (month_step (default (dict_lookup "date" d) (VStr "")) t' a3) as [a4 [u'|e]];
      cbn [fst handled] in *; congruence.
  - cbn [handled fst]. exact Hc.
Qed.

Lemma count_with_status_cons k inv invoices :
  count_with_status k (inv :: invoices)
  = (if has_status k inv then 1 else 0) + count_with_status k invoices.
Proof.
  unfold count_with_status. cbn [filter].
  destruct (has_status k inv); cbn [List.length]; lia.
Qed.

Lemma accumulate_status invoices : forall a x y z,
  forallb regular invoices = true ->
  status_breakdown a = [("paid", x); ("partial", y); ("unpaid", z)] ->
  exists a',
    for_each process_invoice invoices a = (a', Ok tt)
    /\ status_breakdown a'
       = [("paid", x + count_with_status "paid" invoices);
          ("partial", y + count_with_status "partial" invoices);
          ("unpaid", z + count_with_status "unpaid" invoices)].
Proof.
  induction invoices as [|inv invoices IH]; intros a x y z Hreg Ha.
  - exists a. split; [reflexivity|]. rewrite Ha. unfold count_with_status. cbn.
    rewrite !Z.add_0_r. reflexivity.
  - cbn [forallb] in Hreg. apply andb_prop in Hreg. destruct Hreg as [Hr Hrest].
    destruct (process_invoice_status inv a x y z Hr Ha) as [Hok Hs].
    rewrite for_each_cons.
    destruct (process_invoice inv a) as [a1 r1]. cbn [fst snd] in *. subst r1.
    destruct (IH a1 _ _ _ Hrest Hs) as (a' & Hrun & Hs').
    exists a'. split; [exact Hrun|].
    rewrite Hs', !count_with_status_cons, !Z.add_assoc. reflexivity.
Qed.

Lemma count_with_status_bound invoices :
  count_with_status "paid" invoices + count_with_status "partial" invoices
  + count_with_status "unpaid" invoices <= Z.of_nat (List.length invoices).
Proof.
  induction invoices as [|inv invoices IH].
  - unfold count_with_status. cbn. lia.
  - rewrite !count_with_status_cons. cbn [List.length].
    assert (H : (if has_status "paid" inv then 1 else 0)
                + (if has_status "partial" inv then 1 else 0)
                + (if has_status "unpaid" inv then 1 else 0) <= 1).
    { unfold has_status. destruct (status_of inv); cbn; try lia.
      destruct (String.eqb s "paid") eqn:E1.
      - apply String.eqb_eq in E1. subst s. cbn. lia.
      - destruct (String.eqb s "partial") eqn:E2.
        + apply String.eqb_eq in E2. subst s. cbn. lia.
        + destruct (String.eqb s "unpaid"); lia. }
    lia.
Qed.

(** X8.  The status breakdown of invoices that are read without an exception:
    each of the three counters is the number of invoices with that status,
    an invoice without a status counting as unpaid; an invoice of any other
    status is in none of them, so the three may add up to less than
    [invoice_count]. *)
Theorem status_breakdown_counts :
  forall invoices clients s,
    forallb regular invoices = true ->
    reports_summary invoices clients = Ok s ->
    s_status_breakdown s
    = [("paid", count_with_status "paid" invoices);
       ("partial", count_with_status "partial" invoices);
       ("unpaid", count_with_status "unpaid" invoices)]
    /\ count_with_status "paid" invoices + count_with_status "partial" invoices
       + count_with_status "unpaid" invoices <= Z.of_nat (s_invoice_count s).
Proof.
  intros invoices clients s Hreg H.
  destruct (accumulate_status invoices acc0 0 0 0 Hreg eq_refl) as (a' & Hrun & Hs).
  unfold reports_summary, accumulate in H. rewrite Hrun in H.
  destruct (client_dict clients []) as [roster|e]; cbn [bind] in H; [|discriminate].
  inversion H; subst s; clear H. cbn [s_status_breakdown s_invoice_count].
  split; [exact Hs|apply count_with_status_bound].
Qed.

Lemma status_breakdown_counts_witness :
  exists s,
    reports_summary
      [VDict [("total", VInt 10); ("status", VStr "paid")];
       VDict [("total", VInt 20)];
       VDict [("total", VInt 30); ("status", VStr "void")];
       VDict [("total", VInt 40); ("status", VStr "paid")]] [] = Ok s
    /\ s_status_breakdown s = [("paid", 2); ("partial", 0); ("unpaid", 1)]
    /\ 2 + 0 + 1 <= Z.of_nat (s_invoice_count s).
Proof.
  eexists. split.
  - vm_compute. reflexivity.
  - apply (status_breakdown_counts
             [VDict [("total", VInt 10); ("status", VStr "paid")];
              VDict [("total", VInt 20)];
              VDict [("total", VInt 30); ("status", VStr "void")];
              VDict [("total", VInt 40); ("status", VStr "paid")]] []);
      vm_compute; reflexivity.
Defined.

Lemma for_each_app body l1 : forall l2 a,
  for_each body (l1 ++ l2) a =
    match for_each body l1 a with
    | (a1, Ok _) => for_each body l2 a1
    | (a1, Raise e) => (a1, Raise e)
    end.
Proof.
  induction l1 as [|x l1 IH]; intros l2 a; cbn [app].
  - reflexivity.
  - rewrite !for_each_cons. destruct (body x a) as [a1 [u|e]]; [apply IH|reflexivity].
Qed.

(** An invoice whose total or amount paid does not convert leaves the
    loop variables as they were. *)
Lemma process_invoice_unreadable inv a e :
  invoice_amounts inv = Raise e ->
  value_or_type_error e = true ->
  process_invoice inv a = (a, Ok tt).
Proof.
  intros Hamt He. rewrite process_invoice_direct.
  destruct inv as [| | | | | |d| |]; try (inversion Hamt; subst e; discriminate He).
  unfold invoice_amounts, get in Hamt; cbn [bind] in Hamt. unfold body_direct.
  destruct (py_float (default (dict_lookup "total" d) (VInt 0))) as [t|e1];
    cbn [bind] in Hamt.
  - destruct (py_float (default (dict_lookup "amount_paid" d) (VInt 0))) as [p|e2];
      cbn [bind] in Hamt; [discriminate|].
    inversion Hamt; subst e2. cbn [handled]. rewrite He. reflexivity.
  - inversion Hamt; subst e1. cbn [handled]. rewrite He. reflexivity.
Qed.

Lemma accumulate_unreadable l1 inv l2 e :
  invoice_amounts inv = Raise e ->
  value_or_type_error e = true ->
  accumulate (l1 ++ inv :: l2) = accumulate (l1 ++ l2).
Proof.
  intros Hamt He. unfold accumulate. rewrite !for_each_app.
  destruct (for_each process_invoice l1 acc0) as [a1 [u|e1]]; [|reflexivity].
  rewrite for_each_cons, (process_invoice_unreadable inv a1 e Hamt He). reflexivity.
Qed.

(** X9.  An invoice whose total or amount paid does not convert ([ValueError]
    or [TypeError]) adds nothing to any sum, counter or list of the summary,
    but it is counted in [invoice_count] and in the divisor of
    [average_invoice]. *)
Theorem unreadable_invoice_is_still_counted :
  forall l1 inv l2 clients e s,
    invoice_amounts inv = Raise e ->
    value_or_type_error e = true ->
    reports_summary (l1 ++ l2) clients = Ok s ->
    exists s',
      reports_summary (l1 ++ inv :: l2) clients = Ok s'
      /\ s_total_invoiced s' = s_total_invoiced s
      /\ s_total_paid s' = s_total_paid s
      /\ s_total_outstanding s' = s_total_outstanding s
      /\ s_status_breakdown s' = s_status_breakdown s
      /\ s_top_clients s' = s_top_clients s
      /\ s_monthly_data s' = s_monthly_data s
      /\ s_collection_rate s' = s_collection_rate s
      /\ s_client_count s' = s_client_count s
      /\ s_invoice_count s' = S (s_invoice_count s)
      /\ s_average_invoice s'
         = num_round2 (num_truediv (invoiced_sum (l1 ++ l2))
                                   (NInt (Z.of_nat (S (List.length (l1 ++ l2)))))).
Proof.
  intros l1 inv l2 clients e s Hamt He H.
  unfold reports_summary in *.
  rewrite (accumulate_unreadable l1 inv l2 e Hamt He).
  destruct (accumulate (l1 ++ l2)) as [a [u|e1]] eqn:Hacc; [|discriminate].
  destruct (client_dict clients []) as [roster|e1]; cbn [bind] in *; [|discriminate].
  inversion H; subst s; clear H.
  eexists. split; [reflexivity|].
  cbn [s_total_invoiced s_total_paid s_total_outstanding s_status_breakdown
       s_top_clients s_monthly_data s_collection_rate s_client_count
       s_invoice_count s_average_invoice].
  repeat split.
  - rewrite !length_app. cbn [List.length]. lia.
  - destruct (accumulate_totals _ _ _ _ Hacc) as [Hti _].
    rewrite Hti. fold (running_sum (map fst (counted_amounts (l1 ++ l2)))).
    fold (invoiced_sum (l1 ++ l2)).
    assert (Hlen : List.length (l1 ++ inv :: l2) = S (List.length (l1 ++ l2))).
    { rewrite !length_app. cbn [List.length]. lia. }
    rewrite Hlen. destruct (l1 ++ inv :: l2)%list eqn:El; [|reflexivity].
    destruct l1; discriminate.
Qed.

Lemma unreadable_invoice_is_still_counted_witness :
  exists s',
    reports_summary ([VDict [("total", VInt 10)]]
                     ++ VDict [("total", VStr "ten")] :: [VDict [("total", VInt 20)]]) []
    = Ok s'
    /\ s_total_invoiced s' = NFloat 30%float
    /\ s_total_paid s' = NFloat 0%float
    /\ s_total_outstanding s' = NFloat 30%float
    /\ s_status_breakdown s' = [("paid", 0); ("partial", 0); ("unpaid", 2)]
    /\ s_top_clients s' = []
    /\ s_monthly_data s' = []
    /\ s_collection_rate s' = NFloat 0%float
    /\ s_client_count s' = 0%nat
    /\ s_invoice_count s' = 3%nat
    /\ s_average_invoice s'
       = num_round2 (num_truediv
                       (invoiced_sum ([VDict [("total", VInt 10)]]
                                      ++ [VDict [("total", VInt 20)]]))
                       (NInt 3)).
Proof.
  apply (unreadable_invoice_is_still_counted
           [VDict [("total", VInt 10)]] (VDict [("total", VStr "ten")])
           [VDict [("total", VInt 20)]] [] ValueError
           {| s_total_invoiced := NFloat 30%float;
              s_total_paid := NFloat 0%float;
              s_total_outstanding := NFloat 30%float;
              s_invoice_count := 2;
              s_client_count := 0;
              s_status_breakdown := [("paid", 0); ("partial", 0); ("unpaid", 2)];
              s_top_clients := [];
              s_monthly_data := [];
              s_average_invoice := NFloat 15%float;
              s_collection_rate := NFloat 0%float |}); vm_compute; reflexivity.
Defined.

(** X10.  With no invoice the summary, when it is produced, shows zeros and empty
    lists, whatever the clients. *)
Theorem summary_of_no_invoices :
  forall clients s,
    reports_summary [] clients = Ok s ->
    s = {| s_total_invoiced := NInt 0;
           s_total_paid := NInt 0;
           s_total_outstanding := NInt 0;
           s_invoice_count := 0;
           s_client_count := List.length clients;
           s_status_breakdown := [("paid", 0); ("partial", 0); ("unpaid", 0)];
           s_top_clients := [];
           s_monthly_data := [];
           s_average_invoice := NInt 0;
           s_collection_rate := NInt 0 |}.
Proof.
  intros clients s. unfold reports_summary, accumulate.
  cbn [for_each ret].
  destruct (client_dict clients []) as [roster|e]; cbn [bind]; [|discriminate].
  intros H. inversion H. reflexivity.
Qed.

Lemma summary_of_no_invoices_witness :
  {| s_total_invoiced := NInt 0;
     s_total_paid := NInt 0;
     s_total_outstanding := NInt 0;
     s_invoice_count := 0;
     s_client_count := 2;
     s_status_breakdown := [("paid", 0); ("partial", 0); ("unpaid", 0)];
     s_top_clients := [];
     s_monthly_data := [];
     s_average_invoice := NInt 0;
     s_collection_rate := NInt 0 |}
  = {| s_total_invoiced := NInt 0;
       s_total_paid := NInt 0;
       s_total_outstanding := NInt 0;
       s_invoice_count := 0;
       s_client_count := List.length [VDict [("_id", VOid "65a1")];
                                      VDict [("_id", VOid "65a2")]];
       s_status_breakdown := [("paid", 0); ("partial", 0); ("unpaid", 0)];
       s_top_clients := [];
       s_monthly_data := [];
       s_average_invoice := NInt 0;
       s_collection_rate := NInt 0 |}.
Proof.
  apply (summary_of_no_invoices
           [VDict [("_id", VOid "65a1")]; VDict [("_id", VOid "65a2")]]).
  vm_compute. reflexivity.
Defined.

End SummaryEdge.

(** ** What [update_invoice] writes *)
Module UpdateFacts.
Import Py Totals Payment Update Terms DictFacts.

Lemma dict_lookup_remove_same k d : dict_lookup k (dict_remove k d) = None.
Proof.
  induction d as [|[k' v] d IH]; cbn [dict_remove]; [reflexivity|].
  destruct (String.eqb k k') eqn:E; [exact IH|].
  cbn [dict_lookup]. rewrite E. exact IH.
Qed.

Lemma dict_lookup_remove_other k k' d :
  k <> k' -> dict_lookup k (dict_remove k' d) = dict_lookup k d.
Proof.
  intros Hne. induction d as [|[k0 v] d IH]; cbn [dict_remove]; [reflexivity|].
  destruct (String.eqb k' k0) eqn:E.
  - apply String.eqb_eq in E. subst k0. cbn [dict_lookup].
    apply String.eqb_neq in Hne. rewrite Hne. exact IH.
  - cbn [dict_lookup]. rewrite IH. reflexivity.
Qed.

Lemma dict_remove_keys k k' d :
  In k (map fst (dict_remove k' d)) -> k <> k' /\ In k (map fst d).
Proof.
  induction d as [|[k0 v] d IH]; cbn [dict_remove map fst In]; [tauto|].
  destruct (String.eqb k' k0) eqn:E.
  - intros H. destruct (IH H). auto.
  - cbn [map fst In]. intros [<-|H].
    + split; [|auto]. intros ->. rewrite String.eqb_refl in E. discriminate.
    + destruct (IH H). auto.
Qed.

Lemma dict_lookup_set_if_absent_other k k' v d :
  k <> k' -> dict_lookup k (set_if_absent k' v d) = dict_lookup k d.
Proof.
  intros Hne. unfold set_if_absent.
  destruct (dict_lookup k' d); [reflexivity|].
  apply dict_lookup_set_other. exact Hne.
Qed.

Lemma dict_lookup_set_if_absent_same k v d :
  dict_lookup k (set_if_absent k v d) = Some (default (dict_lookup k d) v).
Proof.
  unfold set_if_absent. destruct (dict_lookup k d) eqn:E; cbn [default].
  - exact E.
  - apply dict_lookup_set_same.
Qed.

(** The only update the handler issues. *)
Lemma update_invoice_set body lookup now fields :
  update_invoice body lookup now = UpdateSet fields ->
  exists d inv items g total,
    body = VDict d
    /\ lookup = Ok (Some (VDict inv))
    /\ dict_lookup "items" d = Some items
    /\ py_float (default (dict_lookup "gst_rate" d)
                         (default (dict_lookup "gst_rate" inv) (VInt 18))) = Ok g
    /\ calculate_invoice_total items (VFloat g) = Ok total
    /\ fields =
       dict_remove "created_at"
         (dict_remove "invoice_number"
           (dict_remove "id"
             (dict_remove "_id"
               (set_if_absent "status" (default (dict_lookup "status" inv) (VStr "unpaid"))
                 (set_if_absent "amount_paid"
                    (default (dict_lookup "amount_paid" inv) (VInt 0))
                   (dict_set "updated_at" (VDate now)
                     (dict_set "gst_rate" (VFloat g)
                       (dict_set "currency"
                          (default (dict_lookup "currency" d)
                                   (default (dict_lookup "currency" inv) (VStr "INR")))
                         (dict_set "total" (value_of_num total)
                           (dict_set "for" (default (dict_lookup "for" d) (VDict []))
                             (dict_set "from" (default (dict_lookup "from" d) (VDict []))
                                d))))))))))).
Proof.
  unfold update_invoice.
  destruct (truthy body); cbn [negb]; [|discriminate].
  destruct lookup as [[invoice|]|e]; try discriminate.
  destruct (truthy invoice); cbn [negb]; [|discriminate].
  destruct body as [| | | | | |d| |]; try discriminate.
  destruct (dict_lookup "items" d) as [items|] eqn:Hi; cbn [default];
    [|cbn; discriminate].
  destruct (negb (truthy items) || negb (isinstance_list items))%bool; [discriminate|].
  destruct invoice as [| | | | | |inv| |]; try discriminate.
  cbn [get bind].
  rewrite !dict_lookup_set_other by discriminate.
  destruct (py_float _) as [g|e] eqn:Hg; cbn [bind]; [|discriminate].
  destruct (calculate_invoice_total items (VFloat g)) as [total|e] eqn:Ht;
    cbn [bind]; [|discriminate].
  intros H; inversion H; subst fields; clear H.
  exists d, inv, items, g, total. repeat split; auto.
Qed.

(** X11.  The [$set] of an update is consistent with itself: its [total] is what
    [calculate_invoice_total] gives for the [items] and the [gst_rate] it
    holds. *)
Theorem updated_total_matches_its_items :
  forall body lookup now fields,
    update_invoice body lookup now = UpdateSet fields ->
    exists items gst_rate total,
      dict_lookup "items" fields = Some items
      /\ dict_lookup "gst_rate" fields = Some gst_rate
      /\ calculate_invoice_total items gst_rate = Ok total
      /\ dict_lookup "total" fields = Some (value_of_num total).
Proof.
  intros body lookup now fields H.
  apply update_invoice_set in H.
  destruct H as (d & inv & items & g & total & -> & -> & Hi & Hg & Ht & ->).
  exists items, (VFloat g), total.
  repeat split; auto;
    rewrite !dict_lookup_remove_other by discriminate;
    rewrite !dict_lookup_set_if_absent_other by discriminate;
    repeat (rewrite dict_lookup_set_other by discriminate);
    try apply dict_lookup_set_same.
  exact Hi.
Qed.

Lemma updated_total_matches_its_items_witness :
  exists items gst_rate total,
    dict_lookup "items"
      [("items", VList [VDict [("quantity", VInt 3); ("unit_price", VInt 100)]]);
       ("from", VDict []); ("for", VDict []); ("total", VFloat 315%float);
       ("currency", VStr "USD"); ("gst_rate", VFloat 5%float);
       ("updated_at", VDate 9); ("amount_paid", VFloat 236%float);
       ("status", VStr "paid")] = Some items
    /\ dict_lookup "gst_rate"
         [("items", VList [VDict [("quantity", VInt 3); ("unit_price", VInt 100)]]);
          ("from", VDict []); ("for", VDict []); ("total", VFloat 315%float);
          ("currency", VStr "USD"); ("gst_rate", VFloat 5%float);
          ("updated_at", VDate 9); ("amount_paid", VFloat 236%float);
          ("status", VStr "paid")] = Some gst_rate
    /\ calculate_invoice_total items gst_rate = Ok total
    /\ dict_lookup "total"
         [("items", VList [VDict [("quantity", VInt 3); ("unit_price", VInt 100)]]);
          ("from", VDict []); ("for", VDict []); ("total", VFloat 315%float);
          ("currency", VStr "USD"); ("gst_rate", VFloat 5%float);
          ("updated_at", VDate 9); ("amount_paid", VFloat 236%float);
          ("status", VStr "paid")] = Some (value_of_num total).
Proof.
  apply (updated_total_matches_its_items
           (VDict [("items", VList [VDict [("quantity", VInt 3);
                                           ("unit_price", VInt 100)]])])
           (Ok (Some (VDict [("_id", VOid "65a1"); ("invoice_number", VStr "INV-0007");
                             ("total", VFloat 236%float); ("currency", VStr "USD");
                             ("gst_rate", VFloat 5%float);
                             ("amount_paid", VFloat 236%float);
                             ("status", VStr "paid")]))) 9).
  vm_compute. reflexivity.
Defined.

Lemma apply_set_other k fields : forall d,
  ~ In k (map fst fields) ->
  dict_lookup k (fold_left (fun d kv => dict_set (fst kv) (snd kv) d) fields d)
  = dict_lookup k d.
Proof.
  induction fields as [|[k' v] fields IH]; intros d Hk; cbn [fold_left fst snd].
  - reflexivity.
  - cbn [map fst In] in Hk. rewrite IH by tauto.
    apply dict_lookup_set_other. intros ->. tauto.
Qed.

(** X12.  Whatever the request contains, an update does not write [_id], [id],
    [invoice_number] or [created_at]: the stored invoice keeps them. *)
Theorem update_invoice_keeps_identity :
  forall body lookup now fields invoice k,
    update_invoice body lookup now = UpdateSet fields ->
    In k kept_on_update ->
    ~ In k (map fst fields)
    /\ stored_field k (apply_set fields invoice) = stored_field k invoice.
Proof.
  intros body lookup now fields invoice k H Hk.
  assert (Hnot : ~ In k (map fst fields)).
  { apply update_invoice_set in H.
    destruct H as (d & inv & items & g & total & _ & _ & _ & _ & _ & ->).
    intros Hin.
    apply dict_remove_keys in Hin. destruct Hin as [H1 Hin].
    apply dict_remove_keys in Hin. destruct Hin as [H2 Hin].
    apply dict_remove_keys in Hin. destruct Hin as [H3 Hin].
    apply dict_remove_keys in Hin. destruct Hin as [H4 Hin].
    unfold kept_on_update in Hk. cbn [In] in Hk.
    destruct Hk as [<-|[<-|[<-|[<-|[]]]]]; congruence. }
  split; [exact Hnot|].
  destruct invoice as [| | | | | |d0| |]; try reflexivity.
  cbn [apply_set stored_field]. apply apply_set_other. exact Hnot.
Qed.

Lemma update_invoice_keeps_identity_witness :
  ~ In "invoice_number"
       (map fst
          [("items", VList [VDict [("quantity", VInt 3); ("unit_price", VInt 100)]]);
           ("from", VDict []); ("for", VDict []); ("total", VFloat 354%float);
           ("currency", VStr "INR"); ("gst_rate", VFloat 18%float);
           ("updated_at", VDate 9); ("amount_paid", VInt 0);
           ("status", VStr "unpaid")])
  /\ stored_field "invoice_number"
       (apply_set
          [("items", VList [VDict [("quantity", VInt 3); ("unit_price", VInt 100)]]);
           ("from", VDict []); ("for", VDict []); ("total", VFloat 354%float);
           ("currency", VStr "INR"); ("gst_rate", VFloat 18%float);
           ("updated_at", VDate 9); ("amount_paid", VInt 0);
           ("status", VStr "unpaid")]
          (VDict [("_id", VOid "65a1"); ("invoice_number", VStr "INV-0007")]))
     = stored_field "invoice_number"
         (VDict [("_id", VOid "65a1"); ("invoice_number", VStr "INV-0007")]).
Proof.
  apply (update_invoice_keeps_identity
           (VDict [("_id", VStr "x"); ("invoice_number", VStr "INV-9999");
                   ("items", VList [VDict [("quantity", VInt 3);
                                           ("unit_price", VInt 100)]])])
           (Ok (Some (VDict [("_id", VOid "65a1"); ("invoice_number", VStr "INV-0007")])))
           9).
  - vm_compute. reflexivity.
  - right. right. left. reflexivity.
Defined.

(** X13.  An update does not re-evaluate the payment state: unless the request
    gives them, [status] and [amount_paid] are written as the stored invoice
    has them (["unpaid"] and [0] when it has none), whatever the new
    total. *)
Theorem update_invoice_carries_payment_state :
  forall body lookup now fields,
    update_invoice body lookup now = UpdateSet fields ->
    exists d inv,
      body = VDict d /\ lookup = Ok (Some (VDict inv))
      /\ dict_lookup "status" fields
         = Some (default (dict_lookup "status" d)
                         (default (dict_lookup "status" inv) (VStr "unpaid")))
      /\ dict_lookup "amount_paid" fields
         = Some (default (dict_lookup "amount_paid" d)
                         (default (dict_lookup "amount_paid" inv) (VInt 0))).
Proof.
  intros body lookup now fields H.
  apply update_invoice_set in H.
  destruct H as (d & inv & items & g & total & -> & -> & Hi & Hg & Ht & ->).
  exists d, inv. repeat split.
  - rewrite !dict_lookup_remove_other by discriminate.
    rewrite dict_lookup_set_if_absent_same.
    rewrite dict_lookup_set_if_absent_other by discriminate.
    repeat (rewrite dict_lookup_set_other by discriminate). reflexivity.
  - rewrite !dict_lookup_remove_other by discriminate.
    rewrite dict_lookup_set_if_absent_other by discriminate.
    rewrite dict_lookup_set_if_absent_same.
    repeat (rewrite dict_lookup_set_other by discriminate). reflexivity.
Qed.

Lemma update_invoice_carries_payment_state_witness :
  exists d inv,
    VDict [("items", VList [VDict [("quantity", VInt 10); ("unit_price", VInt 100)]])]
    = VDict d
    /\ Ok (Some (VDict [("total", VFloat 118%float); ("amount_paid", VFloat 118%float);
                        ("status", VStr "paid")]))
       = Ok (Some (VDict inv))
    /\ dict_lookup "status"
         [("items", VList [VDict [("quantity", VInt 10); ("unit_price", VInt 100)]]);
          ("from", VDict []); ("for", VDict []); ("total", VFloat 1180%float);
          ("currency", VStr "INR"); ("gst_rate", VFloat 18%float);
          ("updated_at", VDate 9); ("amount_paid", VFloat 118%float);
          ("status", VStr "paid")]
       = Some (default (dict_lookup "status" d)
                       (default (dict_lookup "status" inv) (VStr "unpaid")))
    /\ dict_lookup "amount_paid"
         [("items", VList [VDict [("quantity", VInt 10); ("unit_price", VInt 100)]]);
          ("from", VDict []); ("for", VDict []); ("total", VFloat 1180%float);
          ("currency", VStr "INR"); ("gst_rate", VFloat 18%float);
          ("updated_at", VDate 9); ("amount_paid", VFloat 118%float);
          ("status", VStr "paid")]
       = Some (default (dict_lookup "amount_paid" d)
                       (default (dict_lookup "amount_paid" inv) (VInt 0))).
Proof.
  apply (update_invoice_carries_payment_state
           (VDict [("items", VList [VDict [("quantity", VInt 10);
                                           ("unit_price", VInt 100)]])])
           (Ok (Some (VDict [("total", VFloat 118%float);
                             ("amount_paid", VFloat 118%float);
                             ("status", VStr "paid")]))) 9).
  vm_compute. reflexivity.
Defined.

End UpdateFacts.

(** ** Which file names are logos *)
Module LogoFacts.
Import Py Logos.

Lemma split_last_dot_none s : split_last_dot s = None -> has_dot s = false.
Proof.
  induction s as [|c s IH]; cbn [split_last_dot has_dot]; [reflexivity|].
  destruct (split_last_dot s) as [[a b]|]; [discriminate|].
  destruct (Ascii.eqb c "."); [discriminate|]. intros _. apply IH. reflexivity.
Qed.

Lemma split_last_dot_some s : forall a b,
  split_last_dot s = Some (a, b) -> s = a ++ "." ++ b /\ has_dot b = false.
Proof.
  induction s as [|c s IH]; cbn [split_last_dot]; intros a b H; [discriminate|].
  destruct (split_last_dot s) as [[a' b']|] eqn:E.
  - inversion H; subst. destruct (IH _ _ eq_refl) as [-> Hb]. split; [reflexivity|exact Hb].
  - destruct (Ascii.eqb c ".") eqn:Ec; [|discriminate].
    inversion H; subst. apply Ascii.eqb_eq in Ec. subst c.
    split; [reflexivity|]. apply split_last_dot_none. exact E.
Qed.

Lemma split_last_dot_no_dot s : has_dot s = false -> split_last_dot s = None.
Proof.
  induction s as [|c s IH]; cbn [split_last_dot has_dot]; [reflexivity|].
  intros H. apply orb_false_elim in H. destruct H as [Hc Hs].
  rewrite (IH Hs), Hc. reflexivity.
Qed.

Lemma split_last_dot_app a b :
  has_dot b = false -> split_last_dot (a ++ "." ++ b) = Some (a, b).
Proof.
  intros Hb. induction a as [|c a IH]; cbn [String.append split_last_dot].
  - rewrite (split_last_dot_no_dot b Hb). reflexivity.
  - cbn [String.append] in IH. rewrite IH. reflexivity.
Qed.

Lemma has_dot_app a b : has_dot (a ++ "." ++ b) = true.
Proof.
  induction a as [|c a IH]; cbn [String.append has_dot].
  - reflexivity.
  - cbn [String.append] in IH. rewrite IH. apply orb_true_r.
Qed.

Lemma lower_char_dot c : Ascii.eqb (lower_char c) "." = Ascii.eqb c ".".
Proof. destruct c as [[] [] [] [] [] [] [] []]; reflexivity. Qed.

Lemma has_dot_lower s : has_dot (str_lower s) = has_dot s.
Proof.
  induction s as [|c s IH]; cbn [str_lower has_dot]; [reflexivity|].
  rewrite lower_char_dot, IH. reflexivity.
Qed.

Lemma allowed_extension_has_no_dot e :
  In e ALLOWED_LOGO_EXTENSIONS -> has_dot e = false.
Proof.
  unfold ALLOWED_LOGO_EXTENSIONS. cbn [In].
  intros [<-|[<-|[<-|[<-|[<-|[]]]]]]; reflexivity.
Qed.

Lemma existsb_eqb_In x l : existsb (String.eqb x) l = true <-> In x l.
Proof.
  rewrite existsb_exists. split.
  - intros (y & Hy & E). apply String.eqb_eq in E. subst y. exact Hy.
  - intros H. exists x. split; [exact H|apply String.eqb_refl].
Qed.

(** X14.  [allowed_logo_file] never fails, and it accepts exactly the names that
    end in a dot followed by one of the five extensions, written in any
    mix of upper and lower case.  What precedes the dot is not looked at:
    it may be empty and may hold further dots. *)
Theorem allowed_logo_file_spec :
  forall filename,
    exists b,
      allowed_logo_file filename = Some b
      /\ (b = true <->
          exists base extension,
            filename = base ++ "." ++ extension
            /\ In (str_lower extension) ALLOWED_LOGO_EXTENSIONS).
Proof.
  intros filename. unfold allowed_logo_file, rsplit_dot.
  destruct (split_last_dot filename) as [[a e]|] eqn:E.
  - destruct (split_last_dot_some _ _ _ E) as [-> He].
    rewrite has_dot_app. cbn [nth_error].
    eexists. split; [reflexivity|].
    rewrite existsb_eqb_In. split.
    + intros H. exists a, e. split; [reflexivity|exact H].
    + intros (base & ext & Heq & Hin).
      pose proof (allowed_extension_has_no_dot _ Hin) as Hd.
      rewrite has_dot_lower in Hd.
      pose proof (split_last_dot_app base ext Hd) as Hs.
      rewrite <- Heq, (split_last_dot_app a e He) in Hs.
      inversion Hs; subst. exact Hin.
  - rewrite (split_last_dot_none _ E). exists false. split; [reflexivity|].
    split; [discriminate|].
    intros (base & ext & Heq & Hin). subst filename.
    pose proof (has_dot_app base ext) as Hd.
    rewrite (split_last_dot_none _ E) in Hd. discriminate.
Qed.

End LogoFacts.

(** ** Serialised documents *)
Module SerializeFacts.
Import Py Reports Serialize Terms DictFacts.

(** Induction on a value, with the elements of a list and the fields of a
    document as smaller values. *)
Lemma value_nested_ind (P : value -> Prop) :
  P VNone ->
  (forall b, P (VBool b)) ->
  (forall n, P (VInt n)) ->
  (forall f, P (VFloat f)) ->
  (forall s, P (VStr s)) ->
  (forall l, Forall P l -> P (VList l)) ->
  (forall d, Forall (fun kv => P (snd kv)) d -> P (VDict d)) ->
  (forall s, P (VOid s)) ->
  (forall t, P (VDate t)) ->
  forall v, P v.
Proof.
  intros HN HB HI HF HS HL HD HO HT.
  fix IH 1. intros v.
  destruct v as [|b|n|f|s|l|d|o|t];
    [exact HN|apply HB|apply HI|apply HF|apply HS| | |apply HO|apply HT].
  - apply HL. induction l as [|x l IHl]; constructor; [apply IH|exact IHl].
  - apply HD. induction d as [|[k x] d IHd]; constructor; [apply IH|exact IHd].
Qed.

Section WithConversions.
Variable text_of : value -> string.
Variable isoformat : Z -> string.

Local Notation "'ser'" := (serialize_doc text_of isoformat).
Local Notation "'field'" := (field_value text_of isoformat).

Local Notation "'assign'" := (assignment text_of isoformat).

Lemma serialize_dict d :
  ser (VDict d)
  = VDict (fold_left (fun result a => dict_set (fst a) (snd a) result) (map assign d) []).
Proof.
  cbn [serialize_doc]. f_equal.
  generalize (@nil (string * value)) as acc.
  induction d as [|[k v] d IH]; intros acc; cbn [fold_left map]; [reflexivity|].
  rewrite <- IH. f_equal. unfold assignment. cbn [fst snd].
  destruct (String.eqb k "_id"); [reflexivity|].
  destruct v; reflexivity.
Qed.

Lemma serialize_list l : ser (VList l) = VList (map ser l).
Proof. reflexivity. Qed.

Lemma field_value_not_bson v : is_bson v = false -> field v = ser v.
Proof. destruct v; try reflexivity; discriminate. Qed.

Lemma serialize_scalar v : is_scalar v = true -> ser v = v.
Proof. destruct v; try reflexivity; discriminate. Qed.

(** *** Assignments to a dictionary, one after the other *)

Lemma dict_set_forallb (Q : string * value -> bool) k v acc :
  Q (k, v) = true -> forallb Q acc = true -> forallb Q (dict_set k v acc) = true.
Proof.
  intros Hkv. induction acc as [|[k' v'] acc IH]; cbn [dict_set forallb].
  - intros _. rewrite Hkv. reflexivity.
  - intros H. apply andb_prop in H. destruct H as [H1 H2].
    destruct (String.eqb k k'); cbn [forallb].
    + rewrite Hkv, H2. reflexivity.
    + rewrite H1, (IH H2). reflexivity.
Qed.

Lemma set_all_forallb (Q : string * value -> bool) assignments : forall acc,
  forallb Q assignments = true -> forallb Q acc = true ->
  forallb Q (fold_left (fun result a => dict_set (fst a) (snd a) result) assignments acc)
  = true.
Proof.
  induction assignments as [|[k v] assignments IH]; intros acc HA Hacc; cbn [fold_left].
  - exact Hacc.
  - cbn [forallb] in HA. apply andb_prop in HA. destruct HA as [H1 H2].
    apply IH; [exact H2|]. apply dict_set_forallb; assumption.
Qed.

Lemma existsb_eqb_false k l :
  existsb (String.eqb k) l = false <-> ~ In k l.
Proof.
  split.
  - intros H Hin. assert (E : existsb (String.eqb k) l = true).
    { apply existsb_exists. exists k. split; [exact Hin|apply String.eqb_refl]. }
    congruence.
  - intros H. destruct (existsb (String.eqb k) l) eqn:E; [|reflexivity].
    apply existsb_exists in E. destruct E as (y & Hy & E).
    apply String.eqb_eq in E. subst y. contradiction.
Qed.

Lemma dict_lookup_none k d : dict_lookup k d = None <-> ~ In k (map fst d).
Proof.
  induction d as [|[k' v] d IH]; cbn [dict_lookup map fst In].
  - tauto.
  - destruct (String.eqb k k') eqn:E.
    + apply String.eqb_eq in E. subst k'. split; [discriminate|tauto].
    + apply String.eqb_neq in E. rewrite IH. split; [intros H [H'|H']; congruence|tauto].
Qed.

Lemma dict_set_new k v acc :
  ~ In k (map fst acc) -> dict_set k v acc = (acc ++ [(k, v)])%list.
Proof.
  induction acc as [|[k' v'] acc IH]; cbn [dict_set map fst In app]; intros H.
  - reflexivity.
  - destruct (String.eqb k k') eqn:E.
    + apply String.eqb_eq in E. subst k'. tauto.
    + rewrite IH by tauto. reflexivity.
Qed.

Lemma distinct_app_cons l1 k l2 :
  distinct (l1 ++ k :: l2) = true ->
  ~ In k l1 /\ distinct ((l1 ++ [k]) ++ l2) = true.
Proof.
  rewrite <- app_assoc. cbn [app]. intros H. split; [|exact H].
  induction l1 as [|x l1 IH]; cbn [app distinct In] in *; [tauto|].
  apply andb_prop in H. destruct H as [H1 H2].
  apply negb_true_iff, existsb_eqb_false in H1.
  intros [->|Hin].
  - apply H1. apply in_or_app. right. left. reflexivity.
  - exact (IH H2 Hin).
Qed.

(** Assignments to keys that are new and distinct append their items. *)
Lemma set_all_distinct assignments : forall acc,
  distinct (map fst (acc ++ assignments)) = true ->
  fold_left (fun result a => dict_set (fst a) (snd a) result) assignments acc
  = (acc ++ assignments)%list.
Proof.
  induction assignments as [|[k v] assignments IH]; intros acc H; cbn [fold_left fst snd].
  - rewrite app_nil_r. reflexivity.
  - rewrite map_app in H. cbn [map fst] in H.
    apply distinct_app_cons in H. destruct H as [Hk Hd].
    rewrite (dict_set_new k v acc Hk).
    rewrite IH.
    + rewrite <- app_assoc. reflexivity.
    + rewrite !map_app. cbn [map fst]. exact Hd.
Qed.

Lemma dict_lookup_app k d1 d2 :
  dict_lookup k (d1 ++ d2)
  = match dict_lookup k d1 with
    | Some v => Some v
    | None => dict_lookup k d2
    end.
Proof.
  induction d1 as [|[k' v] d1 IH]; cbn [app dict_lookup]; [reflexivity|].
  destruct (String.eqb k k'); [reflexivity|exact IH].
Qed.

Lemma dict_lookup_map k (f : value -> value) d :
  dict_lookup k (map (fun kv => (fst kv, f (snd kv))) d)
  = option_map f (dict_lookup k d).
Proof.
  induction d as [|[k' v] d IH]; cbn [map dict_lookup fst snd option_map]; [reflexivity|].
  destruct (String.eqb k k'); [reflexivity|exact IH].
Qed.

Lemma distinct_app_l l1 l2 : distinct (l1 ++ l2) = true -> distinct l1 = true.
Proof.
  induction l1 as [|x l1 IH]; cbn [app distinct]; [reflexivity|].
  intros H. apply andb_prop in H. destruct H as [H1 H2].
  rewrite (IH H2), andb_true_r.
  apply negb_true_iff, existsb_eqb_false.
  apply negb_true_iff, existsb_eqb_false in H1.
  intros Hin. apply H1. apply in_or_app. left. exact Hin.
Qed.

Lemma distinct_move_front l1 : forall l2 (k : string),
  ~ In k l1 -> distinct (l1 ++ k :: l2) = true -> distinct (k :: l1 ++ l2) = true.
Proof.
  induction l1 as [|x l1 IH]; intros l2 k Hk H; [exact H|].
  cbn [app distinct] in H. apply andb_prop in H. destruct H as [H1 H2].
  apply negb_true_iff, existsb_eqb_false in H1.
  cbn [In] in Hk.
  specialize (IH l2 k (fun h => Hk (or_intror h)) H2).
  cbn [distinct] in IH. apply andb_prop in IH. destruct IH as [H3 H4].
  apply negb_true_iff, existsb_eqb_false in H3.
  cbn [app distinct]. apply andb_true_intro. split.
  - apply negb_true_iff, existsb_eqb_false. cbn [In].
    intros [->|Hin]; [tauto|]. exact (H3 Hin).
  - apply andb_true_intro. split; [|exact H4].
    apply negb_true_iff, existsb_eqb_false. intros Hin. apply H1.
    apply in_app_or in Hin. apply in_or_app.
    destruct Hin; [left|right; right]; assumption.
Qed.

Lemma map_fst_fields (f : value -> value) (r : list (string * value)) :
  map fst (map (fun kv => (fst kv, f (snd kv))) r) = map fst r.
Proof. rewrite map_map. reflexivity. Qed.

(** *** The four properties *)

(** X15.  When [ObjectId]s and [datetime]s occur only as fields of documents,
    the serialised value is ready for JSON: it holds no [ObjectId], no
    [datetime] and no key [_id], at any depth. *)
Theorem serialize_doc_json_ready :
  forall doc,
    is_bson doc = false ->
    fields_only doc = true ->
    json_ready (ser doc) = true.
Proof.
  intros doc. induction doc as [|b|n|f|s|l IH|d IH|o|t] using value_nested_ind;
    intros Hb Hf; try reflexivity; try discriminate.
  - rewrite serialize_list. cbn [json_ready fields_only] in *.
    apply forallb_forall. intros y Hy. apply in_map_iff in Hy.
    destruct Hy as (x & <- & Hx).
    rewrite forallb_forall in Hf. specialize (Hf x Hx).
    apply andb_prop in Hf. destruct Hf as [H1 H2]. apply negb_true_iff in H1.
    rewrite Forall_forall in IH. exact (IH x Hx H1 H2).
  - rewrite serialize_dict. cbn [json_ready fields_only] in *.
    apply set_all_forallb; [|reflexivity].
    apply forallb_forall. intros a Ha. apply in_map_iff in Ha.
    destruct Ha as ([k v] & <- & Hkv).
    rewrite forallb_forall in Hf. specialize (Hf _ Hkv). cbn [snd] in Hf.
    rewrite Forall_forall in IH. specialize (IH _ Hkv). cbn [snd] in IH.
    unfold assignment. cbn [fst snd].
    destruct (String.eqb k "_id") eqn:E; cbn [fst snd]; [reflexivity|].
    rewrite E. cbn [negb andb].
    destruct (is_bson v) eqn:Ev.
    + destruct v; try discriminate Ev; reflexivity.
    + rewrite (field_value_not_bson v Ev). exact (IH eq_refl Hf).
Qed.

Lemma map_serialize_scalars l : forallb is_scalar l = true -> map ser l = l.
Proof.
  induction l as [|x l IH]; cbn [forallb map]; [reflexivity|].
  intros H. apply andb_prop in H. destruct H as [H1 H2].
  rewrite (serialize_scalar x H1), (IH H2). reflexivity.
Qed.

(** X16.  Only fields are converted: the elements of a list that are neither
    lists nor documents are returned as they are, [ObjectId]s and
    [datetime]s included, whether the list is the value serialised or a
    field of it. *)
Theorem list_elements_are_not_converted :
  forall l,
    forallb is_scalar l = true ->
    ser (VList l) = VList l
    /\ forall k, k <> "_id" -> ser (VDict [(k, VList l)]) = VDict [(k, VList l)].
Proof.
  intros l Hl. split.
  - rewrite serialize_list, (map_serialize_scalars l Hl). reflexivity.
  - intros k Hk. apply String.eqb_neq in Hk. cbn [serialize_doc fold_left].
    rewrite Hk. cbn [dict_set]. rewrite (map_serialize_scalars l Hl). reflexivity.
Qed.

(** X17.  A document as the store returns it, [_id] first: the serialised
    document has no key [_id]; every other field holds its converted value;
    and [id] holds the text of [_id] only when the document has no field
    [id] of its own, whose value it holds otherwise. *)
Theorem serialized_id_is_the_last_one_assigned :
  forall oid rest,
    distinct (map fst (("_id", oid) :: rest)) = true ->
    exists out,
      ser (VDict (("_id", oid) :: rest)) = VDict out
      /\ dict_lookup "_id" out = None
      /\ dict_lookup "id" out
         = Some (match dict_lookup "id" rest with
                 | Some v => field v
                 | None => VStr (py_str text_of oid)
                 end)
      /\ forall k, k <> "_id" -> k <> "id" ->
           dict_lookup k out = option_map field (dict_lookup k rest).
Proof.
  intros oid rest Hd. cbn [map fst distinct] in Hd.
  apply andb_prop in Hd. destruct Hd as [Hno Hd].
  apply negb_true_iff, existsb_eqb_false in Hno.
  assert (Hassign : map assign rest = map (fun kv => (fst kv, field (snd kv))) rest).
  { apply map_ext_in. intros [k v] Hkv. unfold assignment. cbn [fst snd].
    destruct (String.eqb k "_id") eqn:E; [|reflexivity].
    apply String.eqb_eq in E. subst k. exfalso. apply Hno.
    apply (in_map fst) in Hkv. exact Hkv. }
  pose proof (map_fst_fields field rest) as Hkeys.
  rewrite serialize_dict. cbn [map fold_left]. rewrite Hassign.
  change (assign ("_id", oid)) with ("id", VStr (py_str text_of oid)).
  cbn [fst snd dict_set].
  set (rest' := map (fun kv => (fst kv, field (snd kv))) rest) in *.
  destruct (dict_lookup "id" rest) as [v|] eqn:Eid.
  - (* the document has its own [id]: the assignment replaces the text of [_id] *)
    eexists. split; [reflexivity|].
    assert (Hsplit : exists r1 r2, rest = (r1 ++ ("id", v) :: r2)%list
                                   /\ ~ In "id" (map fst r1)).
    { clear - Eid. induction rest as [|[k x] rest IH]; [discriminate|].
      cbn [dict_lookup] in Eid. destruct (String.eqb "id" k) eqn:E.
      - apply String.eqb_eq in E. subst k. inversion Eid; subst.
        exists [], rest. split; [reflexivity|tauto].
      - destruct (IH Eid) as (r1 & r2 & -> & Hn).
        exists ((k, x) :: r1), r2. split; [reflexivity|].
        cbn [map fst In]. apply String.eqb_neq in E. intros [H|H]; [congruence|tauto]. }
    destruct Hsplit as (r1 & r2 & Hrest & Hr1).
    assert (Hd1 : distinct (map fst r1 ++ "id" :: map fst r2) = true).
    { rewrite Hrest, map_app in Hd. exact Hd. }
    assert (Hfold : fold_left (fun result a => dict_set (fst a) (snd a) result) rest'
                      [("id", VStr (py_str text_of oid))]
                    = (("id", field v) :: map (fun kv => (fst kv, field (snd kv))) r1
                       ++ map (fun kv => (fst kv, field (snd kv))) r2)%list).
    { subst rest'. rewrite Hrest, map_app. cbn [map fst snd].
      rewrite fold_left_app. cbn [fold_left fst snd].
      rewrite (set_all_distinct _ [("id", VStr (py_str text_of oid))]).
      2:{ cbn [app map fst]. rewrite map_fst_fields. cbn [distinct].
          apply andb_true_intro. split.
          - apply negb_true_iff, existsb_eqb_false. exact Hr1.
          - exact (distinct_app_l _ _ Hd1). }
      cbn [app dict_set String.eqb Ascii.eqb Bool.eqb].
      rewrite (set_all_distinct _ (("id", field v) :: _)).
      2:{ cbn [app map fst]. rewrite map_app, !map_fst_fields.
          apply distinct_move_front; assumption. }
      reflexivity. }
    rewrite Hfold.
    assert (Hno' : forall r, (forall x, In x r -> In x rest) ->
                             ~ In "_id" (map fst (map (fun kv => (fst kv, field (snd kv))) r))).
    { intros r Hr Hin. rewrite map_map in Hin. cbn [fst] in Hin. apply Hno.
      apply in_map_iff in Hin. destruct Hin as (kv & <- & Hkv).
      apply (in_map fst). apply Hr. exact Hkv. }
    repeat split.
    + cbn [dict_lookup String.eqb Ascii.eqb Bool.eqb]. rewrite dict_lookup_app.
      assert (H1 : dict_lookup "_id" (map (fun kv => (fst kv, field (snd kv))) r1) = None).
      { apply dict_lookup_none. apply Hno'. intros x Hx. rewrite Hrest.
        apply in_or_app. left. exact Hx. }
      assert (H2 : dict_lookup "_id" (map (fun kv => (fst kv, field (snd kv))) r2) = None).
      { apply dict_lookup_none. apply Hno'. intros x Hx. rewrite Hrest.
        apply in_or_app. right. right. exact Hx. }
      rewrite H1, H2. reflexivity.
    + intros k Hk1 Hk2. cbn [dict_lookup].
      apply String.eqb_neq in Hk2. rewrite Hk2.
      rewrite dict_lookup_app, !dict_lookup_map, Hrest, dict_lookup_app.
      cbn [dict_lookup]. rewrite Hk2.
      destruct (dict_lookup k r1); reflexivity.
  - (* no [id] of its own: the text of [_id] stays *)
    eexists. split; [reflexivity|].
    rewrite (set_all_distinct rest' [("id", VStr (py_str text_of oid))]).
    2:{ cbn [app map fst distinct]. rewrite Hkeys, Hd, andb_true_r.
        apply negb_true_iff, existsb_eqb_false. apply dict_lookup_none. exact Eid. }
    cbn [app dict_lookup String.eqb Ascii.eqb Bool.eqb].
    repeat split.
    + apply dict_lookup_none. rewrite Hkeys. exact Hno.
    + intros k Hk1 Hk2. apply String.eqb_neq in Hk2. rewrite Hk2.
      subst rest'. apply dict_lookup_map.
Qed.

(** X18.  Plain JSON passes through unchanged: a value that holds no [ObjectId],
    no [datetime] and no key [_id] is returned as it is. *)
Theorem serialize_doc_leaves_json_alone :
  forall doc,
    json_ready doc = true ->
    well_keyed doc = true ->
    ser doc = doc.
Proof.
  intros doc. induction doc as [|b|n|f|s|l IH|d IH|o|t] using value_nested_ind;
    intros Hj Hw; try reflexivity; try discriminate.
  - rewrite serialize_list. f_equal. cbn [json_ready well_keyed] in *.
    rewrite <- (map_id l) at 2. apply map_ext_in. intros x Hx.
    rewrite forallb_forall in Hj, Hw. rewrite Forall_forall in IH.
    exact (IH x Hx (Hj x Hx) (Hw x Hx)).
  - rewrite serialize_dict. f_equal. cbn [json_ready well_keyed] in *.
    apply andb_prop in Hw. destruct Hw as [Hd Hw].
    assert (Hassign : map assign d = d).
    { rewrite <- (map_id d) at 2. apply map_ext_in. intros [k v] Hkv.
      rewrite forallb_forall in Hj, Hw. rewrite Forall_forall in IH.
      specialize (Hj _ Hkv). specialize (Hw _ Hkv). specialize (IH _ Hkv).
      cbn [fst snd] in *. apply andb_prop in Hj. destruct Hj as [H1 H2].
      apply negb_true_iff in H1. unfold assignment. cbn [fst snd]. rewrite H1.
      f_equal. rewrite field_value_not_bson; [exact (IH H2 Hw)|].
      destruct v; try reflexivity; discriminate. }
    rewrite Hassign. apply (set_all_distinct d []). exact Hd.
Qed.

End WithConversions.

(** The four properties at a concrete pair of conversions. *)
Lemma serialize_doc_json_ready_witness :
  json_ready
    (serialize_doc (fun _ => "?") (fun _ => "2024-03-15T10:00:00")
       (VDict [("_id", VOid "65a1f0"); ("created_at", VDate 7);
               ("for", VDict [("id", VOid "65a200")]);
               ("items", VList [VDict [("quantity", VInt 2)]])])) = true.
Proof.
  apply (serialize_doc_json_ready (fun _ => "?") (fun _ => "2024-03-15T10:00:00"));
    reflexivity.
Defined.

Lemma list_elements_are_not_converted_witness :
  serialize_doc (fun _ => "?") (fun _ => "2024-03-15T10:00:00")
    (VList [VOid "65a1f0"; VDate 7; VInt 3])
  = VList [VOid "65a1f0"; VDate 7; VInt 3]
  /\ forall k, k <> "_id" ->
       serialize_doc (fun _ => "?") (fun _ => "2024-03-15T10:00:00")
         (VDict [(k, VList [VOid "65a1f0"; VDate 7; VInt 3])])
       = VDict [(k, VList [VOid "65a1f0"; VDate 7; VInt 3])].
Proof.
  apply (list_elements_are_not_converted (fun _ => "?") (fun _ => "2024-03-15T10:00:00")
           [VOid "65a1f0"; VDate 7; VInt 3]).
  reflexivity.
Defined.

Lemma serialized_id_is_the_last_one_assigned_witness :
  exists out,
    serialize_doc (fun _ => "?") (fun _ => "2024-03-15T10:00:00")
      (VDict [("_id", VOid "65a1f0"); ("id", VInt 12); ("name", VStr "Ann")])
    = VDict out
    /\ dict_lookup "_id" out = None
    /\ dict_lookup "id" out = Some (VInt 12)
    /\ forall k, k <> "_id" -> k <> "id" ->
         dict_lookup k out
         = option_map (field_value (fun _ => "?") (fun _ => "2024-03-15T10:00:00"))
                      (dict_lookup k [("id", VInt 12); ("name", VStr "Ann")]).
Proof.
  apply (serialized_id_is_the_last_one_assigned
           (fun _ => "?") (fun _ => "2024-03-15T10:00:00")
           (VOid "65a1f0") [("id", VInt 12); ("name", VStr "Ann")]).
  reflexivity.
Defined.

Lemma serialize_doc_leaves_json_alone_witness :
  serialize_doc (fun _ => "?") (fun _ => "2024-03-15T10:00:00")
    (VDict [("id", VStr "65a1f0"); ("items", VList [VDict [("quantity", VInt 2)]])])
  = VDict [("id", VStr "65a1f0"); ("items", VList [VDict [("quantity", VInt 2)]])].
Proof.
  apply (serialize_doc_leaves_json_alone
           (fun _ => "?") (fun _ => "2024-03-15T10:00:00")); reflexivity.
Defined.

End SerializeFacts.

(** ** The import of clients *)
Module MigrateFacts.
Import Py Update Logos Migrate Terms DictFacts UpdateFacts SerializeFacts.

Lemma email_key_raises c e : email_key c = Raise e -> e = AttributeError.
Proof.
  unfold email_key, get, lower_method.
  destruct c as [| | | | | |d| |]; cbn [bind]; try (intros H; inversion H; reflexivity).
  destruct (default (dict_lookup "email" d) (VStr "")); intros H; inversion H; reflexivity.
Qed.

Lemma email_key_dict c e : email_key c = Ok e -> exists d, c = VDict d.
Proof.
  destruct c as [| | | | | |d| |]; try discriminate. intros _. exists d. reflexivity.
Qed.

Lemma stamped_dict now d :
  stamped now (VDict d)
  = Ok (VDict (set_if_absent "updated_at" (VDate now)
                 (set_if_absent "created_at" (VDate now) d))).
Proof. reflexivity. Qed.

Lemma email_key_stamped now c c' :
  stamped now c = Ok c' -> email_key c' = email_key c.
Proof.
  destruct c as [| | | | | |d| |]; try discriminate.
  rewrite stamped_dict. intros H. inversion H; subst c'.
  unfold email_key, get. cbn [bind].
  rewrite !dict_lookup_set_if_absent_other by discriminate. reflexivity.
Qed.

Lemma email_keys_app l1 l2 : email_keys (l1 ++ l2) = (email_keys l1 ++ email_keys l2)%list.
Proof. unfold email_keys. apply flat_map_app. Qed.

Lemma set_add_new x s : existsb (String.eqb x) s = false -> set_add x s = (s ++ [x])%list.
Proof. unfold set_add. intros ->. reflexivity. Qed.

(** One turn of the loop. *)
Lemma unique_loop_cons c rest now st :
  unique_loop (c :: rest) now st =
    match email_key c with
    | Raise e => Raise e
    | Ok email =>
        if String.eqb email "" then unique_loop rest now st
        else if existsb (String.eqb email) (emails_seen st) then
          unique_loop rest now
            (mk_seen (emails_seen st) (unique_clients st) (set_add email (duplicates st)))
        else
          match stamped now c with
          | Raise e => Raise e
          | Ok c' =>
              unique_loop rest now
                (mk_seen (emails_seen st ++ [email]) (unique_clients st ++ [c'])
                         (duplicates st))
          end
    end.
Proof.
  cbn [unique_loop]. unfold email_key.
  destruct (get c "email" (VStr "")) as [e|e]; cbn [bind]; [|reflexivity].
  destruct (lower_method e) as [email|e']; cbn [bind]; [|reflexivity].
  destruct (String.eqb email ""); [reflexivity|].
  destruct (existsb (String.eqb email) (emails_seen st)) eqn:E; [reflexivity|].
  rewrite (set_add_new _ _ E). unfold stamped.
  destruct (setdefault c "created_at" (VDate now)) as [c1|e1]; cbn [bind]; [|reflexivity].
  destruct (setdefault c1 "updated_at" (VDate now)) as [c2|e2]; cbn [bind]; reflexivity.
Qed.

Lemma distinct_snoc l x :
  distinct l = true -> existsb (String.eqb x) l = false -> distinct (l ++ [x]) = true.
Proof.
  induction l as [|y l IH]; cbn [app distinct existsb]; intros Hd Hx; [reflexivity|].
  apply andb_prop in Hd. destruct Hd as [H1 H2].
  apply orb_false_elim in Hx. destruct Hx as [Hxy Hx].
  rewrite (IH H2 Hx), andb_true_r.
  apply negb_true_iff, existsb_eqb_false. apply negb_true_iff, existsb_eqb_false in H1.
  intros Hin. apply in_app_or in Hin. destruct Hin as [Hin|[<-|[]]]; [tauto|].
  rewrite String.eqb_refl in Hxy. discriminate.
Qed.

Lemma unique_loop_consistent l : forall now st st',
  unique_loop l now st = Ok st' -> consistent st -> consistent st'.
Proof.
  induction l as [|c l IH]; intros now st st' H Hc.
  - inversion H; subst. exact Hc.
  - rewrite unique_loop_cons in H.
    destruct (email_key c) as [email|e] eqn:Ek; [|discriminate].
    destruct (String.eqb email "") eqn:E0; [exact (IH _ _ _ H Hc)|].
    destruct (existsb (String.eqb email) (emails_seen st)) eqn:Es.
    + apply (IH _ _ _ H). exact Hc.
    + destruct (stamped now c) as [c'|e] eqn:Est; [|discriminate].
      apply (IH _ _ _ H). destruct Hc as (H1 & H2 & H3 & H4).
      unfold consistent. cbn [emails_seen unique_clients].
      repeat split.
      * rewrite email_keys_app, <- H1. unfold email_keys at 1. cbn [flat_map].
        rewrite (email_key_stamped _ _ _ Est), Ek. reflexivity.
      * apply distinct_snoc; assumption.
      * intros Hin. apply in_app_or in Hin. destruct Hin as [Hin|[Heq|[]]]; [tauto|].
        rewrite Heq in E0. discriminate E0.
      * rewrite !length_app, H4. reflexivity.
Qed.

Lemma unique_loop_grows l : forall now st st',
  unique_loop l now st = Ok st' ->
  (forall c, In c (unique_clients st) -> In c (unique_clients st'))
  /\ (forall e, In e (emails_seen st') ->
                In e (emails_seen st) \/ In e (email_keys l)).
Proof.
  induction l as [|c l IH]; intros now st st' H.
  - inversion H; subst. auto.
  - rewrite unique_loop_cons in H. unfold email_keys. cbn [flat_map].
    fold (email_keys l).
    destruct (email_key c) as [email|e] eqn:Ek; [|discriminate].
    destruct (String.eqb email "") eqn:E0.
    { destruct (IH _ _ _ H) as [Ha Hb]. split; [exact Ha|].
      intros e He. destruct (Hb e He); [left|right; right]; assumption. }
    destruct (existsb (String.eqb email) (emails_seen st)) eqn:Es.
    { destruct (IH _ _ _ H) as [Ha Hb]. split; [exact Ha|].
      intros e He. destruct (Hb e He); [left|right; right]; assumption. }
    destruct (stamped now c) as [c'|e] eqn:Est; [|discriminate].
    destruct (IH _ _ _ H) as [Ha Hb]. cbn [unique_clients emails_seen] in *. split.
    + intros x Hx. apply Ha. apply in_or_app. left. exact Hx.
    + intros e He. destruct (Hb e He) as [Hin|Hin]; [|right; right; exact Hin].
      apply in_app_or in Hin. destruct Hin as [Hin|[<-|[]]]; [left; exact Hin|].
      right. left. reflexivity.
Qed.

Lemma unique_loop_total l : forall now st,
  forallb importable l = true -> exists st', unique_loop l now st = Ok st'.
Proof.
  induction l as [|c l IH]; intros now st Hl.
  - exists st. reflexivity.
  - cbn [forallb] in Hl. apply andb_prop in Hl. destruct Hl as [Hc Hl].
    rewrite unique_loop_cons. unfold importable in Hc.
    destruct (email_key c) as [email|e] eqn:Ek; [|discriminate].
    destruct (String.eqb email ""); [apply IH; exact Hl|].
    destruct (existsb (String.eqb email) (emails_seen st)); [apply IH; exact Hl|].
    destruct (email_key_dict _ _ Ek) as [d ->]. rewrite stamped_dict.
    apply IH. exact Hl.
Qed.

Lemma unique_loop_aborts l : forall now st,
  existsb (fun c => negb (importable c)) l = true ->
  unique_loop l now st = Raise AttributeError.
Proof.
  induction l as [|c l IH]; intros now st Hl; [discriminate|].
  cbn [existsb] in Hl. rewrite unique_loop_cons. unfold importable in Hl.
  destruct (email_key c) as [email|e] eqn:Ek.
  - cbn [negb orb] in Hl.
    destruct (String.eqb email ""); [apply IH; exact Hl|].
    destruct (existsb (String.eqb email) (emails_seen st)); [apply IH; exact Hl|].
    destruct (email_key_dict _ _ Ek) as [d ->]. rewrite stamped_dict.
    apply IH. exact Hl.
  - rewrite (email_key_raises _ _ Ek). reflexivity.
Qed.

Lemma unique_loop_first l1 : forall c l2 e now st st',
  unique_loop (l1 ++ c :: l2) now st = Ok st' ->
  email_key c = Ok e ->
  e <> "" ->
  ~ In e (emails_seen st) ->
  (forall x, In x l1 -> email_key x <> Ok e) ->
  exists c', stamped now c = Ok c' /\ In c' (unique_clients st').
Proof.
  induction l1 as [|x l1 IH]; intros c l2 e now st st' H Hk He Hs Hl1; cbn [app] in H.
  - rewrite unique_loop_cons, Hk in H.
    apply String.eqb_neq in He. rewrite He in H.
    apply existsb_eqb_false in Hs. rewrite Hs in H.
    destruct (stamped now c) as [c'|e'] eqn:Est; [|discriminate].
    exists c'. split; [reflexivity|].
    apply (proj1 (unique_loop_grows _ _ _ _ H)).
    cbn [unique_clients]. apply in_or_app. right. left. reflexivity.
  - rewrite unique_loop_cons in H.
    assert (Hx : email_key x <> Ok e) by (apply Hl1; left; reflexivity).
    assert (Hl1' : forall y, In y l1 -> email_key y <> Ok e)
      by (intros y Hy; apply Hl1; right; exact Hy).
    destruct (email_key x) as [email|e'] eqn:Ek; [|discriminate].
    destruct (String.eqb email ""); [exact (IH _ _ _ _ _ _ H Hk He Hs Hl1')|].
    destruct (existsb (String.eqb email) (emails_seen st));
      [exact (IH _ _ _ _ _ _ H Hk He Hs Hl1')|].
    destruct (stamped now x) as [x'|e'] eqn:Est; [|discriminate].
    apply (IH _ _ _ _ _ _ H Hk He); [|exact Hl1'].
    cbn [emails_seen]. intros Hin. apply in_app_or in Hin.
    destruct Hin as [Hin|[<-|[]]]; [tauto|congruence].
Qed.

Lemma unique_loop_sound l : forall now st st' c',
  unique_loop l now st = Ok st' ->
  In c' (unique_clients st') ->
  In c' (unique_clients st) \/ exists c, In c l /\ stamped now c = Ok c'.
Proof.
  induction l as [|c l IH]; intros now st st' c' H Hin.
  - inversion H; subst. left. exact Hin.
  - rewrite unique_loop_cons in H.
    assert (Hrest : forall st1, unique_loop l now st1 = Ok st' ->
              In c' (unique_clients st1) \/ exists c0, In c0 (c :: l) /\ stamped now c0 = Ok c').
    { intros st1 H1. destruct (IH _ _ _ _ H1 Hin) as [Hl|(c0 & Hc0 & Hst)]; [left; exact Hl|].
      right. exists c0. split; [right; exact Hc0|exact Hst]. }
    destruct (email_key c) as [email|e] eqn:Ek; [|discriminate].
    destruct (String.eqb email ""); [exact (Hrest _ H)|].
    destruct (existsb (String.eqb email) (emails_seen st)); [exact (Hrest _ H)|].
    destruct (stamped now c) as [c1|e] eqn:Est; [|discriminate].
    destruct (Hrest _ H) as [Hl|Hr]; [|right; exact Hr].
    cbn [unique_clients] in Hl. apply in_app_or in Hl.
    destruct Hl as [Hl|[<-|[]]]; [left; exact Hl|].
    right. exists c. split; [left; reflexivity|exact Est].
Qed.

Lemma consistent_start : consistent (mk_seen [] [] []).
Proof. repeat split. intros []. Qed.

(** X19.  The clients in the collection after the import have e-mail addresses
    that are not empty and differ pairwise even when letter case is
    ignored, whatever the two files hold. *)
Theorem imported_clients_have_distinct_addresses :
  forall clients_file invoices_file now,
    let imported := clients_col (migrate_json_to_mongodb clients_file invoices_file now) in
    distinct (email_keys imported) = true
    /\ ~ In "" (email_keys imported)
    /\ List.length (email_keys imported) = List.length imported.
Proof.
  intros clients_file invoices_file now. cbv zeta.
  assert (Hempty : distinct (email_keys []) = true /\ ~ In "" (email_keys [])
                   /\ List.length (email_keys []) = List.length (@nil value)).
  { repeat split. intros []. }
  unfold migrate_json_to_mongodb.
  destruct clients_file as [clients_data|].
  - destruct (iterate clients_data) as [l|e]; cbn [bind]; [|exact Hempty].
    destruct (unique_loop l now (mk_seen [] [] [])) as [st|e] eqn:E; cbn [bind];
      [|exact Hempty].
    destruct (unique_loop_consistent _ _ _ _ E consistent_start) as (H1 & H2 & H3 & H4).
    assert (Hgoal : distinct (email_keys (unique_clients st)) = true
                    /\ ~ In "" (email_keys (unique_clients st))
                    /\ List.length (email_keys (unique_clients st))
                       = List.length (unique_clients st)).
    { rewrite <- H1. auto. }
    destruct (match invoices_file with
              | Some invoices_data => l0 <- iterate invoices_data ;; stamp_loop l0 now
              | None => Ok []
              end); exact Hgoal.
  - destruct (match invoices_file with
              | Some invoices_data => l0 <- iterate invoices_data ;; stamp_loop l0 now
              | None => Ok []
              end); exact Hempty.
Qed.

Lemma migrate_clients_col l invoices_file now st :
  unique_loop l now (mk_seen [] [] []) = Ok st ->
  clients_col (migrate_json_to_mongodb (Some (VList l)) invoices_file now)
  = unique_clients st.
Proof.
  intros H. unfold migrate_json_to_mongodb. cbn [iterate bind]. rewrite H. cbn [bind].
  destruct (match invoices_file with
            | Some invoices_data => l0 <- iterate invoices_data ;; stamp_loop l0 now
            | None => Ok []
            end); reflexivity.
Qed.

(** X20.  Of the clients that share an address, the first in the file is the one
    imported; and every imported client is a client of the file, with the
    two time stamps set where it had none. *)
Theorem import_keeps_the_first_client_of_an_address :
  forall l invoices_file now,
    forallb importable l = true ->
    (forall l1 c l2 e,
        l = (l1 ++ c :: l2)%list ->
        email_key c = Ok e ->
        e <> "" ->
        (forall x, In x l1 -> email_key x <> Ok e) ->
        exists c',
          stamped now c = Ok c'
          /\ In c' (clients_col (migrate_json_to_mongodb (Some (VList l))
                                                         invoices_file now)))
    /\ (forall c',
           In c' (clients_col (migrate_json_to_mongodb (Some (VList l))
                                                       invoices_file now)) ->
           exists c, In c l /\ stamped now c = Ok c').
Proof.
  intros l invoices_file now Hl.
  destruct (unique_loop_total l now (mk_seen [] [] []) Hl) as [st Hst].
  rewrite (migrate_clients_col _ _ _ _ Hst). split.
  - intros l1 c l2 e -> Hk He Hl1.
    apply (unique_loop_first l1 c l2 e now _ _ Hst Hk He); [|exact Hl1].
    intros [].
  - intros c' Hin.
    destruct (unique_loop_sound _ _ _ _ _ Hst Hin) as [[]|H]. exact H.
Qed.

Lemma import_keeps_the_first_client_of_an_address_witness :
  (forall l1 c l2 e,
      [VDict [("name", VStr "Ann"); ("email", VStr "Ann@Example.org")];
       VDict [("name", VStr "Bob")];
       VDict [("name", VStr "Ann B."); ("email", VStr "ann@example.org")]]
      = (l1 ++ c :: l2)%list ->
      email_key c = Ok e ->
      e <> "" ->
      (forall x, In x l1 -> email_key x <> Ok e) ->
      exists c',
        stamped 7 c = Ok c'
        /\ In c' (clients_col
                    (migrate_json_to_mongodb
                       (Some (VList
                          [VDict [("name", VStr "Ann"); ("email", VStr "Ann@Example.org")];
                           VDict [("name", VStr "Bob")];
                           VDict [("name", VStr "Ann B.");
                                  ("email", VStr "ann@example.org")]]))
                       None 7)))
  /\ (forall c',
         In c' (clients_col
                  (migrate_json_to_mongodb
                     (Some (VList
                        [VDict [("name", VStr "Ann"); ("email", VStr "Ann@Example.org")];
                         VDict [("name", VStr "Bob")];
                         VDict [("name", VStr "Ann B.");
                                ("email", VStr "ann@example.org")]]))
                     None 7)) ->
         exists c,
           In c [VDict [("name", VStr "Ann"); ("email", VStr "Ann@Example.org")];
                 VDict [("name", VStr "Bob")];
                 VDict [("name", VStr "Ann B."); ("email", VStr "ann@example.org")]]
           /\ stamped 7 c = Ok c').
Proof.
  apply (import_keeps_the_first_client_of_an_address
           [VDict [("name", VStr "Ann"); ("email", VStr "Ann@Example.org")];
            VDict [("name", VStr "Bob")];
            VDict [("name", VStr "Ann B."); ("email", VStr "ann@example.org")]]
           None 7).
  reflexivity.
Defined.

(** X21.  The import is all or nothing for the clients, and it has emptied the
    collections first: one record that is not a document, or whose [email]
    is not a text (a [null], say), ends the script with [AttributeError]
    and leaves both collections empty. *)
Theorem unreadable_client_aborts_the_import :
  forall l invoices_file now,
    existsb (fun c => negb (importable c)) l = true ->
    migrate_json_to_mongodb (Some (VList l)) invoices_file now
    = mk_migrated [] [] (Some AttributeError).
Proof.
  intros l invoices_file now Hl. unfold migrate_json_to_mongodb.
  cbn [iterate bind]. rewrite (unique_loop_aborts l now _ Hl). reflexivity.
Qed.

Lemma unreadable_client_aborts_the_import_witness :
  migrate_json_to_mongodb
    (Some (VList [VDict [("name", VStr "Ann"); ("email", VStr "ann@example.org")];
                  VDict [("name", VStr "Bob"); ("email", VNone)]]))
    (Some (VList [VDict [("total", VInt 10)]])) 7
  = mk_migrated [] [] (Some AttributeError).
Proof.
  apply (unreadable_client_aborts_the_import
           [VDict [("name", VStr "Ann"); ("email", VStr "ann@example.org")];
            VDict [("name", VStr "Bob"); ("email", VNone)]]
           (Some (VList [VDict [("total", VInt 10)]])) 7).
  reflexivity.
Defined.

End MigrateFacts.

(** ** The bulk import of clients *)
Module BulkFacts.
Import Py Reports Logos Serialize Migrate Bulk Terms SerializeFacts MigrateFacts.

Lemma lower_char_idempotent c : lower_char (lower_char c) = lower_char c.
Proof. destruct c as [[] [] [] [] [] [] [] []]; reflexivity. Qed.

Lemma str_lower_idempotent s : str_lower (str_lower s) = str_lower s.
Proof.
  induction s as [|c s IH]; cbn [str_lower]; [reflexivity|].
  rewrite lower_char_idempotent, IH. reflexivity.
Qed.

Lemma str_lower_empty s : str_lower s = "" -> s = "".
Proof. destruct s; [reflexivity|discriminate]. Qed.

Lemma inserted_emails_app l1 l2 :
  inserted_emails (l1 ++ l2) = (inserted_emails l1 ++ inserted_emails l2)%list.
Proof. unfold inserted_emails. apply flat_map_app. Qed.

Section WithText.
Variable text_of : value -> string.

Lemma fail_row_accounted n known error b :
  accounted n known b -> accounted (S n) known (fail_row error b).
Proof.
  intros (H1 & H2 & H3 & H4 & H5 & H6). unfold accounted, fail_row.
  cbn [b_results successful failed errors existing_emails clients_to_insert].
  repeat split; auto; try lia.
  - rewrite length_app. cbn [List.length]. lia.
  - apply (H6 e H).
  - apply (H6 e H).
  - apply (H6 e H).
Qed.

Lemma bulk_row_accounted n known index client_data now b :
  accounted n known b -> accounted (S n) known (bulk_row text_of index client_data now b).
Proof.
  intros Hb. unfold bulk_row.
  destruct client_data as [| | | | | |d| |]; try (apply fail_row_accounted; exact Hb).
  destruct (negb (truthy (default (dict_lookup "name" d) VNone))
            || negb (truthy (default (dict_lookup "email" d) VNone)))%bool eqn:Ereq;
    [apply fail_row_accounted; exact Hb|].
  apply orb_false_elim in Ereq. destruct Ereq as [_ Ee]. apply negb_false_iff in Ee.
  destruct (dict_lookup "email" d) as [ev|] eqn:El; cbn [default] in *; [|discriminate].
  destruct ev as [| | | |given| | | |]; try (apply fail_row_accounted; exact Hb).
  destruct (existsb (String.eqb (str_lower given)) (existing_emails b)) eqn:Ex;
    [apply fail_row_accounted; exact Hb|].
  destruct Hb as (H1 & H2 & H3 & H4 & H5 & H6). unfold accounted.
  cbn [b_results successful failed errors existing_emails clients_to_insert].
  rewrite inserted_emails_app.
  change (inserted_emails [VDict _]) with [str_lower given].
  pose proof (proj1 (existsb_eqb_false _ _) Ex) as Hnew. rewrite H4 in Hnew.
  repeat split; try lia.
  - rewrite length_app. cbn [List.length]. lia.
  - rewrite (set_add_new _ _ Ex), H4, app_assoc. reflexivity.
  - apply distinct_snoc; [exact H5|]. apply existsb_eqb_false.
    intros Hin. apply Hnew. apply in_or_app. right. exact Hin.
  - apply in_app_or in H. destruct H as [H|[<-|[]]]; [apply (H6 e H)|].
    intros Hin. apply Hnew. apply in_or_app. left. exact Hin.
  - apply in_app_or in H. destruct H as [H|[<-|[]]]; [apply (H6 e H)|].
    intros Hempty. apply str_lower_empty in Hempty. subst given. discriminate Ee.
  - apply in_app_or in H. destruct H as [H|[<-|[]]]; [apply (H6 e H)|].
    apply str_lower_idempotent.
Qed.

Lemma bulk_loop_accounted rows : forall n known index now b,
  accounted n known b ->
  accounted (n + List.length rows) known (bulk_loop text_of index rows now b).
Proof.
  induction rows as [|row rows IH]; intros n known index now b Hb;
    cbn [bulk_loop List.length].
  - rewrite Nat.add_0_r. exact Hb.
  - rewrite <- plus_n_Sm. apply (IH (S n)). apply bulk_row_accounted. exact Hb.
Qed.

Lemma collect_emails_known existing : forall emails known doc e,
  collect_emails existing emails = Ok known ->
  (In e emails \/ (In doc existing /\ email_key doc = Ok e)) ->
  In e known.
Proof.
  induction existing as [|c existing IH]; intros emails known doc e H Hin.
  - inversion H; subst. destruct Hin as [Hin|[[] _]]. exact Hin.
  - cbn [collect_emails] in H.
    assert (Hk : email_key c = (x <- get c "email" (VStr "") ;; lower_method x))
      by reflexivity.
    destruct (get c "email" (VStr "")) as [x|e1]; cbn [bind] in *; [|discriminate].
    destruct (lower_method x) as [email|e1]; cbn [bind] in *; [|discriminate].
    apply (IH _ _ doc e H).
    assert (Hadd : forall y, In y emails \/ y = email -> In y (set_add email emails)).
    { intros y Hy. unfold set_add.
      destruct (existsb (String.eqb email) emails) eqn:E.
      - destruct Hy as [Hy | ->]; [exact Hy|].
        apply existsb_exists in E. destruct E as (z & Hz & Ez).
        apply String.eqb_eq in Ez. subst z. exact Hz.
      - apply in_or_app. destruct Hy as [Hy | ->]; [left; exact Hy|right; left; reflexivity]. }
    destruct Hin as [Hin|[[<-|Hin] Hkey]].
    + left. apply Hadd. left. exact Hin.
    + left. apply Hadd. right. congruence.
    + right. split; assumption.
Qed.

(** X22.  Every row is accounted for, and a bad row does not stop the batch:
    when the addresses in the collection can be read, a request that is a
    non-empty list is answered with counters that add up to the number of
    rows, one error text for each failed row and one client to insert for
    each successful one. *)
Theorem bulk_rows_are_all_accounted_for :
  forall rows existing now known,
    rows <> [] ->
    collect_emails existing [] = Ok known ->
    exists r clients,
      bulk_create_clients text_of (VList rows) existing now = BulkDone r clients
      /\ successful r + failed r = Z.of_nat (List.length rows)
      /\ Z.of_nat (List.length (errors r)) = failed r
      /\ Z.of_nat (List.length clients) = successful r.
Proof.
  intros rows existing now known Hne Hknown. unfold bulk_create_clients.
  assert (Ht : truthy (VList rows) = true) by (destruct rows; [congruence|reflexivity]).
  rewrite Ht, Hknown. cbn [negb isinstance_list orb elements].
  eexists. eexists. split; [reflexivity|].
  assert (H0 : accounted 0 known (mk_batch (mk_results 0 0 []) known [])).
  { unfold accounted. cbn. rewrite app_nil_r. repeat split; auto; contradiction. }
  destruct (bulk_loop_accounted rows 0 known 0%nat now _ H0) as (H1 & H2 & H3 & _).
  cbn [Nat.add] in H1. auto.
Qed.

(** X23.  The clients handed to [insert_many] have addresses that are lower-case,
    not empty, different from one another and different from the
    lower-cased address of every client already in the collection. *)
Theorem bulk_inserts_only_new_addresses :
  forall body existing now r clients,
    bulk_create_clients text_of body existing now = BulkDone r clients ->
    List.length (inserted_emails clients) = List.length clients
    /\ distinct (inserted_emails clients) = true
    /\ forall e, In e (inserted_emails clients) ->
         e <> "" /\ str_lower e = e
         /\ forall doc, In doc existing -> email_key doc <> Ok e.
Proof.
  intros body existing now r clients. unfold bulk_create_clients.
  destruct (negb (truthy body) || negb (isinstance_list body))%bool; [discriminate|].
  destruct (collect_emails existing []) as [known|e0] eqn:Hknown; [|discriminate].
  intros H. inversion H; subst r clients; clear H.
  assert (H0 : accounted 0 known (mk_batch (mk_results 0 0 []) known [])).
  { unfold accounted. cbn. rewrite app_nil_r. repeat split; auto; contradiction. }
  destruct (bulk_loop_accounted (elements body) 0 known 0%nat now _ H0)
    as (H1 & H2 & H3 & H4 & H5 & H6).
  set (b := bulk_loop text_of 0 (elements body) now _) in *.
  split; [|split; [exact H5|]].
  - assert (Hlen : forall l n known0 index b0,
              accounted n known0 b0 ->
              List.length (inserted_emails (clients_to_insert b0))
              = List.length (clients_to_insert b0) ->
              List.length (inserted_emails
                             (clients_to_insert (bulk_loop text_of index l now b0)))
              = List.length (clients_to_insert (bulk_loop text_of index l now b0))).
    { induction l as [|row l IH]; intros n known0 index b0 Hb Hl; cbn [bulk_loop];
        [exact Hl|].
      apply (IH (S n) known0); [apply bulk_row_accounted; exact Hb|].
      unfold bulk_row.
      destruct row as [| | | | | |d| |]; try exact Hl.
      destruct (_ || _)%bool; [exact Hl|].
      destruct (default (dict_lookup "email" d) (VStr "")); try exact Hl.
      destruct (existsb _ _); [exact Hl|].
      cbn [clients_to_insert]. rewrite inserted_emails_app, !length_app, Hl.
      reflexivity. }
    apply (Hlen _ 0%nat known _ _ H0). reflexivity.
  - intros e He. destruct (H6 e He) as (Hk & Hne & Hlow).
    repeat split; auto.
    intros doc Hdoc Hkey. apply Hk.
    apply (collect_emails_known existing [] known doc e Hknown).
    right. split; assumption.
Qed.

End WithText.

Lemma bulk_rows_are_all_accounted_for_witness :
  exists r clients,
    bulk_create_clients (fun _ => "?")
      (VList [VDict [("name", VStr " Ann "); ("email", VStr "Ann@Example.org")];
              VDict [("name", VStr "Bob")];
              VInt 5;
              VDict [("name", VStr "Cy"); ("email", VStr "CY@example.org")];
              VDict [("name", VStr "Ann B."); ("email", VStr "ann@example.org")]])
      [VDict [("_id", VOid "65a1f0"); ("email", VStr "cy@example.org")]] 7
    = BulkDone r clients
    /\ successful r + failed r = 5
    /\ Z.of_nat (List.length (errors r)) = failed r
    /\ Z.of_nat (List.length clients) = successful r.
Proof.
  apply (bulk_rows_are_all_accounted_for (fun _ => "?")
           [VDict [("name", VStr " Ann "); ("email", VStr "Ann@Example.org")];
            VDict [("name", VStr "Bob")];
            VInt 5;
            VDict [("name", VStr "Cy"); ("email", VStr "CY@example.org")];
            VDict [("name", VStr "Ann B."); ("email", VStr "ann@example.org")]]
           [VDict [("_id", VOid "65a1f0"); ("email", VStr "cy@example.org")]] 7
           ["cy@example.org"]).
  - discriminate.
  - reflexivity.
Defined.

Lemma bulk_inserts_only_new_addresses_witness :
  List.length
    (inserted_emails
       [VDict [("name", VStr "Ann"); ("email", VStr "ann@example.org");
               ("phone", VStr ""); ("company", VStr ""); ("billing_address", VStr "");
               ("actual_address", VStr ""); ("notes", VStr "");
               ("created_at", VDate 7); ("updated_at", VDate 7)]])
  = 1%nat
  /\ distinct
       (inserted_emails
          [VDict [("name", VStr "Ann"); ("email", VStr "ann@example.org");
                  ("phone", VStr ""); ("company", VStr ""); ("billing_address", VStr "");
                  ("actual_address", VStr ""); ("notes", VStr "");
                  ("created_at", VDate 7); ("updated_at", VDate 7)]]) = true
  /\ forall e,
       In e (inserted_emails
               [VDict [("name", VStr "Ann"); ("email", VStr "ann@example.org");
                       ("phone", VStr ""); ("company", VStr "");
                       ("billing_address", VStr ""); ("actual_address", VStr "");
                       ("notes", VStr ""); ("created_at", VDate 7);
                       ("updated_at", VDate 7)]]) ->
       e <> "" /\ str_lower e = e
       /\ forall doc,
            In doc [VDict [("_id", VOid "65a1f0"); ("email", VStr "cy@example.org")]] ->
            email_key doc <> Ok e.
Proof.
  apply (bulk_inserts_only_new_addresses (fun _ => "?")
           (VList [VDict [("name", VStr " Ann "); ("email", VStr "Ann@Example.org")];
                   VInt 5;
                   VDict [("name", VStr "Cy"); ("email", VStr "CY@example.org")];
                   VDict [("name", VStr "Ann B."); ("email", VStr "ann@example.org")]])
           [VDict [("_id", VOid "65a1f0"); ("email", VStr "cy@example.org")]] 7
           (mk_results 1 3
              ["Row 2: 'int' object has no attribute 'get'";
               "Row 3: Email 'CY@example.org' already exists";
               "Row 4: Email 'ann@example.org' already exists"])).
  vm_compute. reflexivity.
Defined.

End BulkFacts.

(** ** From creation to payment *)
Module Lifecycle.
Import Py Totals Payment Create Terms FloatOrder DictFacts CreateEdge.

Lemma zero_add_positive a : PrimFloat.ltb zero a = true -> (zero + a)%float = a.
Proof.
  intros H. apply Prim2SF_inj. rewrite add_spec.
  rewrite ltb_spec in H. change (Prim2SF zero) with (S754_zero false) in *.
  destruct (Prim2SF a) as [s|s| |s m e]; try reflexivity; try discriminate H.
Qed.

Lemma calculate_invoice_total_float items g total :
  truthy items = true ->
  isinstance_list items = true ->
  calculate_invoice_total items (VFloat g) = Ok total ->
  exists t, total = NFloat t.
Proof.
  intros Ht Hl. unfold calculate_invoice_total. rewrite Ht, Hl. cbn [negb orb].
  destruct (total_loop (elements items) (NInt 0) (NInt 0)) as [[subtotal total_tax]|e];
    cbn [bind py_float]; [|discriminate].
  intros H. inversion H; subst total.
  destruct (num_add subtotal total_tax); cbn [num_add num_round2]; eexists; reflexivity.
Qed.

(** X24.  The first payment on a new invoice.  The total of an inserted invoice
    is a float; a payment of a positive amount stores that amount rounded
    to two places together with the status the rule gives for the amount
    and the total, and a payment of the total itself gives [paid]. *)
Theorem first_payment_on_a_new_invoice :
  forall body last_invoice now doc,
    create_invoice body last_invoice now = Insert doc ->
    exists total,
      dict_lookup "total" doc = Some (VFloat total)
      /\ (forall amount later,
             PrimFloat.ltb zero amount = true ->
             pay_invoice (VDict [("amount", VFloat amount)]) (Ok (Some (VDict doc))) later
             = PayUpdate [("amount_paid", VFloat (round2 amount));
                          ("status", VStr (payment_status amount total));
                          ("updated_at", VDate later)])
      /\ (PrimFloat.ltb zero total = true -> payment_status total total = "paid").
Proof.
  intros body last_invoice now doc H.
  destruct (create_invoice_insert _ _ _ _ H)
    as (d & items & g & total & number & -> & Hi & Hg & Ht & Hn & Hdoc).
  assert (Hitems : truthy items = true /\ isinstance_list items = true).
  { unfold create_invoice in H. cbn [truthy] in H.
    destruct d as [|kv d']; [discriminate H|]. cbn [negb] in H.
    rewrite Hi in H. cbn [default] in H.
    destruct (truthy items); [|discriminate H].
    destruct (isinstance_list items); [auto|discriminate H]. }
  destruct Hitems as [Htr Hli].
  destruct (calculate_invoice_total_float _ _ _ Htr Hli Ht) as [t ->].
  assert (Htotal : dict_lookup "total" doc = Some (VFloat t)).
  { subst doc. repeat (rewrite dict_lookup_set_other by discriminate).
    apply dict_lookup_set_same. }
  assert (Hpaid : dict_lookup "amount_paid" doc = Some (VFloat zero)).
  { subst doc. repeat (rewrite dict_lookup_set_other by discriminate).
    apply dict_lookup_set_same. }
  assert (Hne : truthy (VDict doc) = true).
  { destruct doc; [discriminate Htotal|reflexivity]. }
  exists t. split; [exact Htotal|]. split.
  - intros amount later Hpos. unfold pay_invoice.
    rewrite Hne.
    cbn [truthy negb get dict_lookup String.eqb Ascii.eqb Bool.eqb default bind py_float].
    assert (Hle : PrimFloat.leb amount zero = false) by float_order.
    rewrite Hle, Hpaid, Htotal. cbn [default bind py_float].
    rewrite (zero_add_positive amount Hpos). reflexivity.
  - intros Hpos. unfold payment_status.
    assert (Hle : PrimFloat.leb t t = true) by float_order.
    rewrite Hle. reflexivity.
Qed.

Lemma first_payment_on_a_new_invoice_witness :
  exists total,
    dict_lookup "total"
      [("items", VList [VDict [("quantity", VInt 2); ("unit_price", VInt 100);
                               ("tax", VInt 10)]]);
       ("from", VDict []); ("for", VDict []); ("invoice_number", VStr "INV-0001");
       ("total", VFloat 256%float); ("status", VStr "unpaid");
       ("amount_paid", VFloat zero); ("currency", VStr "INR");
       ("gst_rate", VFloat 18%float); ("created_at", VDate 7); ("updated_at", VDate 7)]
    = Some (VFloat total)
    /\ (forall amount later,
           PrimFloat.ltb zero amount = true ->
           pay_invoice (VDict [("amount", VFloat amount)])
             (Ok (Some (VDict
                [("items", VList [VDict [("quantity", VInt 2); ("unit_price", VInt 100);
                                         ("tax", VInt 10)]]);
                 ("from", VDict []); ("for", VDict []);
                 ("invoice_number", VStr "INV-0001");
                 ("total", VFloat 256%float); ("status", VStr "unpaid");
                 ("amount_paid", VFloat zero); ("currency", VStr "INR");
                 ("gst_rate", VFloat 18%float); ("created_at", VDate 7);
                 ("updated_at", VDate 7)]))) later
           = PayUpdate [("amount_paid", VFloat (round2 amount));
                        ("status", VStr (payment_status amount total));
                        ("updated_at", VDate later)])
    /\ (PrimFloat.ltb zero total = true -> payment_status total total = "paid").
Proof.
  apply (first_payment_on_a_new_invoice
           (VDict [("items", VList [VDict [("quantity", VInt 2); ("unit_price", VInt 100);
                                           ("tax", VInt 10)]])])
           [] 7).
  vm_compute. reflexivity.
Defined.

End Lifecycle.

(** ** Revenue by client *)
Module RevenueFacts.
Import Py Reports Spec Direct Terms ReportsFacts SummaryEdge.

Lemma hkey_eqb_eq a b : hkey_eqb a b = true -> a = b.
Proof.
  destruct a, b; cbn [hkey_eqb]; try discriminate; intros H.
  - reflexivity.
  - apply Z.eqb_eq in H. congruence.
  - apply andb_prop in H. destruct H as [H He]. apply andb_prop in H.
    destruct H as [Hs Hm]. apply Bool.eqb_prop in Hs. apply Pos.eqb_eq in Hm.
    apply Z.eqb_eq in He. congruence.
  - apply Bool.eqb_prop in H. congruence.
  - apply String.eqb_eq in H. congruence.
  - apply String.eqb_eq in H. congruence.
  - apply Z.eqb_eq in H. congruence.
Qed.

Lemma key_eqb_hash k k' :
  key_eqb k k' = true -> exists h, hash_key k = Ok h /\ hash_key k' = Ok h.
Proof.
  unfold key_eqb. destruct (hash_key k) as [h|e]; [|discriminate].
  destruct (hash_key k') as [h'|e]; [|discriminate].
  intros H. apply hkey_eqb_eq in H. subst h'. exists h. auto.
Qed.

(** Equal keys are interchangeable. *)
Lemma key_eqb_left k k' k0 : key_eqb k k' = true -> key_eqb k k0 = key_eqb k' k0.
Proof.
  intros H. destruct (key_eqb_hash _ _ H) as (h & H1 & H2).
  unfold key_eqb. rewrite H1, H2. reflexivity.
Qed.

Lemma key_eqb_right k k' k0 : key_eqb k k' = true -> key_eqb k0 k = key_eqb k0 k'.
Proof.
  intros H. destruct (key_eqb_hash _ _ H) as (h & H1 & H2).
  unfold key_eqb. rewrite H1, H2. reflexivity.
Qed.

Lemma hkey_eqb_sym a b : hkey_eqb a b = hkey_eqb b a.
Proof.
  destruct a, b; cbn [hkey_eqb]; try reflexivity.
  - apply Z.eqb_sym.
  - rewrite (Z.eqb_sym e), (Pos.eqb_sym m). destruct s, s0; reflexivity.
  - destruct s, s0; reflexivity.
  - apply String.eqb_sym.
  - apply String.eqb_sym.
  - apply Z.eqb_sym.
Qed.

Lemma key_eqb_sym k k' : key_eqb k k' = key_eqb k' k.
Proof.
  unfold key_eqb. destruct (hash_key k), (hash_key k'); try reflexivity.
  apply hkey_eqb_sym.
Qed.

Section Table.
Context {V : Type}.

Lemma tbl_find_update_same k k' (f : option V -> V) t :
  key_eqb k k' = true ->
  tbl_find k (tbl_update k' f t) = Some (f (tbl_find k' t)).
Proof.
  intros Hk. induction t as [|[k0 v] t IH]; cbn [tbl_update tbl_find].
  - rewrite Hk. reflexivity.
  - destruct (key_eqb k' k0) eqn:E; cbn [tbl_find].
    + rewrite (key_eqb_left _ _ k0 Hk), E. reflexivity.
    + rewrite (key_eqb_left _ _ k0 Hk), E. exact IH.
Qed.

Lemma tbl_find_update_other k k' (f : option V -> V) t :
  key_eqb k k = true ->
  key_eqb k k' = false ->
  tbl_find k (tbl_update k' f t) = tbl_find k t.
Proof.
  intros Hkk Hk. induction t as [|[k0 v] t IH]; cbn [tbl_update tbl_find].
  - rewrite Hk. reflexivity.
  - destruct (key_eqb k' k0) eqn:E; cbn [tbl_find].
    + rewrite <- (key_eqb_right _ _ k E), Hk. reflexivity.
    + destruct (key_eqb k k0); [reflexivity|exact IH].
Qed.

Lemma tbl_update_entries k (f : option V -> V) t e :
  In e (tbl_update k f t) ->
  (exists e0, In e0 t /\ fst e = fst e0) \/ (fst e = k /\ tbl_find k t = None).
Proof.
  induction t as [|[k0 v] t IH]; cbn [tbl_update tbl_find].
  - intros [<-|[]]. right. auto.
  - destruct (key_eqb k k0) eqn:E.
    + intros [<-|Hin]; left.
      * exists (k0, v). split; [left; reflexivity|reflexivity].
      * exists e. split; [right; exact Hin|reflexivity].
    + intros [<-|Hin].
      * left. exists (k0, v). split; [left; reflexivity|reflexivity].
      * destruct (IH Hin) as [(e0 & He0 & Hfst)|[Hfst Hnone]].
        -- left. exists e0. split; [right; exact He0|exact Hfst].
        -- right. auto.
Qed.

Lemma tbl_find_none k (t : list (value * V)) :
  tbl_find k t = None -> Forall (fun e => key_eqb k (fst e) = false) t.
Proof.
  induction t as [|[k0 v] t IH]; cbn [tbl_find]; intros H; constructor.
  - cbn [fst]. destruct (key_eqb k k0); [discriminate|reflexivity].
  - destruct (key_eqb k k0); [discriminate|exact (IH H)].
Qed.

Lemma tbl_update_keys_differ k (f : option V -> V) t :
  keys_differ t -> keys_differ (tbl_update k f t).
Proof.
  induction t as [|[k0 v] t IH]; cbn [tbl_update keys_differ].
  - intros _. split; [constructor|exact I].
  - intros [Hk0 Ht]. destruct (key_eqb k k0) eqn:E; cbn [keys_differ].
    + split; assumption.
    + split; [|exact (IH Ht)].
      apply Forall_forall. intros e He. rewrite Forall_forall in Hk0.
      destruct (tbl_update_entries _ _ _ _ He) as [(e0 & He0 & Hfst)|[Hfst _]].
      * rewrite Hfst. exact (Hk0 e0 He0).
      * rewrite Hfst, key_eqb_sym. exact E.
Qed.

Lemma tbl_find_entry k v (t : list (value * V)) :
  keys_differ t -> In (k, v) t -> key_eqb k k = true -> tbl_find k t = Some v.
Proof.
  induction t as [|[k0 v0] t IH]; cbn [keys_differ tbl_find]; intros Hd Hin Hk.
  - contradiction.
  - destruct Hd as [Hk0 Ht]. destruct Hin as [Hin|Hin].
    + inversion Hin; subst. rewrite Hk. reflexivity.
    + rewrite Forall_forall in Hk0. specialize (Hk0 _ Hin). cbn [fst] in Hk0.
      rewrite key_eqb_sym, Hk0. exact (IH Ht Hin Hk).
Qed.
End Table.

Lemma add_clients_find contribs : forall t k,
  key_eqb k k = true ->
  tbl_find k (add_clients contribs t) =
    match filter (fun c => key_eqb k (fst c)) contribs with
    | [] => tbl_find k t
    | xs => Some (sum_from (float_default (tbl_find k t)) (map snd xs))
    end.
Proof.
  induction contribs as [|[k' x] contribs IH]; intros t k Hk;
    cbn [add_clients fold_left filter fst snd].
  - reflexivity.
  - fold (add_clients contribs (tbl_update k' (fun o => (float_default o + x)%float) t)).
    rewrite (IH _ _ Hk). destruct (key_eqb k k') eqn:E.
    + rewrite (tbl_find_update_same _ _ _ _ E).
      assert (Hfind : tbl_find k' t = tbl_find k t).
      { clear - E. induction t as [|[k0 v] t IHt]; cbn [tbl_find]; [reflexivity|].
        rewrite (key_eqb_left _ _ k0 E). destruct (key_eqb k' k0); [reflexivity|exact IHt]. }
      rewrite Hfind. cbn [float_default map snd sum_from fold_left].
      destruct (filter _ contribs); reflexivity.
    + rewrite (tbl_find_update_other _ _ _ _ Hk E). reflexivity.
Qed.

Lemma add_clients_keys_differ contribs : forall t,
  keys_differ t -> keys_differ (add_clients contribs t).
Proof.
  induction contribs as [|c contribs IH]; intros t H; cbn [add_clients fold_left].
  - exact H.
  - apply IH. apply tbl_update_keys_differ. exact H.
Qed.

(** The revenue table after one invoice that is read without an
    exception. *)
Lemma process_invoice_revenue inv a :
  regular inv = true ->
  snd (process_invoice inv a) = Ok tt
  /\ client_revenue (fst (process_invoice inv a))
     = match client_of inv, invoice_amounts inv with
       | Some k, Ok (t, _) =>
           tbl_update k (fun o => (float_default o + t)%float) (client_revenue a)
       | _, _ => client_revenue a
       end.
Proof.
  intros Hreg.
  destruct (process_invoice_regular inv a Hreg) as (t & p & Hamt & Hok & _).
  split; [exact Hok|]. clear Hok. rewrite Hamt.
  rewrite process_invoice_direct.
  destruct inv as [| | | | | |d| |]; try discriminate Hreg.
  cbn [regular] in Hreg.
  unfold invoice_amounts, get in Hamt; cbn [bind] in Hamt.
  unfold client_of, body_direct.
  destruct (py_float (default (dict_lookup "total" d) (VInt 0))) as [t'|e];
    cbn [bind] in Hamt; [|discriminate].
  destruct (py_float (default (dict_lookup "amount_paid" d) (VInt 0))) as [p'|e];
    cbn [bind] in Hamt; [|discriminate].
  inversion Hamt; subst t' p'; clear Hamt.
  unfold after_totals.
  set (a1 := add_total_paid p (add_total_invoiced t a)).
  destruct (hash_key (default (dict_lookup "status" d) (VStr "unpaid"))) as [h|e];
    [|discriminate].
  destruct (status_frame (default (dict_lookup "status" d) (VStr "unpaid")) a1)
    as (_ & _ & _ & Hr2).
  cbv zeta in Hr2.
  set (a2 := match default (dict_lookup "status" d) (VStr "unpaid") with
             | VStr s => add_status s a1
             | _ => a1
             end) in *.
  assert (Ha2 : client_revenue a2 = client_revenue a) by exact Hr2.
  clearbody a2. clear Hr2.
  cbn [is_ok andb] in Hreg.
  destruct (default (dict_lookup "for" d) (VDict [])) as [| | | | | |f| |];
    try discriminate Hreg.
  cbn [get].
  set (cid := default (dict_lookup "id" f) VNone) in *.
  assert (Hstep : snd (client_step cid t a2) = Ok tt
                  /\ client_revenue (fst (client_step cid t a2))
                     = if truthy cid
                       then tbl_update cid (fun o => (float_default o + t)%float)
                                       (client_revenue a)
                       else client_revenue a).
  { unfold client_step. destruct (truthy cid) eqn:Et; [|auto].
    cbn [orb negb] in Hreg.
    destruct (hash_key cid); [|destruct (match dict_lookup "date" d with
                                         | Some (VDict _) => false | _ => true end);
                               discriminate Hreg].
    cbn [fst snd add_client_revenue client_revenue]. rewrite Ha2. auto. }
  destruct Hstep as [Hs1 Hs2].
  destruct (client_step cid t a2) as [a3 r3]. cbn [fst snd] in *. subst r3.
  pose proof (month_step_frame (default (dict_lookup "date" d) (VStr "")) t a3) as Hm.
  cbv zeta in Hm. destruct Hm as (_ & _ & Hm & _).
  destruct (month_step (default (dict_lookup "date" d) (VStr "")) t a3) as [a4 r4].
  cbn [fst] in Hm.
  assert (Hfst : fst (handled (a4, r4)) = a4).
  { destruct r4 as [u|e]; reflexivity. }
  rewrite Hfst, Hm, Hs2. destruct (truthy cid); reflexivity.
Qed.

Lemma accumulate_revenue invoices : forall a,
  forallb regular invoices = true ->
  exists a',
    for_each process_invoice invoices a = (a', Ok tt)
    /\ client_revenue a' = add_clients (client_contributions invoices) (client_revenue a).
Proof.
  induction invoices as [|inv invoices IH]; intros a Hreg.
  - exists a. split; reflexivity.
  - cbn [forallb] in Hreg. apply andb_prop in Hreg. destruct Hreg as [Hr Hrest].
    destruct (process_invoice_revenue inv a Hr) as [Hok Hrev].
    rewrite for_each_cons.
    destruct (process_invoice inv a) as [a1 r1]. cbn [fst snd] in *. subst r1.
    destruct (IH a1 Hrest) as (a' & Hrun & Hrev').
    exists a'. split; [exact Hrun|].
    rewrite Hrev', Hrev. unfold client_contributions. cbn [flat_map].
    destruct (client_of inv) as [k|]; [|reflexivity].
    destruct (invoice_amounts inv) as [[t p]|e]; reflexivity.
Qed.

(** X25.  Revenue by client.  Over invoices that are read without an exception,
    the revenue table holds, for a client id [k], the totals of the
    invoices whose [for.id] equals [k], added in the order of the invoices
    from [0.0], and nothing when there is none.  Ids are compared as
    dictionary keys are, so [1], [1.0] and [True] are one client. *)
Theorem client_revenue_sums_by_client :
  forall invoices,
    forallb regular invoices = true ->
    let revenue := client_revenue (fst (accumulate invoices)) in
    (forall k,
        key_eqb k k = true ->
        tbl_find k revenue =
          match contributions_to k invoices with
          | [] => None
          | _ => Some (client_total k invoices)
          end)
    /\ (forall k rev,
           In (k, rev) revenue -> key_eqb k k = true -> rev = client_total k invoices).
Proof.
  intros invoices Hreg. cbv zeta.
  destruct (accumulate_revenue invoices acc0 Hreg) as (a' & Hrun & Hrev).
  unfold accumulate. rewrite Hrun. cbn [fst]. rewrite Hrev.
  change (client_revenue acc0) with (@nil (value * float)).
  assert (Hfind : forall k, key_eqb k k = true ->
            tbl_find k (add_clients (client_contributions invoices) []) =
              match contributions_to k invoices with
              | [] => None
              | _ => Some (client_total k invoices)
              end).
  { intros k Hk. rewrite (add_clients_find _ _ _ Hk).
    unfold client_total, contributions_to. cbn [tbl_find float_default].
    destruct (filter _ (client_contributions invoices)); reflexivity. }
  split; [exact Hfind|].
  intros k rev Hin Hk.
  assert (Hd : keys_differ (add_clients (client_contributions invoices) (@nil (value * float))))
    by (apply add_clients_keys_differ; exact I).
  pose proof (tbl_find_entry _ _ _ Hd Hin Hk) as Hsome.
  rewrite (Hfind k Hk) in Hsome.
  destruct (contributions_to k invoices); [discriminate|].
  inversion Hsome. reflexivity.
Qed.

Lemma client_revenue_sums_by_client_witness :
  let revenue := client_revenue (fst (accumulate sample_invoices)) in
  (forall k,
      key_eqb k k = true ->
      tbl_find k revenue =
        match contributions_to k sample_invoices with
        | [] => None
        | _ => Some (client_total k sample_invoices)
        end)
  /\ (forall k rev,
         In (k, rev) revenue -> key_eqb k k = true ->
         rev = client_total k sample_invoices).
Proof.
  apply (client_revenue_sums_by_client sample_invoices).
  vm_compute. reflexivity.
Defined.

End RevenueFacts.

(** ** Ids that cannot be resolved, and the guard of [delete_client] *)
Module IdFacts.
Import Py Payment Update Ids Terms.

(** X26.  An id that is neither a valid [ObjectId] nor an integer is not
    answered by a 404: the second [int(id)], in the handler of the first,
    raises [ValueError] again, and every handler that resolves an id
    answers 500 (without writing anything). *)
Theorem malformed_id_is_a_server_error :
  forall (is_valid : string -> bool) id,
    is_valid id = false ->
    py_int id = Raise ValueError ->
    resolve is_valid id = Raise ValueError
    /\ (forall delete_one,
           delete_invoice is_valid id delete_one
           = (None, Error 500 "Failed to delete invoice"))
    /\ (forall text_of find_one invoices_for delete_one,
           delete_client is_valid text_of id find_one invoices_for delete_one
           = (None, Error 500 "Failed to delete client"))
    /\ (forall body find_one now,
           truthy body = true ->
           pay_invoice body (find_by_id is_valid find_one id) now
           = PayError 500 "Failed to record payment")
    /\ (forall body find_one now,
           truthy body = true ->
           update_invoice body (find_by_id is_valid find_one id) now
           = UpdateFailed ValueError).
Proof.
  intros is_valid id Hv Hi.
  assert (Hr : resolve is_valid id = Raise ValueError).
  { unfold resolve. rewrite Hv, Hi. cbn [bind]. reflexivity. }
  split; [exact Hr|]. repeat split.
  - intros delete_one. unfold delete_invoice. rewrite Hr. reflexivity.
  - intros text_of find_one invoices_for delete_one. unfold delete_client.
    rewrite Hr. reflexivity.
  - intros body find_one now Hb. unfold pay_invoice, find_by_id.
    rewrite Hb, Hr. reflexivity.
  - intros body find_one now Hb. unfold update_invoice, find_by_id.
    rewrite Hb, Hr. reflexivity.
Qed.

Lemma malformed_id_is_a_server_error_witness :
  resolve (fun _ => false) "seven" = Raise ValueError
  /\ (forall delete_one,
         delete_invoice (fun _ => false) "seven" delete_one
         = (None, Error 500 "Failed to delete invoice"))
  /\ (forall text_of find_one invoices_for delete_one,
         delete_client (fun _ => false) text_of "seven" find_one invoices_for delete_one
         = (None, Error 500 "Failed to delete client"))
  /\ (forall body find_one now,
         truthy body = true ->
         pay_invoice body (find_by_id (fun _ => false) find_one "seven") now
         = PayError 500 "Failed to record payment")
  /\ (forall body find_one now,
         truthy body = true ->
         update_invoice body (find_by_id (fun _ => false) find_one "seven") now
         = UpdateFailed ValueError).
Proof.
  apply (malformed_id_is_a_server_error (fun _ => false) "seven"); reflexivity.
Defined.

(** X27.  The guard of [delete_client].  A client is deleted only when the query
    for invoices returned nothing, and that query is made with one key
    only: the [_id] of the client when the URL holds an [ObjectId], the
    integer of the URL otherwise.  Invoices that refer to the client by its
    other id are not looked for. *)
Theorem delete_client_checks_one_key :
  forall (is_valid : string -> bool) text_of client_id find_one invoices_for delete_one
         q ans,
    delete_client is_valid text_of client_id find_one invoices_for delete_one
    = (Some q, ans) ->
    resolve is_valid client_id = Ok q
    /\ exists d key,
         find_one q = Some (VDict d)
         /\ key = match q with
                  | ByObjectId _ => default (dict_lookup "_id" d) VNone
                  | ByLegacyId n => VInt n
                  end
         /\ invoices_for key = [].
Proof.
  intros is_valid text_of client_id find_one invoices_for delete_one q ans.
  unfold delete_client.
  destruct (resolve is_valid client_id) as [q0|e]; [|discriminate].
  destruct (search_id q0 (find_one q0)) as [key|] eqn:Es; [|discriminate].
  destruct (find_one q0) as [c|] eqn:Ef; [|discriminate].
  destruct (truthy c) eqn:Et; cbn [negb]; [|discriminate].
  destruct c as [| | | | | |d| |]; try discriminate.
  destruct (invoices_for key) as [|inv rest] eqn:Ei.
  - intros H.
    assert (Hq : q0 = q).
    { destruct (delete_one q0 =? 0); inversion H; reflexivity. }
    subst q0. split; [reflexivity|].
    exists d, key. split; [exact Ef|]. split; [|exact Ei].
    unfold search_id in Es. destruct q as [oid|n].
    + rewrite Et in Es. destruct (dict_lookup "_id" d); inversion Es. reflexivity.
    + inversion Es. reflexivity.
  - destruct (invoice_numbers text_of (inv :: rest)) as [numbers|]; [|discriminate].
    destruct (join_comma (firstn 3 numbers)); discriminate.
Qed.

Lemma delete_client_checks_one_key_witness :
  resolve has_24_characters "65a1f0c2d4e6f8a0b1c3d5e7"
  = Ok (ByObjectId "65a1f0c2d4e6f8a0b1c3d5e7")
  /\ exists d key,
       sample_client_store (ByObjectId "65a1f0c2d4e6f8a0b1c3d5e7") = Some (VDict d)
       /\ key = default (dict_lookup "_id" d) VNone
       /\ sample_invoices_for key = [].
Proof.
  apply (delete_client_checks_one_key
           has_24_characters (fun _ => "?") "65a1f0c2d4e6f8a0b1c3d5e7"
           sample_client_store sample_invoices_for (fun _ => 1)
           (ByObjectId "65a1f0c2d4e6f8a0b1c3d5e7")
           (Message 200 "Client 'Ann' deleted successfully")).
  reflexivity.
Defined.

End IdFacts.
